(** * media-quality-check: the scoring engine of [media_quality_check/cli.py]

    A shallow embedding of the command-line tool's Python source and the
    properties of its classification and scoring rules.

    Conventions of the embedding.
    - A Python [float] is an IEEE-754 binary64 number: Rocq's primitive
      [float], with the kernel's own arithmetic.
    - A Python [int] is a [Z].
    - A Python [str] is a [string] holding the text in UTF-8; its characters
      are those of [PyStr.chars], which [len] and slices count.  The texts
      that ffprobe prints (codec names, tags, numbers) are ASCII, and [lower]
      acts on ASCII letters.
    - A dict read with [.get] is a record of optional fields, [None] standing
      for an absent key; a dict whose iteration order matters is an
      association list in insertion order.
    - An exception is a value of [exn]; a function that may raise returns a
      [result], and code that prints or writes [FILE_MEDIA_SCORE] runs in the
      monad [M] over the [world]. *)

From Stdlib Require Import ZArith List String Ascii Bool Lia.
From Stdlib Require Import Floats.
From Stdlib Require Import Permutation.
Import ListNotations.

Set Warnings "-inexact-float".

Local Open Scope Z_scope.
Local Open Scope string_scope.

(** ** Exceptions and results *)

Inductive exn : Type :=
| ValueError
| ZeroDivisionError
| OverflowError
| ProbeError
| SystemExit (code : Z).

Inductive result (A : Type) : Type :=
| Ok (a : A)
| Err (e : exn).

Arguments Ok {A} a.
Arguments Err {A} e.

Definition rbind {A B} (r : result A) (k : A -> result B) : result B :=
  match r with
  | Ok a => k a
  | Err e => Err e
  end.

Declare Scope result_scope.
Delimit Scope result_scope with result.
Notation "'let?' x ':=' r 'in' k" := (rbind r (fun x => k))
  (at level 10, x pattern, r at level 100, k at level 200) : result_scope.

(** ** Python floats *)

Module PyFloat.

Local Open Scope float_scope.

(** [x != x]: the float is a NaN. *)
Definition is_nan (x : float) : bool := PrimFloat.is_nan x.

(** Python's [max(a, b)]: the first argument is kept unless the second is
    strictly greater. *)
Definition max2 (a b : float) : float := if a <? b then b else a.

(** Python's [min(a, b)]: the first argument is kept unless the second is
    strictly smaller. *)
Definition min2 (a b : float) : float := if b <? a then b else a.

(** The integer [z] as an unnormalised binary number [|z| * 2^0]. *)
Definition SF_of_Z (z : Z) : spec_float :=
  match z with
  | Z0 => S754_zero false
  | Zpos p => S754_finite false p 0
  | Zneg p => S754_finite true p 0
  end.

(** The binary64 number nearest to the rational [a / b] (ties to even), for
    [b > 0]; the sign of a zero quotient is [neg]. *)
Definition nearest_ratio (neg : bool) (a : Z) (b : positive) : spec_float :=
  match a with
  | Z0 => S754_zero neg
  | _ => SFdiv prec emax (SF_of_Z a) (S754_finite false b 0)
  end.

(** [a / b] on Python ints (true division): correctly rounded, with
    [ZeroDivisionError] for a zero divisor and [OverflowError] when the
    quotient is too large for a float. *)
Definition int_truediv (a b : Z) : result float :=
  match b with
  | Z0 => Err ZeroDivisionError
  | Zpos q =>
      match nearest_ratio false a q with
      | S754_infinity _ => Err OverflowError
      | r => Ok (SF2Prim r)
      end
  | Zneg q =>
      match nearest_ratio true (- a) q with
      | S754_infinity _ => Err OverflowError
      | r => Ok (SF2Prim r)
      end
  end.

(** [float(z)] on a Python int. *)
Definition of_int (z : Z) : result float :=
  match nearest_ratio false z 1 with
  | S754_infinity _ => Err OverflowError
  | r => Ok (SF2Prim r)
  end.

(** [x / y] on floats: Python raises [ZeroDivisionError] for a zero divisor
    (of either sign) and otherwise divides as the hardware does. *)
Definition truediv (x y : float) : result float :=
  if y =? 0 then Err ZeroDivisionError else Ok (x / y).

(** [int(x)] on a float: truncation towards zero. *)
Definition to_int (x : float) : result Z :=
  match Prim2SF x with
  | S754_zero _ => Ok 0%Z
  | S754_infinity _ => Err OverflowError
  | S754_nan => Err ValueError
  | S754_finite s m e =>
      let mag := (if (0 <=? e)%Z then Zpos m * 2 ^ e else Zpos m / 2 ^ (- e))%Z in
      Ok (if s then (- mag)%Z else mag)
  end.

(** The integer nearest to [n / d] for [n >= 0] and [d > 0], ties to even. *)
Definition div_half_even (n d : Z) : Z :=
  let q := (n / d)%Z in
  let r := (n mod d)%Z in
  match (2 * r ?= d)%Z with
  | Lt => q
  | Gt => (q + 1)%Z
  | Eq => if Z.even q then q else (q + 1)%Z
  end.

(** [round(x, 2)]: the decimal with two digits after the point nearest to the
    exact value of [x] (ties to even), read back as the nearest float; NaN,
    infinities and zeros round to themselves. *)
Definition round2 (x : float) : float :=
  match Prim2SF x with
  | S754_finite s m e =>
      if (0 <=? e)%Z then x
      else
        let n := div_half_even (Zpos m * 100) (2 ^ (- e)) in
        SF2Prim (nearest_ratio s (if s then (- n)%Z else n) 100)
  | _ => x
  end.

End PyFloat.

(** ** Python strings *)

Module PyStr.

Definition lower_ascii (c : ascii) : ascii :=
  let n := N_of_ascii c in
  if ((65 <=? n) && (n <=? 90))%N then ascii_of_N (n + 32) else c.

(** [s.lower()] *)
Fixpoint lower (s : string) : string :=
  match s with
  | EmptyString => EmptyString
  | String c s' => String (lower_ascii c) (lower s')
  end.

(** [s.startswith(p)] *)
Definition startswith (p s : string) : bool := String.prefix p s.

(** [needle in hay] *)
Fixpoint contains (needle hay : string) : bool :=
  String.prefix needle hay ||
  match hay with
  | EmptyString => false
  | String _ hay' => contains needle hay'
  end.

(** [sep.join(l)] *)
Fixpoint join (sep : string) (l : list string) : string :=
  match l with
  | [] => EmptyString
  | [s] => s
  | s :: l' => s ++ sep ++ join sep l'
  end.

(** [x in (a, b, ...)] on strings *)
Definition mem (x : string) (l : list string) : bool :=
  existsb (String.eqb x) l.

(** *** Characters

    A [str] is a sequence of characters (code points), and [len] and slices
    count characters, not bytes.  A [string] holds the bytes of the text in
    UTF-8; a byte that is part of no well-formed sequence stands for itself,
    as one character: this is how the interpreter keeps the bytes of a
    command-line argument that it cannot decode. *)

(** A continuation byte, [0x80 .. 0xBF]. *)
Definition is_cont (c : ascii) : bool :=
  let n := N_of_ascii c in ((128 <=? n) && (n <=? 191))%N.

(** The second byte of a sequence that starts with the byte [b1]: a
    continuation byte, in the narrower range that excludes over-long forms,
    surrogates and code points above [0x10FFFF]. *)
Definition is_second (b1 c : ascii) : bool :=
  let n1 := N_of_ascii b1 in
  let n := N_of_ascii c in
  if (n1 =? 224)%N then ((160 <=? n) && (n <=? 191))%N
  else if (n1 =? 237)%N then ((128 <=? n) && (n <=? 159))%N
  else if (n1 =? 240)%N then ((144 <=? n) && (n <=? 191))%N
  else if (n1 =? 244)%N then ((128 <=? n) && (n <=? 143))%N
  else is_cont c.

(** The first character of a text and the rest of the text. *)
Definition first_char (s : string) : option (string * string) :=
  match s with
  | EmptyString => None
  | String b1 s1 =>
      let n1 := N_of_ascii b1 in
      let single := Some (String b1 EmptyString, s1) in
      if (n1 <? 128)%N then single
      else if ((194 <=? n1) && (n1 <=? 223))%N then
        match s1 with
        | String b2 s2 =>
            if is_cont b2
            then Some (String b1 (String b2 EmptyString), s2)
            else single
        | _ => single
        end
      else if ((224 <=? n1) && (n1 <=? 239))%N then
        match s1 with
        | String b2 (String b3 s3) =>
            if is_second b1 b2 && is_cont b3
            then Some (String b1 (String b2 (String b3 EmptyString)), s3)
            else single
        | _ => single
        end
      else if ((240 <=? n1) && (n1 <=? 244))%N then
        match s1 with
        | String b2 (String b3 (String b4 s4)) =>
            if is_second b1 b2 && is_cont b3 && is_cont b4
            then Some (String b1 (String b2 (String b3 (String b4 EmptyString))),
                       s4)
            else single
        | _ => single
        end
      else single
  end.

Fixpoint chars_from (fuel : nat) (s : string) : list string :=
  match fuel with
  | O => []
  | S fuel' =>
      match first_char s with
      | Some (c, rest) => c :: chars_from fuel' rest
      | None => []
      end
  end.

(** The characters of a text, each as the bytes that encode it. *)
Definition chars (s : string) : list string :=
  chars_from (String.length s) s.

(** The text made of the given characters. *)
Definition of_chars (l : list string) : string :=
  fold_right String.append EmptyString l.

(** [len(s)] *)
Definition len (s : string) : Z := Z.of_nat (List.length (chars s)).

(** [s[-n:]] for [0 < n]: the last [n] characters, all of [s] when it is
    shorter. *)
Definition last_chars (n : nat) (s : string) : string :=
  let l := chars s in
  of_chars (skipn (List.length l - n) l).

(** A non-empty string is true. *)
Definition truthy (s : string) : bool :=
  match s with
  | EmptyString => false
  | _ => true
  end.

(** The characters that [strip] removes, in the ASCII range. *)
Definition is_space (c : ascii) : bool :=
  let n := N_of_ascii c in
  (((9 <=? n) && (n <=? 13)) || ((28 <=? n) && (n <=? 32)))%N.

Definition digit_of (c : ascii) : option Z :=
  let n := N_of_ascii c in
  if ((48 <=? n) && (n <=? 57))%N then Some (Z.of_N (n - 48)) else None.

Fixpoint lstrip (l : list ascii) : list ascii :=
  match l with
  | c :: l' => if is_space c then lstrip l' else l
  | [] => []
  end.

Definition strip (l : list ascii) : list ascii :=
  rev (lstrip (rev (lstrip l))).

(** The digits of a numeral after its first one: digits, each optionally
    preceded by a single underscore.  Returns the number read so far, how
    many digits were read, and the rest of the text. *)
Fixpoint more_digits (acc : Z) (count : Z) (l : list ascii)
  : Z * Z * list ascii :=
  match l with
  | c :: l' =>
      match digit_of c with
      | Some d => more_digits (10 * acc + d) (count + 1) l'
      | None =>
          if Ascii.eqb c "_"%char then
            match l' with
            | c' :: l'' =>
                match digit_of c' with
                | Some d => more_digits (10 * acc + d) (count + 1) l''
                | None => (acc, count, l)
                end
            | [] => (acc, count, l)
            end
          else (acc, count, l)
      end
  | [] => (acc, count, l)
  end.

(** A run of digits continuing the number [acc]: [None] when the text does
    not start with a digit. *)
Definition digitpart (acc : Z) (l : list ascii)
  : option (Z * Z * list ascii) :=
  match l with
  | c :: l' =>
      match digit_of c with
      | Some d => Some (more_digits (10 * acc + d) 1 l')
      | None => None
      end
  | [] => None
  end.

(** An optional sign: [true] for a minus. *)
Definition sign (l : list ascii) : bool * list ascii :=
  match l with
  | c :: l' =>
      if Ascii.eqb c "-"%char then (true, l')
      else if Ascii.eqb c "+"%char then (false, l')
      else (false, l)
  | [] => (false, l)
  end.

(** [int(s)] on a string, base ten (the interpreter's cap on the number of
    digits aside). *)
Definition to_int (s : string) : result Z :=
  let (neg, l) := sign (strip (list_ascii_of_string s)) in
  match digitpart 0 l with
  | Some (n, _, []) => Ok (if neg then - n else n)
  | _ => Err ValueError
  end.

(** The exponent part of a float literal, [0] when there is none. *)
Definition exponent (l : list ascii) : option Z :=
  match l with
  | [] => Some 0
  | c :: l' =>
      if Ascii.eqb (lower_ascii c) "e"%char then
        let (neg, l'') := sign l' in
        match digitpart 0 l'' with
        | Some (n, _, []) => Some (if neg then - n else n)
        | _ => None
        end
      else None
  end.

(** A decimal literal as [(n, k)], standing for [n * 10^k]. *)
Definition decimal (l : list ascii) : option (Z * Z) :=
  let after_point int_part l1 :=
    match l1 with
    | c :: l2 =>
        if Ascii.eqb c "."%char then
          match digitpart int_part l2 with
          | Some (n, k, l3) => Some (n, k, l3)
          | None => Some (int_part, 0, l2)
          end
        else Some (int_part, 0, l1)
    | [] => Some (int_part, 0, l1)
    end in
  let mantissa :=
    match digitpart 0 l with
    | Some (n, _, l1) => after_point n l1
    | None =>
        match l with
        | c :: l2 =>
            if Ascii.eqb c "."%char then
              match digitpart 0 l2 with
              | Some (n, k, l3) => Some (n, k, l3)
              | None => None
              end
            else None
        | [] => None
        end
    end in
  match mantissa with
  | Some (n, k, rest) =>
      match exponent rest with
      | Some e => Some (n, e - k)
      | None => None
      end
  | None => None
  end.

(** [float(s)] on a string: the nearest float to the decimal it spells,
    [inf] when that is too large; [inf], [infinity] and [nan] in any case. *)
Definition to_float (s : string) : result float :=
  let (neg, l) := sign (strip (list_ascii_of_string s)) in
  let word := lower (string_of_list_ascii l) in
  if mem word ["inf"; "infinity"] then
    Ok (if neg then neg_infinity else infinity)
  else if String.eqb word "nan" then Ok nan
  else
    match decimal l with
    | Some (n, k) =>
        let n' := if neg then - n else n in
        Ok (SF2Prim
              (if (0 <=? k)%Z then PyFloat.nearest_ratio neg (n' * 10 ^ k) 1
               else PyFloat.nearest_ratio neg n' (Z.to_pos (10 ^ (- k)))))
    | None => Err ValueError
    end.

End PyStr.

(** ** The records ffprobe produces

    [run_ffprobe] returns the JSON document of [ffprobe -show_streams
    -show_format]: numbers for [width], [height], [channels] and
    [attached_pic]; strings for everything else, the bit rates, the size and
    the duration included.  An absent key is [None]. *)

Record Disposition := { attached_pic : option Z }.

Record SideData := { side_data_type : option string }.

Record Stream := {
  codec_type : option string;
  codec_name : option string;
  codec_long_name : option string;
  profile : option string;
  codec_tag_string : option string;
  width : option Z;
  height : option Z;
  pix_fmt : option string;
  color_transfer : option string;
  bit_rate : option string;
  channels : option Z;
  side_data_list : option (list SideData);
  disposition : option Disposition;
  tags : option (list (string * string))
}.

Record Format := { size : option string; duration : option string }.

Record ProbeData := { streams : option (list Stream); format : option Format }.

(** [d.get(key, default)] *)
Definition get {A} (field : option A) (default : A) : A :=
  match field with
  | Some a => a
  | None => default
  end.

(** [d.get(key) or ""] on a string field *)
Definition get_or_empty (field : option string) : string :=
  match field with
  | Some s => if PyStr.truthy s then s else ""
  | None => ""
  end.

(** [tags.get(key)]: the dict is kept in insertion order. *)
Fixpoint dict_get {A} (key : string) (d : list (string * A)) : option A :=
  match d with
  | [] => None
  | (k, a) :: d' => if String.eqb k key then Some a else dict_get key d'
  end.

(** [d[key] = a]: an existing key keeps its place, a new one goes last. *)
Fixpoint dict_set {A} (key : string) (a : A) (d : list (string * A))
  : list (string * A) :=
  match d with
  | [] => [(key, a)]
  | (k, b) :: d' =>
      if String.eqb k key then (k, a) :: d' else (k, b) :: dict_set key a d'
  end.

Definition opt_string_eqb (x : option string) (s : string) : bool :=
  match x with
  | Some t => String.eqb t s
  | None => false
  end.

Local Open Scope float_scope.
Local Open Scope result_scope.

(** ** Video helpers *)

Definition detect_dolby_vision (video_stream : Stream) : bool :=
  existsb
    (fun sd =>
       let sdt := PyStr.lower (get_or_empty (side_data_type sd)) in
       PyStr.contains "dovi" sdt || PyStr.contains "dolby vision" sdt)
    (get (side_data_list video_stream) [])
  || (let tag := PyStr.lower (get_or_empty (codec_tag_string video_stream)) in
      PyStr.mem tag ["dvh1"; "dvhe"]).

Definition get_video_bitrate_mbps (v : Stream) (fmt : Format) : result float :=
  let br := bit_rate v in
  if match br with Some s => PyStr.truthy s | None => false end then
    let? n := PyStr.to_int (get br "") in
    PyFloat.int_truediv n 1000000
  else
    let? size :=
      match size fmt with
      | Some s => PyStr.to_float s
      | None => PyFloat.of_int 0
      end in
    let? duration :=
      match duration fmt with
      | Some s => PyStr.to_float s
      | None => PyFloat.of_int 1
      end in
    let? q := PyFloat.truediv (size * 8) duration in
    PyFloat.truediv q 1000000.

Definition compute_video_score (v : Stream) (fmt : Format) (is_hdr is_dv : bool)
  : result (float * float * string) :=
  let width := get (width v) 0%Z in
  let? vbps := get_video_bitrate_mbps v fmt in
  let '(score, verdict) :=
    if (3840 <=? width)%Z then
      if is_dv || is_hdr then
        if 15 <=? vbps then (5.0, "REFERENCE QUALITY")
        else if 12 <=? vbps then (4.5, "EXCELLENT")
        else (4.0, "GOOD")
      else
        if 20 <=? vbps then (4.5, "EXCELLENT")
        else (4.0, "GOOD")
    else if (1920 <=? width)%Z then
      if 30 <=? vbps then (4.5, "EXCELLENT")
      else if 20 <=? vbps then (4.0, "GOOD")
      else (3.5, "MEDIUM")
    else if (1280 <=? width)%Z then (3.0, "MEDIUM")
    else (2.0, "LOW") in
  Ok (score, vbps, verdict).

(** ** Audio helpers *)

Definition object_markers : list string :=
  ["atmos"; "dts:x"; "dtsx"; "dts x"; "auro"; "auro-3d"; "mpeg-h"; "3d audio"].

Definition detect_object_audio (a : Stream) : bool * string :=
  let haystack :=
    PyStr.lower
      (PyStr.join " "
         [get (codec_name a) "";
          get (codec_long_name a) "";
          get (profile a) "";
          PyStr.join " " (map snd (get (tags a) []))]) in
  (existsb (fun k => PyStr.contains k haystack) object_markers, haystack).

(** [a.get("bit_rate") or a.get("tags", {}).get("BPS")] *)
Definition raw_bit_rate (a : Stream) : option string :=
  match bit_rate a with
  | Some s => if PyStr.truthy s then Some s else dict_get "BPS" (get (tags a) [])
  | None => dict_get "BPS" (get (tags a) [])
  end.

(** [int(raw_br) / 1000 if raw_br else 0] *)
Definition kbps_of (raw_br : option string) : result float :=
  match raw_br with
  | Some s =>
      if PyStr.truthy s then
        let? n := PyStr.to_int s in PyFloat.int_truediv n 1000
      else Ok 0
  | None => Ok 0
  end.

(** The body of the loop of [compute_audio_score] for one audio stream, up
    to [min(score, 5.0)]. *)
Definition audio_stream_score (a : Stream) : result float :=
  let codec := get (codec_name a) "" in
  let ch := get (channels a) 0%Z in
  let profile := PyStr.lower (get_or_empty (profile a)) in
  let raw_br := raw_bit_rate a in
  let? br_kbps := kbps_of raw_br in
  let '(is_object, haystack) := detect_object_audio a in
  let is_lossless :=
    String.eqb codec "truehd"
    || (PyStr.startswith "dts" codec && PyStr.contains "hd" profile) in
  (* Base score (codec + bitrate) *)
  let score :=
    if is_lossless then 5.0
    else if String.eqb codec "eac3" then
      if 640 <=? br_kbps then 4.6
      else if 448 <=? br_kbps then 4.2
      else if 384 <=? br_kbps then 3.8
      else if 256 <=? br_kbps then 3.3
      else 2.4
    else if String.eqb codec "ac3" then
      if 640 <=? br_kbps then 3.8
      else if 448 <=? br_kbps then 3.4
      else 3.0
    else if String.eqb codec "aac" then
      if (6 <=? ch)%Z && (384 <=? br_kbps) then 3.0
      else if (2 <=? ch)%Z then 2.4
      else 2.0
    else 2.0 in
  (* Channel bonus (small) *)
  let score :=
    if (8 <=? ch)%Z then score + 0.2
    else if (6 <=? ch)%Z then score + 0.1
    else score in
  (* Object audio bonus (conditional on bitrate) *)
  let score :=
    if is_object then
      if is_lossless then score
      else if String.eqb codec "eac3" && (448 <=? br_kbps) then score + 0.15
      else if PyStr.startswith "dts" codec && (1500 <=? br_kbps) then score + 0.15
      else score
    else score in
  Ok (PyFloat.min2 score 5.0).

Fixpoint audio_loop (best : float) (streams : list Stream) : result float :=
  match streams with
  | [] => Ok best
  | a :: rest =>
      if negb (opt_string_eqb (codec_type a) "audio") then audio_loop best rest
      else
        let? s := audio_stream_score a in
        audio_loop (PyFloat.max2 best s) rest
  end.

Definition compute_audio_score (streams : list Stream) : result float :=
  audio_loop 0.0 streams.

(** ** The world: standard output and the module-level [FILE_MEDIA_SCORE] *)

(** What the tool prints, one constructor per [print] call of the source;
    the numbers are kept as values rather than as formatted text. *)
Inductive line : Type :=
| FileNotFound (file : string)
| Separator
| FileHeader (file : string)
| VideoHeader
| VideoLine (codec : option string) (w h : option Z)
            (bitdepth hdr_label : string) (vbps : float)
| AudioHeader
| AudioLine (codec : string) (ch : Z) (kbps : option Z)
            (lang obj_type : string)
| MediaScoreLine (media_score : float)
| VerdictLine (video_verdict : string)
| UsageLine
| PreferredLine (display : string).

Record world := {
  FILE_MEDIA_SCORE : list (string * (float * float));
  stdout : list line
}.

(** A computation either returns or raises; both leave a world behind. *)
Inductive outcome (A : Type) : Type :=
| Done (a : A) (w : world)
| Raised (e : exn) (w : world).

Arguments Done {A} a w.
Arguments Raised {A} e w.

Definition M (A : Type) : Type := world -> outcome A.

Definition ret {A} (a : A) : M A := fun w => Done a w.

Definition bind {A B} (c : M A) (k : A -> M B) : M B :=
  fun w =>
    match c w with
    | Done a w' => k a w'
    | Raised e w' => Raised e w'
    end.

Definition raise {A} (e : exn) : M A := fun w => Raised e w.

Definition lift {A} (r : result A) : M A :=
  match r with
  | Ok a => ret a
  | Err e => raise e
  end.

(** The world after some more lines of output. *)
Definition printed (w : world) (ls : list line) : world :=
  {| FILE_MEDIA_SCORE := FILE_MEDIA_SCORE w; stdout := stdout w ++ ls |}.

Definition print (l : line) : M unit := fun w => Done tt (printed w [l]).

Definition store (file : string) (entry : float * float) : M unit :=
  fun w =>
    Done tt {| FILE_MEDIA_SCORE := dict_set file entry (FILE_MEDIA_SCORE w);
               stdout := stdout w |}.

Definition read_scores : M (list (string * (float * float))) :=
  fun w => Done (FILE_MEDIA_SCORE w) w.

(** What a computation returned, and the world it left. *)
Definition value_of {A} (o : outcome A) : result A :=
  match o with
  | Done a _ => Ok a
  | Raised e _ => Err e
  end.

Definition world_of {A} (o : outcome A) : world :=
  match o with
  | Done _ w => w
  | Raised _ w => w
  end.

(** The computation leaves [FILE_MEDIA_SCORE] as it found it, whether it
    returns or raises. *)
Definition only_prints {A} (c : M A) : Prop :=
  forall w, FILE_MEDIA_SCORE (world_of (c w)) = FILE_MEDIA_SCORE w.

Declare Scope M_scope.
Delimit Scope M_scope with M.
Notation "x <- c ;; k" := (bind c (fun x => k))
  (at level 61, c at next level, right associativity) : M_scope.
Notation "' pat <- c ;; k" := (bind c (fun x => match x with pat => k end))
  (at level 61, pat pattern, c at next level, right associativity) : M_scope.
Notation "c ;; k" := (bind c (fun _ => k))
  (at level 61, right associativity) : M_scope.

Local Open Scope M_scope.

(** [for x in l: state = body(state, x)] *)
Fixpoint for_each {A S} (body : S -> A -> M S) (state : S) (l : list A) : M S :=
  match l with
  | [] => ret state
  | x :: l' => s <- body state x ;; for_each body s l'
  end.

(** [max(l, key=key)], with [gt] the [>] of the keys: the first item whose
    key no later item exceeds; [ValueError] on an empty sequence. *)
Fixpoint max_from {A K} (gt : K -> K -> bool) (key : A -> K)
  (maxitem : A) (l : list A) : A :=
  match l with
  | [] => maxitem
  | item :: l' =>
      max_from gt key (if gt (key item) (key maxitem) then item else maxitem) l'
  end.

Definition py_max {A K} (gt : K -> K -> bool) (key : A -> K) (l : list A)
  : result A :=
  match l with
  | [] => Err ValueError
  | item :: l' => Ok (max_from gt key item l')
  end.

(** [(a1, b1) > (a2, b2)] on pairs of floats: the first components that
    differ decide.  (Python takes one and the same float object as equal to
    itself, NaN included; the entries of [FILE_MEDIA_SCORE] hold floats
    computed apart, compared here by value.) *)
Definition pair_gt (x y : float * float) : bool :=
  if fst x =? fst y then
    if snd x =? snd y then false else snd y <? snd x
  else fst y <? fst x.

(** ** Analysis *)

Definition print_separator : M unit := print Separator.

(** The streams kept as [video_streams]. *)
Definition is_video_stream (s : Stream) : bool :=
  opt_string_eqb (codec_type s) "video"
  && negb (get (attached_pic (get (disposition s) {| attached_pic := None |})) 0
           =? 1)%Z.

(** Lines 229-237: the label of one video stream and the two flags after
    it. *)
Definition hdr_classification (v : Stream) (is_hdr is_dv : bool)
  : string * bool * bool :=
  let transfer := get (color_transfer v) "" in
  let dovi := detect_dolby_vision v in
  if dovi then ("Dolby Vision", true, true)
  else if PyStr.mem transfer ["smpte2084"; "arib-std-b67"] then
    ("HDR", true, is_dv)
  else ("SDR", is_hdr, is_dv).

(** The stream sets [is_hdr]: it is Dolby Vision or has an HDR transfer. *)
Definition sets_hdr (v : Stream) : bool :=
  snd (fst (hdr_classification v false false)).

(** The flags [(is_hdr, is_dv)] that the loop over [video_streams] leaves. *)
Definition video_flags (video_streams : list Stream) : bool * bool :=
  fold_left
    (fun flags v =>
       let '(_, is_hdr, is_dv) := hdr_classification v (fst flags) (snd flags) in
       (is_hdr, is_dv))
    video_streams (false, false).

(** The body of the loop over [video_streams]; the state is
    [(is_hdr, is_dv)]. *)
Definition video_stream_body (fmt : Format) (flags : bool * bool) (v : Stream)
  : M (bool * bool) :=
  let pix_fmt := get (pix_fmt v) "" in
  let bitdepth := if PyStr.contains "10" pix_fmt then "10-bit" else "8-bit" in
  let '(hdr_label, is_hdr, is_dv) :=
    hdr_classification v (fst flags) (snd flags) in
  vbps <- lift (get_video_bitrate_mbps v fmt) ;;
  print (VideoLine (codec_name v) (width v) (height v) bitdepth hdr_label vbps) ;;
  ret (is_hdr, is_dv).

(** [max(video_streams, key=lambda x: x.get("width", 0))] *)
Definition best_video_of (video_streams : list Stream) : result Stream :=
  py_max Z.gtb (fun x => get (width x) 0%Z) video_streams.

(** The body of the loop over [audio_streams]. *)
Definition audio_stream_body (_ : unit) (a : Stream) : M unit :=
  let codec := get (codec_name a) "" in
  let ch := get (channels a) 0%Z in
  let lang := get (dict_get "language" (get (tags a) [])) "und" in
  let raw_br := raw_bit_rate a in
  br <- lift
    (match raw_br with
     | Some s =>
         if PyStr.truthy s then
           (let? n := PyStr.to_int s in
            let? q := PyFloat.int_truediv n 1000 in
            let? k := PyFloat.to_int q in
            Ok (Some k))%result
         else Ok None
     | None => Ok None
     end) ;;
  let '(is_object, haystack) := detect_object_audio a in
  let obj_type :=
    if is_object then
      if PyStr.contains "atmos" haystack then "Atmos"
      else if PyStr.contains "dts:x" haystack || PyStr.contains "dtsx" haystack
              || PyStr.contains "dts x" haystack then "DTS:X"
      else if PyStr.contains "auro" haystack || PyStr.contains "auro-3d" haystack
      then "Auro-3D"
      else if PyStr.contains "mpeg-h" haystack || PyStr.contains "3d audio" haystack
      then "MPEG-H"
      else ""
    else "" in
  print (AudioLine codec ch br lang obj_type).

Section Run.

(** The environment of a run: [str(Path(arg))], [Path.exists] and the
    ffprobe subprocess, the latter two on the path's text. *)
Variable path_str : string -> string.
Variable path_exists : string -> bool.
Variable run_ffprobe : string -> result ProbeData.

(** Lines 212-247: the video part of [analyze_file]. *)
Definition video_section (streams : list Stream) (fmt : Format)
  : M (float * float * string) :=
  let video_streams := filter is_video_stream streams in
  print VideoHeader ;;
  ' (is_hdr, is_dv) <- for_each (video_stream_body fmt) (false, false) video_streams ;;
  best_video <- lift (best_video_of video_streams) ;;
  lift (compute_video_score best_video fmt is_hdr is_dv).

(** Lines 249-275: the audio part of [analyze_file]. *)
Definition audio_section (streams : list Stream) : M float :=
  let audio_streams :=
    filter (fun s => opt_string_eqb (codec_type s) "audio") streams in
  print AudioHeader ;;
  for_each audio_stream_body tt audio_streams ;;
  lift (compute_audio_score audio_streams).

Definition analyze_file (file : string) : M unit :=
  let file := path_str file in
  if negb (path_exists file) then print (FileNotFound file)
  else
    print_separator ;;
    print (FileHeader file) ;;
    print_separator ;;
    data <- lift (run_ffprobe file) ;;
    let streams := get (streams data) [] in
    let fmt := get (format data) {| size := None; duration := None |} in
    ' (video_score, vbps, video_verdict) <- video_section streams fmt ;;
    audio_score <- audio_section streams ;;
    let media_score :=
      PyFloat.round2 (PyFloat.min2 (video_score * 0.7 + audio_score * 0.3) 5.0) in
    store file (media_score, vbps) ;;
    print (MediaScoreLine media_score) ;;
    print (VerdictLine video_verdict) ;;
    print_separator.

(** [for f in sys.argv[1:]: analyze_file(f)] *)
Definition analyze_all (files : list string) : M unit :=
  for_each (fun _ f => analyze_file f) tt files.

(** [max(FILE_MEDIA_SCORE.items(), key=lambda x: (x[1][0], x[1][1]))[0]] *)
Definition best_file_of (scores : list (string * (float * float)))
  : result string :=
  (let? best := py_max pair_gt (fun x => (fst (snd x), snd (snd x))) scores in
   Ok (fst best))%result.

Definition main (argv : list string) : M unit :=
  (if (Z.of_nat (List.length argv) <? 2)%Z
   then print UsageLine ;; raise (SystemExit 1)
   else ret tt) ;;
  analyze_all (tl argv) ;;
  if (Z.of_nat (List.length argv) >? 2)%Z then
    scores <- read_scores ;;
    best_file <- lift (best_file_of scores) ;;
    let display :=
      if (PyStr.len best_file <=? 100)%Z then best_file
      else "..." ++ PyStr.last_chars 97 best_file in
    print (PreferredLine display) ;;
    print_separator
  else ret tt.

End Run.

(** ** The specification's tables, as the specification words them *)

Module Spec.

(** One row of the video decision table: a lower bound on the width (none for
    the last bracket), the HDR/Dolby-Vision column (none for a dash), a lower
    bound on the bitrate in Mbps (none for a dash or "else"), and the score
    and verdict of the row. *)
Record row := {
  min_width : option Z;
  hdr_dv : option bool;
  min_bitrate : option float;
  row_score : float;
  row_verdict : string
}.

Definition video_rows : list row :=
  [ {| min_width := Some 3840%Z; hdr_dv := Some true; min_bitrate := Some 15;
       row_score := 5.0; row_verdict := "REFERENCE QUALITY" |};
    {| min_width := Some 3840%Z; hdr_dv := Some true; min_bitrate := Some 12;
       row_score := 4.5; row_verdict := "EXCELLENT" |};
    {| min_width := Some 3840%Z; hdr_dv := Some true; min_bitrate := None;
       row_score := 4.0; row_verdict := "GOOD" |};
    {| min_width := Some 3840%Z; hdr_dv := Some false; min_bitrate := Some 20;
       row_score := 4.5; row_verdict := "EXCELLENT" |};
    {| min_width := Some 3840%Z; hdr_dv := Some false; min_bitrate := None;
       row_score := 4.0; row_verdict := "GOOD" |};
    {| min_width := Some 1920%Z; hdr_dv := None; min_bitrate := Some 30;
       row_score := 4.5; row_verdict := "EXCELLENT" |};
    {| min_width := Some 1920%Z; hdr_dv := None; min_bitrate := Some 20;
       row_score := 4.0; row_verdict := "GOOD" |};
    {| min_width := Some 1920%Z; hdr_dv := None; min_bitrate := None;
       row_score := 3.5; row_verdict := "MEDIUM" |};
    {| min_width := Some 1280%Z; hdr_dv := None; min_bitrate := None;
       row_score := 3.0; row_verdict := "MEDIUM" |};
    {| min_width := None; hdr_dv := None; min_bitrate := None;
       row_score := 2.0; row_verdict := "LOW" |} ].

Definition width_ok (width : Z) (r : row) : bool :=
  match min_width r with
  | Some bound => (bound <=? width)%Z
  | None => true
  end.

(** The width bracket of a stream: the bound of the first row its width
    reaches. *)
Definition bracket (width : Z) : option (option Z) :=
  option_map min_width (find (width_ok width) video_rows).

Definition same_bracket (b : option Z) (r : row) : bool :=
  match b, min_width r with
  | Some x, Some y => (x =? y)%Z
  | None, None => true
  | _, _ => false
  end.

Definition hdr_ok (flag : bool) (r : row) : bool :=
  match hdr_dv r with
  | Some b => Bool.eqb b flag
  | None => true
  end.

Definition bitrate_ok (vbps : float) (r : row) : bool :=
  match min_bitrate r with
  | Some bound => bound <=? vbps
  | None => true
  end.

(** The table read as the specification says: the width picks the bracket,
    and within it the rows are tried top-down. *)
Definition video_table (width : Z) (flag : bool) (vbps : float)
  : option (float * string) :=
  match bracket width with
  | Some b =>
      option_map (fun r => (row_score r, row_verdict r))
        (find (fun r => same_bracket b r && hdr_ok flag r && bitrate_ok vbps r)
           video_rows)
  | None => None
  end.

(** The first tier whose threshold the bitrate reaches, [floor] otherwise. *)
Fixpoint tier (tiers : list (float * float)) (floor : float) (kbps : float)
  : float :=
  match tiers with
  | [] => floor
  | (threshold, s) :: tiers' =>
      if threshold <=? kbps then s else tier tiers' floor kbps
  end.

Definition lossless (codec profile : string) : bool :=
  String.eqb codec "truehd"
  || (PyStr.startswith "dts" codec && PyStr.contains "hd" (PyStr.lower profile)).

Definition base_score (codec profile : string) (ch : Z) (kbps : float) : float :=
  if lossless codec profile then 5.0
  else if String.eqb codec "eac3" then
    tier [(640, 4.6); (448, 4.2); (384, 3.8); (256, 3.3)] 2.4 kbps
  else if String.eqb codec "ac3" then
    tier [(640, 3.8); (448, 3.4)] 3.0 kbps
  else if String.eqb codec "aac" then
    if (6 <=? ch)%Z && (384 <=? kbps) then 3.0
    else if (2 <=? ch)%Z then 2.4
    else 2.0
  else 2.0.

Definition channel_bonus (ch : Z) : float :=
  if (8 <=? ch)%Z then 0.2 else if (6 <=? ch)%Z then 0.1 else 0.

Definition object_bonus (markers : bool) (codec profile : string) (kbps : float)
  : float :=
  if markers && negb (lossless codec profile)
     && ((String.eqb codec "eac3" && (448 <=? kbps))
         || (PyStr.startswith "dts" codec && (1500 <=? kbps)))
  then 0.15 else 0.

(** The per-stream audio score of section 4.3. *)
Definition audio_score (markers : bool) (codec profile : string) (ch : Z)
  (kbps : float) : float :=
  let total :=
    base_score codec profile ch kbps + channel_bonus ch
    + object_bonus markers codec profile kbps in
  if 5.0 <? total then 5.0 else total.

(** The markers of object audio (section 4.1). *)
Definition markers : list string :=
  ["atmos"; "dts:x"; "dtsx"; "dts x"; "auro"; "auro-3d"; "mpeg-h"; "3d audio"].

(** The search text of a stream: its codec name, long codec name, profile and
    all its tag values, put together and lower-cased. *)
Definition search_text (a : Stream) : string :=
  PyStr.lower
    (PyStr.join " "
       [get (codec_name a) ""; get (codec_long_name a) ""; get (profile a) "";
        PyStr.join " " (map snd (get (tags a) []))]).

(** Object audio: the search text contains one of the markers. *)
Definition object_audio (a : Stream) : bool :=
  existsb (fun marker => PyStr.contains marker (search_text a)) markers.

(** A field that is there and is not empty. *)
Definition present (field : option string) : option string :=
  match field with
  | Some EmptyString => None
  | other => other
  end.

(** The text that holds the bit rate of an audio stream, in bits per second:
    the explicit bit rate, else the tag [BPS] (section 4.3). *)
Definition bit_rate_text (a : Stream) : option string :=
  match present (bit_rate a) with
  | Some text => Some text
  | None => present (dict_get "BPS" (get (tags a) []))
  end.

(** The bit rate of an audio stream in kbps: a thousandth of the number of
    bits per second, 0 when the stream gives none. *)
Definition audio_kbps (a : Stream) : result float :=
  match bit_rate_text a with
  | Some text => let? bits := PyStr.to_int text in PyFloat.int_truediv bits 1000
  | None => Ok 0
  end.

(** The weighted sum of the two scores, capped at 5.0 (section 3). *)
Definition weighted (video_score audio_score : float) : float :=
  let total := (video_score * 0.7 + audio_score * 0.3)%float in
  if (5.0 <? total)%float then 5.0%float else total.

(** The exact value of a float that is a number, as a fraction [p / q] with
    [0 < q]. *)
Definition exact (x : float) : option (Z * Z) :=
  match Prim2SF x with
  | S754_zero _ => Some (0%Z, 1%Z)
  | S754_finite s m e =>
      let p := if s then Z.neg m else Z.pos m in
      if (0 <=? e)%Z then Some ((p * 2 ^ e)%Z, 1%Z)
      else Some (p, (2 ^ (- e))%Z)
  | _ => None
  end.

(** [n] hundredths is the decimal with two digits after the point that is
    nearest to [x]; when two are as near, the one whose last digit is even. *)
Definition nearest_hundredths (x : float) (n : Z) : Prop :=
  match exact x with
  | Some (p, q) =>
      let d := Z.abs (100 * p - n * q)%Z in
      (2 * d <= q)%Z /\ ((2 * d)%Z = q -> Z.even n = true)
  | None => False
  end.

Definition nearest_hundredths_b (x : float) (n : Z) : bool :=
  match exact x with
  | Some (p, q) =>
      let d := Z.abs (100 * p - n * q)%Z in
      ((2 * d <=? q)%Z && implb (2 * d =? q)%Z (Z.even n))
  | None => false
  end.

(** The float that the decimal [n / 100] denotes, for [0 <= n < 2^53]: the
    quotient of two floats that are whole numbers, which the division
    rounds correctly. *)
Definition hundredths (n : Z) : float :=
  (PrimFloat.of_uint63 (Uint63.of_Z n) / 100)%float.

End Spec.

(** ** Sample records *)

Module Sample.

Definition video (w h : Z) (transfer : string) (br : option string) : Stream :=
  {| codec_type := Some "video"; codec_name := Some "hevc";
     codec_long_name := None; profile := None; codec_tag_string := Some "hev1";
     width := Some w; height := Some h; pix_fmt := Some "yuv420p10le";
     color_transfer := Some transfer; bit_rate := br; channels := None;
     side_data_list := None; disposition := None; tags := None |}.

(** A 3840x2160 stream, Dolby-Vision flagged by its side data, 16 Mbps. *)
Definition uhd_dv : Stream :=
  {| codec_type := Some "video"; codec_name := Some "hevc";
     codec_long_name := None; profile := None; codec_tag_string := Some "hev1";
     width := Some 3840%Z; height := Some 2160%Z; pix_fmt := Some "yuv420p10le";
     color_transfer := Some "smpte2084"; bit_rate := Some "16000000";
     channels := None;
     side_data_list := Some [ {| side_data_type := Some "DOVI configuration record" |} ];
     disposition := None; tags := None |}.

(** A 3840-wide SDR stream at 16 Mbps, and a 1920-wide HDR10 stream. *)
Definition uhd_sdr : Stream := video 3840 2160 "bt709" (Some "16000000").
Definition hd_hdr : Stream := video 1920 1080 "smpte2084" (Some "5000000").

(** A stream without a bit rate of its own. *)
Definition uhd_no_rate : Stream := video 3840 2160 "bt709" None.

(** Cover art. *)
Definition cover : Stream :=
  {| codec_type := Some "video"; codec_name := Some "mjpeg";
     codec_long_name := None; profile := None; codec_tag_string := None;
     width := Some 600%Z; height := Some 600%Z; pix_fmt := Some "yuvj420p";
     color_transfer := None; bit_rate := None; channels := None;
     side_data_list := None;
     disposition := Some {| attached_pic := Some 1%Z |}; tags := None |}.

Definition audio (codec : string) (prof : option string) (ch : Z)
  (br : option string) (t : option (list (string * string))) : Stream :=
  {| codec_type := Some "audio"; codec_name := Some codec;
     codec_long_name := None; profile := prof; codec_tag_string := None;
     width := None; height := None; pix_fmt := None; color_transfer := None;
     bit_rate := br; channels := Some ch; side_data_list := None;
     disposition := None; tags := t |}.

(** [eac3], 2 channels, 640 kbps, no object-audio marker. *)
Definition eac3_stereo : Stream := audio "eac3" None 2 (Some "640000") None.

(** [eac3] 5.1 with an Atmos title and the bit rate in the [BPS] tag. *)
Definition eac3_atmos : Stream :=
  audio "eac3" None 6 None
    (Some [("language", "eng"); ("title", "Dolby Atmos"); ("BPS", "768000")]).

(** A commentary track. *)
Definition aac_stereo : Stream := audio "aac" (Some "LC") 2 (Some "128000") None.

Definition fmt : Format :=
  {| size := Some "6000000000"; duration := Some "5400.123000" |}.

Definition fmt_no_duration : Format :=
  {| size := Some "6000000000"; duration := None |}.

Definition fmt_zero_duration : Format :=
  {| size := Some "6000000000"; duration := Some "0.000000" |}.

Definition movie : ProbeData :=
  {| streams := Some [uhd_dv; cover; eac3_stereo]; format := Some fmt |}.

Definition two_videos : ProbeData :=
  {| streams := Some [uhd_sdr; hd_hdr]; format := Some fmt |}.

Definition one_video : ProbeData :=
  {| streams := Some [uhd_sdr]; format := Some fmt |}.

Definition audio_only : ProbeData :=
  {| streams := Some [cover; eac3_stereo]; format := Some fmt |}.

(** A small file system: [gone.mkv] does not exist. *)
Definition path_str (arg : string) : string := arg.

Definition path_exists (file : string) : bool :=
  negb (String.eqb file "gone.mkv").

Definition run_ffprobe (file : string) : result ProbeData :=
  if String.eqb file "song.mka" then Ok audio_only
  else if String.eqb file "two.mkv" then Ok two_videos
  else if String.eqb file "one.mkv" then Ok one_video
  else Ok movie.

Definition empty_world : world := {| FILE_MEDIA_SCORE := []; stdout := [] |}.

(** Two files with the same media score and different video bitrates. *)
Definition tied_scores : list (string * (float * float)) :=
  [("a.mkv", (4.5, 18)); ("b.mkv", (4.5, 22))].

End Sample.

(** ** Order of floats *)

Module FloatOrder.

(** [<=] read off a comparison. *)
Definition le_cmp (c : option comparison) : bool :=
  match c with
  | Some Lt | Some Eq => true
  | _ => false
  end.

(** The float is a number: it compares equal to itself. *)
Definition number (x : float) : Prop := PyFloat.is_nan x = false.

End FloatOrder.

(** ** Further samples and the values of the scores *)

Module Cases.

(** A file system in which ffprobe fails on [broken.mkv]. *)
Definition run_ffprobe (file : string) : result ProbeData :=
  if String.eqb file "broken.mkv" then Err ProbeError
  else Sample.run_ffprobe file.

(** Scores left by an earlier run. *)
Definition earlier_world : world :=
  {| FILE_MEDIA_SCORE := [("other.mkv", (4.5, 18))]; stdout := [] |}.

(** Two files with the same media score and the same video bitrate. *)
Definition equal_scores : list (string * (float * float)) :=
  [("low.mkv", (4.0, 30)); ("a.mkv", (4.5, 18)); ("b.mkv", (4.5, 18))].

(** A path of 120 characters. *)
Definition long_path : string :=
  "/media/library/films/collection/2024/remux/uhd/dolby-vision/a-very-long-directory-name/another-long-one/feature-film.mkv".

(** [eac3] stereo one bit per second under 640 kbps; with an empty bit rate
    and 448 kbps in the [BPS] tag; and without any bit rate. *)
Definition eac3_below_640 : Stream :=
  Sample.audio "eac3" None 2 (Some "639999") None.
Definition eac3_tag_448 : Stream :=
  Sample.audio "eac3" None 2 (Some "") (Some [("BPS", "448000")]).
Definition eac3_no_rate : Stream :=
  Sample.audio "eac3" None 2 None (Some [("language", "eng")]).

(** [ac3] 5.1 at 640 kbps and [aac] 5.1 at 384 kbps. *)
Definition ac3_640 : Stream := Sample.audio "ac3" None 6 (Some "640000") None.
Definition aac_384 : Stream := Sample.audio "aac" None 6 (Some "384000") None.

(** [dts] with a DTS:X title at 1509 kbps. *)
Definition dts_x : Stream :=
  Sample.audio "dts" (Some "DTS") 6 (Some "1509000")
    (Some [("title", "DTS:X")]).

(** A 1920-wide file at 5 Mbps with the Atmos track: the video score is 3.5,
    the audio score 4.85. *)
Definition hd_atmos : ProbeData :=
  {| streams := Some [Sample.hd_hdr; Sample.eac3_atmos];
     format := Some Sample.fmt |}.

Definition run_ffprobe_hd (file : string) : result ProbeData :=
  if String.eqb file "hd.mkv" then Ok hd_atmos else Sample.run_ffprobe file.

(** The letter e with an acute accent: one character, two bytes. *)
Definition e_acute : string :=
  String (ascii_of_nat 195) (String (ascii_of_nat 169) EmptyString).

Fixpoint times (n : nat) (s : string) : string :=
  match n with
  | O => EmptyString
  | S n' => s ++ times n' s
  end.

(** A name of 64 characters in 124 bytes, and one of 114 characters. *)
Definition accented_name : string := times 60 e_acute ++ ".mkv".
Definition long_accented_name : string := times 110 e_acute ++ ".mkv".

End Cases.

(** [x in l] on floats, by identity of the values. *)
Definition float_mem (x : float) (l : list float) : bool :=
  existsb (PrimFloat.Leibniz.eqb x) l.

(** The values a video score takes. *)
Definition video_score_values : list float := [5.0; 4.5; 4.0; 3.5; 3.0; 2.0].

(** The values a per-stream audio score takes: every base score with every
    channel bonus and with or without the object bonus, clamped. *)
Definition audio_score_values : list float :=
  Eval vm_compute in
    flat_map
      (fun base : float =>
         flat_map
           (fun channel : float =>
              map
                (fun object : float =>
                   let total := base + channel + object in
                   if 5.0 <? total then 5.0 else total)
                [0.15; 0])
           [0.2; 0.1; 0])
      [5.0; 4.6; 4.2; 3.8; 3.3; 2.4; 3.4; 3.0; 2.0].

(** [round(min(video * 0.7 + audio * 0.3, 5.0), 2)] *)
Definition media_score_of (video_score audio_score : float) : float :=
  PyFloat.round2 (PyFloat.min2 (video_score * 0.7 + audio_score * 0.3) 5.0).

(** The two decimals with two digits around [x]. *)
Definition around (x : float) : list Z :=
  match Spec.exact x with
  | Some (p, q) => [(100 * p / q)%Z; (100 * p / q + 1)%Z]
  | None => []
  end.

(** One of the decimals around the weighted sum is the nearest one, lies
    between 1.40 and 5.00 and denotes the media score. *)
Definition media_score_check (video_score audio_score : float) : bool :=
  existsb
    (fun n =>
       (140 <=? n)%Z && (n <=? 500)%Z
       && Spec.nearest_hundredths_b (Spec.weighted video_score audio_score) n
       && PrimFloat.Leibniz.eqb (media_score_of video_score audio_score)
            (Spec.hundredths n))
    (around (Spec.weighted video_score audio_score)).

(** * Properties *)

(** ** The video decision table *)

Lemma video_table_brackets width flag vbps :
  Spec.video_table width flag vbps =
  Some
    (if (3840 <=? width)%Z then
       if flag then
         if 15 <=? vbps then (5.0, "REFERENCE QUALITY")
         else if 12 <=? vbps then (4.5, "EXCELLENT")
         else (4.0, "GOOD")
       else
         if 20 <=? vbps then (4.5, "EXCELLENT")
         else (4.0, "GOOD")
     else if (1920 <=? width)%Z then
       if 30 <=? vbps then (4.5, "EXCELLENT")
       else if 20 <=? vbps then (4.0, "GOOD")
       else (3.5, "MEDIUM")
     else if (1280 <=? width)%Z then (3.0, "MEDIUM")
     else (2.0, "LOW")).
Proof.
  unfold Spec.video_table, Spec.bracket, Spec.video_rows, Spec.width_ok;
    cbn [find Spec.min_width].
  destruct (3840 <=? width)%Z;
    [|destruct (1920 <=? width)%Z; [|destruct (1280 <=? width)%Z]];
    cbn -[PrimFloat.leb]; destruct flag; cbn -[PrimFloat.leb].
  all: repeat match goal with
       | |- context [if ?b then _ else _] => destruct b
       end; reflexivity.
Qed.

Lemma compute_video_score_unfold v fmt is_hdr is_dv vbps :
  get_video_bitrate_mbps v fmt = Ok vbps ->
  exists score verdict,
    Spec.video_table (get (width v) 0%Z) (is_dv || is_hdr) vbps
    = Some (score, verdict)
    /\ compute_video_score v fmt is_hdr is_dv = Ok (score, vbps, verdict).
Proof.
  intros Hb. unfold compute_video_score. rewrite Hb. cbn [rbind].
  rewrite video_table_brackets.
  match goal with
  | |- context [Some ?p] => destruct p as [score verdict] eqn:Hp
  end.
  exists score, verdict. split; reflexivity.
Qed.

(** C1. The video scorer returns the score and verdict of the decision table
    of section 4.2, keyed on the width bracket, the HDR/Dolby-Vision flag and
    the derived bitrate, rows tried top-down within the bracket; it raises
    only when the bitrate derivation does.  In particular a width of at least
    3840 with the flag set and at least 15 Mbps gives 5.0 and REFERENCE
    QUALITY, and a width below 1280 gives 2.0 and LOW. *)
Theorem compute_video_score_table :
  forall (v : Stream) (fmt : Format) (is_hdr is_dv : bool),
    (forall vbps, get_video_bitrate_mbps v fmt = Ok vbps ->
       exists score verdict,
         Spec.video_table (get (width v) 0%Z) (is_dv || is_hdr) vbps
         = Some (score, verdict)
         /\ compute_video_score v fmt is_hdr is_dv = Ok (score, vbps, verdict))
    /\ (forall e, get_video_bitrate_mbps v fmt = Err e ->
          compute_video_score v fmt is_hdr is_dv = Err e)
    /\ (forall vbps, get_video_bitrate_mbps v fmt = Ok vbps ->
          (3840 <= get (width v) 0)%Z -> (is_dv || is_hdr) = true ->
          (15 <=? vbps) = true ->
          compute_video_score v fmt is_hdr is_dv
          = Ok (5.0, vbps, "REFERENCE QUALITY"))
    /\ (forall vbps, get_video_bitrate_mbps v fmt = Ok vbps ->
          (get (width v) 0 < 1280)%Z ->
          compute_video_score v fmt is_hdr is_dv = Ok (2.0, vbps, "LOW")).
Proof.
  intros v fmt is_hdr is_dv. repeat split.
  - intros vbps Hb. now apply compute_video_score_unfold.
  - intros e He. unfold compute_video_score. now rewrite He.
  - intros vbps Hb Hw Hf H15. unfold compute_video_score.
    rewrite Hb; cbn [rbind].
    apply Z.leb_le in Hw. rewrite Hw, Hf, H15. reflexivity.
  - intros vbps Hb Hw. unfold compute_video_score.
    rewrite Hb; cbn [rbind].
    assert (H1 : (3840 <=? get (width v) 0)%Z = false) by (apply Z.leb_gt; lia).
    assert (H2 : (1920 <=? get (width v) 0)%Z = false) by (apply Z.leb_gt; lia).
    assert (H3 : (1280 <=? get (width v) 0)%Z = false) by (apply Z.leb_gt; lia).
    rewrite H1, H2, H3. reflexivity.
Qed.

(** The scenario of section 8: 3840x2160, Dolby Vision, 16 Mbps. *)
Example uhd_dv_reference_quality :
  compute_video_score Sample.uhd_dv Sample.fmt true true
  = Ok (5.0, 16, "REFERENCE QUALITY").
Proof. vm_compute. reflexivity. Qed.

(** ** The video bitrate *)

Lemma to_int_truthy s n : PyStr.to_int s = Ok n -> PyStr.truthy s = true.
Proof.
  destruct s as [|c s]; [|reflexivity].
  vm_compute. discriminate.
Qed.

(** C3, as the code has it.  The video bitrate in Mbps is the stream's own
    [bit_rate] divided by 1e6 when the field is there, and otherwise
    size * 8 / duration / 1e6 for a duration other than zero, with 1 for a
    missing duration, in which case the division cannot fail. *)
Theorem get_video_bitrate_mbps_spec :
  forall (v : Stream) (fmt : Format),
    (forall s n, bit_rate v = Some s -> PyStr.to_int s = Ok n ->
       get_video_bitrate_mbps v fmt = PyFloat.int_truediv n 1000000)
    /\ (bit_rate v = None ->
        forall sz,
          match size fmt with
          | Some s => PyStr.to_float s
          | None => Ok 0
          end = Ok sz ->
          (duration fmt = None ->
             get_video_bitrate_mbps v fmt = Ok (sz * 8 / 1 / 1000000))
          /\ (forall s d, duration fmt = Some s -> PyStr.to_float s = Ok d ->
                (d =? 0) = false ->
                get_video_bitrate_mbps v fmt = Ok (sz * 8 / d / 1000000))).
Proof.
  intros v fmt. split.
  - intros s n Hs Hn. unfold get_video_bitrate_mbps.
    rewrite Hs, (to_int_truthy _ _ Hn). cbn [get]. rewrite Hn. reflexivity.
  - intros Hnone sz Hsz. unfold get_video_bitrate_mbps. rewrite Hnone.
    assert (Hsize : match size fmt with
                    | Some s => PyStr.to_float s
                    | None => PyFloat.of_int 0
                    end = Ok sz).
    { destruct (size fmt); [exact Hsz|]. rewrite <- Hsz. reflexivity. }
    rewrite Hsize. cbn [rbind]. split.
    + intros Hd. rewrite Hd. reflexivity.
    + intros s d Hd Hparse Hnz. rewrite Hd, Hparse. cbn [rbind].
      unfold PyFloat.truediv. rewrite Hnz. reflexivity.
Qed.

(** A duration of zero, unlike a missing one, makes the fallback raise. *)
Lemma get_video_bitrate_zero_duration (v : Stream) (fmt : Format) sz s d :
  bit_rate v = None ->
  match size fmt with
  | Some s => PyStr.to_float s
  | None => Ok 0
  end = Ok sz ->
  duration fmt = Some s -> PyStr.to_float s = Ok d -> (d =? 0) = true ->
  get_video_bitrate_mbps v fmt = Err ZeroDivisionError.
Proof.
  intros Hnone Hsz Hd Hparse Hz. unfold get_video_bitrate_mbps.
  rewrite Hnone, Hd, Hparse.
  destruct (size fmt).
  - rewrite Hsz. cbn [rbind]. unfold PyFloat.truediv. rewrite Hz. reflexivity.
  - cbn [rbind PyFloat.of_int]. unfold PyFloat.truediv. rewrite Hz. reflexivity.
Qed.

(** C3, as stated, fails: the fallback does divide by zero, for a container
    whose duration is there and reads as zero. *)
Lemma zero_duration_divides_by_zero :
  bit_rate Sample.uhd_no_rate = None
  /\ PyStr.to_float "0.000000" = Ok 0
  /\ get_video_bitrate_mbps Sample.uhd_no_rate Sample.fmt_zero_duration
     = Err ZeroDivisionError.
Proof. repeat split; vm_compute; reflexivity. Qed.

Example bitrate_from_stream :
  get_video_bitrate_mbps Sample.uhd_dv Sample.fmt = Ok 16.
Proof. vm_compute. reflexivity. Qed.

Example bitrate_from_container :
  get_video_bitrate_mbps Sample.uhd_no_rate Sample.fmt
  = Ok (6000000000 * 8 / 5400.123 / 1000000).
Proof. vm_compute. reflexivity. Qed.

Example bitrate_without_duration :
  get_video_bitrate_mbps Sample.uhd_no_rate Sample.fmt_no_duration = Ok 48000.
Proof. vm_compute. reflexivity. Qed.

(** ** HDR and Dolby Vision *)

Lemma video_flags_step (flags : bool * bool) (l : list Stream) :
  (snd flags = true -> fst flags = true) ->
  let out :=
    fold_left
      (fun flags v =>
         let '(_, is_hdr, is_dv) :=
           hdr_classification v (fst flags) (snd flags) in
         (is_hdr, is_dv))
      l flags in
  snd out = true -> fst out = true.
Proof.
  revert flags. induction l as [|v l IH]; intros flags Hinv; cbn [fold_left].
  - exact Hinv.
  - apply IH. unfold hdr_classification.
    destruct (detect_dolby_vision v); [reflexivity|].
    destruct (PyStr.mem _ _); cbn [fst snd]; auto.
Qed.

(** C4. A stream classified as Dolby Vision is classified as HDR, and not
    the other way round; the label is Dolby Vision first, then HDR for the
    transfer characteristics smpte2084 and arib-std-b67, then SDR.  The
    flags of a whole file inherit the implication. *)
Theorem dolby_vision_implies_hdr :
  forall (v : Stream),
    let c := hdr_classification v false false in
    let label := fst (fst c) in
    let is_hdr := snd (fst c) in
    let is_dv := snd c in
    let hdr_transfer :=
      PyStr.mem (get (color_transfer v) "") ["smpte2084"; "arib-std-b67"] in
    is_dv = detect_dolby_vision v
    /\ is_hdr = (detect_dolby_vision v || hdr_transfer)
    /\ (is_dv = true -> is_hdr = true)
    /\ label = (if detect_dolby_vision v then "Dolby Vision"
                else if hdr_transfer then "HDR" else "SDR")
    /\ (exists v',
          snd (fst (hdr_classification v' false false)) = true
          /\ snd (hdr_classification v' false false) = false)
    /\ (forall video_streams,
          snd (video_flags video_streams) = true ->
          fst (video_flags video_streams) = true).
Proof.
  intros v c label is_hdr is_dv hdr_transfer.
  subst c label is_hdr is_dv hdr_transfer. unfold hdr_classification.
  destruct (detect_dolby_vision v); cbn [fst snd orb];
    [|destruct (PyStr.mem _ _); cbn [fst snd]].
  all: repeat split; try reflexivity; try discriminate.
  all: try (exists Sample.hd_hdr; split; reflexivity).
  all: intros l; apply (video_flags_step (false, false) l); discriminate.
Qed.

(** ** The per-stream audio score *)

Ltac split_leb kbps :=
  destruct (640 <=? kbps); try reflexivity;
  destruct (448 <=? kbps); try reflexivity;
  destruct (384 <=? kbps); try reflexivity;
  destruct (256 <=? kbps); try reflexivity;
  destruct (1500 <=? kbps); try reflexivity.

Lemma audio_stream_score_unfold (a : Stream) :
  audio_stream_score a =
  (let? kbps := kbps_of (raw_bit_rate a) in
   Ok (Spec.audio_score (fst (detect_object_audio a))
         (get (codec_name a) "") (get_or_empty (profile a))
         (get (channels a) 0%Z) kbps)).
Proof.
  unfold audio_stream_score.
  destruct (kbps_of (raw_bit_rate a)) as [kbps|e]; cbn [rbind]; [|reflexivity].
  destruct (detect_object_audio a) as [is_object haystack]; cbn [fst].
  unfold Spec.audio_score, Spec.base_score, Spec.channel_bonus,
    Spec.object_bonus, Spec.lossless, Spec.tier, PyFloat.min2.
  set (codec := get (codec_name a) "").
  set (ch := get (channels a) 0%Z).
  set (prof := PyStr.lower (get_or_empty (profile a))).
  f_equal.
  destruct (String.eqb codec "truehd"
            || PyStr.startswith "dts" codec && PyStr.contains "hd" prof);
    destruct (String.eqb codec "eac3"); destruct (String.eqb codec "ac3");
    destruct (String.eqb codec "aac"); destruct (PyStr.startswith "dts" codec);
    destruct is_object; destruct (8 <=? ch)%Z; destruct (6 <=? ch)%Z;
    destruct (2 <=? ch)%Z; cbn [andb orb negb]; split_leb kbps.
Qed.

(** Every value of the reference score lies between 2.0 and 5.0. *)
Lemma audio_score_range markers codec prof ch kbps :
  let s := Spec.audio_score markers codec prof ch kbps in
  (2 <=? s) = true /\ (s <=? 5) = true.
Proof.
  unfold Spec.audio_score, Spec.base_score, Spec.channel_bonus,
    Spec.object_bonus, Spec.lossless, Spec.tier.
  destruct (String.eqb codec "truehd"
            || PyStr.startswith "dts" codec
               && PyStr.contains "hd" (PyStr.lower prof));
    destruct (String.eqb codec "eac3"); destruct (String.eqb codec "ac3");
    destruct (String.eqb codec "aac"); destruct (PyStr.startswith "dts" codec);
    destruct markers; destruct (8 <=? ch)%Z; destruct (6 <=? ch)%Z;
    destruct (2 <=? ch)%Z; cbn [andb orb negb];
    destruct (640 <=? kbps); try (split; reflexivity);
    destruct (448 <=? kbps); try (split; reflexivity);
    destruct (384 <=? kbps); try (split; reflexivity);
    destruct (256 <=? kbps); try (split; reflexivity);
    destruct (1500 <=? kbps); split; reflexivity.
Qed.

(** The code reads the object markers as section 4.1 words them. *)
Lemma detect_object_audio_spec (a : Stream) :
  fst (detect_object_audio a) = Spec.object_audio a.
Proof. reflexivity. Qed.

Lemma truthy_nonempty (s : string) : s <> "" -> PyStr.truthy s = true.
Proof. destruct s; [congruence|reflexivity]. Qed.

(** The code reads the bit rate as section 4.3 words it. *)
Lemma kbps_of_spec (a : Stream) :
  kbps_of (raw_bit_rate a) = Spec.audio_kbps a.
Proof.
  unfold kbps_of, raw_bit_rate, Spec.audio_kbps, Spec.bit_rate_text,
    Spec.present.
  destruct (bit_rate a) as [[|c s]|]; cbn [PyStr.truthy];
    try reflexivity;
    destruct (dict_get "BPS" (get (tags a) [])) as [[|c' s']|];
    reflexivity.
Qed.

(** C5. The per-stream audio score is the reference score of section 4.3,
    taken at the stream's codec, profile, channels, object markers and bit
    rate in kbps.  The bit rate is a thousandth of the stream's explicit bit
    rate in bits per second, else of its [BPS] tag, else 0; the markers are
    searched in the codec name, long name, profile and tag values.  The
    reference score is the base score of the codec family (the tiers of
    eac3, ac3 and aac, 5.0 for a lossless stream, 2.0 otherwise), plus the
    channel bonus (0.2 from eight channels, else 0.1 from six), plus the
    object-audio bonus of 0.15 (markers present, not lossless, and eac3 from
    448 kbps or dts* from 1500 kbps), clamped to 5.0.  A lossless stream
    scores 5.0 whatever its markers, and no stream scores above 5.0. *)
Theorem audio_stream_score_reference :
  forall (a : Stream),
    let codec := get (codec_name a) "" in
    let prof := get_or_empty (profile a) in
    let ch := get (channels a) 0%Z in
    let explicit := bit_rate a in
    let fallback := dict_get "BPS" (get (tags a) []) in
    let score_at (kbps : float) :=
      Spec.audio_score (Spec.object_audio a) codec prof ch kbps in
    let score_of (text : string) :=
      let? bits := PyStr.to_int text in
      let? kbps := PyFloat.int_truediv bits 1000 in
      Ok (score_at kbps) in
    (* the whole score *)
    audio_stream_score a
    = (let? kbps := Spec.audio_kbps a in Ok (score_at kbps))
    (* the bit rate comes from the explicit bit rate, *)
    /\ (forall text,
          explicit = Some text -> text <> "" ->
          audio_stream_score a = score_of text)
    (* else from the tag, *)
    /\ (forall text,
          explicit = None \/ explicit = Some "" ->
          fallback = Some text -> text <> "" ->
          audio_stream_score a = score_of text)
    (* else it is 0 *)
    /\ (explicit = None \/ explicit = Some "" ->
        fallback = None \/ fallback = Some "" ->
        audio_stream_score a = Ok (score_at 0))
    (* the clamp and the lossless streams *)
    /\ (forall s, audio_stream_score a = Ok s -> (s <=? 5) = true)
    /\ (forall s, audio_stream_score a = Ok s ->
          Spec.lossless codec prof = true -> s = 5)
    (* the tiers at work, in kbps *)
    /\ audio_stream_score Sample.eac3_stereo = Ok 4.6
    /\ audio_stream_score Cases.eac3_below_640 = Ok 4.2
    /\ audio_stream_score Cases.eac3_tag_448 = Ok 4.2
    /\ audio_stream_score Cases.eac3_no_rate = Ok 2.4
    /\ audio_stream_score Sample.eac3_atmos = Ok (4.6 + 0.1 + 0.15)
    /\ audio_stream_score Cases.ac3_640 = Ok (3.8 + 0.1)
    /\ audio_stream_score Cases.aac_384 = Ok (3.0 + 0.1)
    /\ audio_stream_score Cases.dts_x = Ok (2.0 + 0.1 + 0.15).
Proof.
  intros a codec prof ch explicit fallback score_at score_of.
  assert (Hall : audio_stream_score a
                 = (let? kbps := Spec.audio_kbps a in Ok (score_at kbps))).
  { rewrite audio_stream_score_unfold, kbps_of_spec, detect_object_audio_spec.
    reflexivity. }
  assert (Hpresent : forall text, text <> "" ->
                                  Spec.present (Some text) = Some text).
  { intros [|c t] H; [congruence|reflexivity]. }
  assert (Habsent : forall field,
             field = None \/ field = Some "" -> Spec.present field = None).
  { intros field [-> | ->]; reflexivity. }
  assert (Hof : forall text,
             Spec.bit_rate_text a = Some text ->
             audio_stream_score a = score_of text).
  { intros text H. rewrite Hall. unfold Spec.audio_kbps. rewrite H.
    unfold score_of. destruct (PyStr.to_int text) as [bits|e]; reflexivity. }
  split; [exact Hall|].
  split.
  { intros text He Hne. apply Hof. unfold Spec.bit_rate_text.
    fold explicit. rewrite He, (Hpresent _ Hne). reflexivity. }
  split.
  { intros text He Hf Hne. apply Hof. unfold Spec.bit_rate_text.
    fold explicit fallback. rewrite (Habsent _ He), Hf. now apply Hpresent. }
  split.
  { intros He Hf. rewrite Hall. unfold Spec.audio_kbps, Spec.bit_rate_text.
    fold explicit fallback. rewrite (Habsent _ He), (Habsent _ Hf).
    reflexivity. }
  split.
  { intros s. rewrite Hall.
    destruct (Spec.audio_kbps a) as [kbps|e]; cbn [rbind]; [|discriminate].
    intros Hs. injection Hs as <-. apply audio_score_range. }
  split.
  { intros s. rewrite Hall.
    destruct (Spec.audio_kbps a) as [kbps|e]; cbn [rbind]; [|discriminate].
    intros Hs Hl. injection Hs as <-.
    unfold score_at, Spec.audio_score, Spec.base_score, Spec.object_bonus,
      Spec.channel_bonus.
    rewrite Hl, andb_false_r. cbn [negb andb].
    destruct (8 <=? ch)%Z; [reflexivity|].
    destruct (6 <=? ch)%Z; reflexivity. }
  do 7 (split; [vm_compute; reflexivity|]).
  vm_compute; reflexivity.
Qed.

(** The scenario of section 8: eac3, 2 channels, 640 kbps, no markers. *)
Example eac3_stereo_score : audio_stream_score Sample.eac3_stereo = Ok 4.6.
Proof. vm_compute. reflexivity. Qed.

Example eac3_atmos_score :
  audio_stream_score Sample.eac3_atmos = Ok (4.6 + 0.1 + 0.15).
Proof. vm_compute. reflexivity. Qed.

(** ** Comparing floats

    On numbers (floats other than NaN) [<=?] is a total preorder, [<?] its
    strict part and [=?] its equivalence; only the two zeros are equal
    without being identical. *)

Module FloatFacts.

Import FloatOrder.

Ltac cmp_cases :=
  repeat match goal with
  | |- context [Pos.compare_cont Eq ?a ?b] =>
      change (Pos.compare_cont Eq a b) with (Pos.compare a b)
  | H : context [Pos.compare_cont Eq ?a ?b] |- _ =>
      change (Pos.compare_cont Eq a b) with (Pos.compare a b) in H
  end;
  repeat match goal with
  | H : context [Z.compare ?a ?b] |- _ =>
      destruct (Z.compare_spec a b); simpl in H; try discriminate
  | H : context [Pos.compare ?a ?b] |- _ =>
      destruct (Pos.compare_spec a b); simpl in H; try discriminate
  end;
  repeat match goal with
  | |- context [Z.compare ?a ?b] =>
      destruct (Z.compare_spec a b); simpl; try reflexivity; try lia
  | |- context [Pos.compare ?a ?b] =>
      destruct (Pos.compare_spec a b); simpl; try reflexivity; try lia
  end.

Ltac by_shape x y :=
  destruct x as [[]|[]| |[] ?mx ?ex], y as [[]|[]| |[] ?my ?ey]; simpl.

Lemma SFcompare_refl x : x <> S754_nan -> SFcompare x x = Some Eq.
Proof.
  destruct x as [[]|[]| |[] m e]; simpl; try congruence; intros _;
    rewrite Z.compare_refl;
    change (Pos.compare_cont Eq m m) with (Pos.compare m m);
    rewrite Pos.compare_refl; reflexivity.
Qed.

Lemma SFcompare_nan_l y : SFcompare S754_nan y = None.
Proof. destruct y as [[]|[]| |[] m e]; reflexivity. Qed.

Lemma SFcompare_nan_r x : SFcompare x S754_nan = None.
Proof. destruct x as [[]|[]| |[] m e]; reflexivity. Qed.

Lemma SFle_trans x y z :
  le_cmp (SFcompare x y) = true -> le_cmp (SFcompare y z) = true ->
  le_cmp (SFcompare x z) = true.
Proof.
  destruct x as [[]|[]| |[] mx ex], y as [[]|[]| |[] my ey],
    z as [[]|[]| |[] mz ez]; simpl; intros H1 H2;
    try discriminate; try reflexivity; cmp_cases.
Qed.

Lemma SFle_total x y :
  x <> S754_nan -> y <> S754_nan ->
  SFcompare x y = Some Lt \/ le_cmp (SFcompare y x) = true.
Proof.
  by_shape x y; intros Hx Hy; try congruence; auto; cmp_cases; auto.
Qed.

Lemma SFcompare_lt_swap x y :
  SFcompare x y = Some Lt -> SFcompare y x = Some Gt.
Proof.
  by_shape x y; intros H; try discriminate; try reflexivity; cmp_cases.
Qed.

Lemma SFcompare_eq_swap x y :
  SFcompare x y = Some Eq -> SFcompare y x = Some Eq.
Proof.
  by_shape x y; intros H; try discriminate; try reflexivity; cmp_cases.
Qed.

(** Equal numbers are identical, unless both are zeros. *)
Lemma SFcompare_eq_inv x y :
  SFcompare x y = Some Eq ->
  x = y \/ (exists s t, x = S754_zero s /\ y = S754_zero t).
Proof.
  by_shape x y; intros H; try discriminate; eauto; cmp_cases;
    left; subst; f_equal; congruence.
Qed.

Local Open Scope float_scope.

Lemma number_spec x : number x <-> Prim2SF x <> S754_nan.
Proof.
  unfold number, PyFloat.is_nan, PrimFloat.is_nan.
  rewrite eqb_spec. unfold SFeqb. split.
  - intros H Hn. rewrite Hn in H. discriminate.
  - intros H. rewrite SFcompare_refl by exact H. reflexivity.
Qed.

Lemma leb_cmp x y : (x <=? y) = le_cmp (SFcompare (Prim2SF x) (Prim2SF y)).
Proof. rewrite leb_spec. reflexivity. Qed.

Lemma leb_refl x : number x -> (x <=? x) = true.
Proof.
  intros H. rewrite leb_cmp, SFcompare_refl; [reflexivity|].
  now apply number_spec.
Qed.

Lemma leb_trans x y z :
  (x <=? y) = true -> (y <=? z) = true -> (x <=? z) = true.
Proof. rewrite !leb_cmp. apply SFle_trans. Qed.

Lemma leb_number x y : (x <=? y) = true -> number x /\ number y.
Proof.
  rewrite leb_cmp. intros H. split; apply number_spec; intros Hn;
    rewrite Hn in H;
    [rewrite SFcompare_nan_l in H | rewrite SFcompare_nan_r in H];
    discriminate.
Qed.

Lemma ltb_leb x y : (x <? y) = true -> (x <=? y) = true.
Proof.
  rewrite ltb_spec, leb_cmp. unfold SFltb.
  destruct (SFcompare _ _) as [[]|]; simpl; congruence.
Qed.

Lemma ltb_not_leb x y : (x <? y) = true -> (y <=? x) = false.
Proof.
  rewrite ltb_spec, leb_cmp. unfold SFltb.
  destruct (SFcompare (Prim2SF x) (Prim2SF y)) as [[]|] eqn:H; try discriminate.
  intros _. now rewrite (SFcompare_lt_swap _ _ H).
Qed.

Lemma not_ltb_leb x y :
  number x -> number y -> (x <? y) = false -> (y <=? x) = true.
Proof.
  intros Hx Hy. rewrite ltb_spec, leb_cmp. unfold SFltb.
  destruct (SFle_total (Prim2SF x) (Prim2SF y)) as [H|H];
    try (now apply number_spec).
  - rewrite H. discriminate.
  - intros _. exact H.
Qed.

Lemma not_leb_ltb x y :
  number x -> number y -> (x <=? y) = false -> (y <? x) = true.
Proof.
  intros Hx Hy Hle.
  destruct (y <? x) eqn:Hlt; [reflexivity|].
  rewrite (not_ltb_leb y x Hy Hx Hlt) in Hle. discriminate.
Qed.

Lemma eqb_leb x y :
  (x =? y) = true <-> (x <=? y) = true /\ (y <=? x) = true.
Proof.
  rewrite eqb_spec, !leb_cmp. unfold SFeqb.
  destruct (SFcompare (Prim2SF x) (Prim2SF y)) as [[]|] eqn:H; simpl.
  - rewrite (SFcompare_eq_swap _ _ H). simpl. tauto.
  - rewrite (SFcompare_lt_swap _ _ H). simpl. split; [discriminate|]. intros []. discriminate.
  - split; [discriminate|]. intros []. discriminate.
  - split; [discriminate|]. intros []. discriminate.
Qed.

(** [<=] both ways between floats that are not zeros is identity. *)
Lemma leb_antisym x y :
  (x <=? y) = true -> (y <=? x) = true -> (x =? 0) = false -> x = y.
Proof.
  intros H1 H2 Hnz.
  assert (He : (x =? y) = true) by (apply eqb_leb; auto).
  rewrite eqb_spec in He, Hnz. unfold SFeqb in He, Hnz.
  destruct (SFcompare (Prim2SF x) (Prim2SF y)) as [[]|] eqn:Hc; try discriminate.
  destruct (SFcompare_eq_inv _ _ Hc) as [Heq|(s & t & Hx & Hy)].
  - now apply Prim2SF_inj.
  - rewrite Hx in Hnz. destruct s; discriminate.
Qed.

Lemma max2_cases a b :
  number a -> number b ->
  (PyFloat.max2 a b = a \/ PyFloat.max2 a b = b)
  /\ (a <=? PyFloat.max2 a b) = true /\ (b <=? PyFloat.max2 a b) = true.
Proof.
  intros Ha Hb. unfold PyFloat.max2. destruct (a <? b) eqn:H.
  - repeat split; auto using ltb_leb, leb_refl.
  - repeat split; auto using not_ltb_leb, leb_refl.
Qed.

End FloatFacts.

(** ** The audio score of a file *)

Section AudioMax.

Import FloatOrder FloatFacts.

Let is_audio (a : Stream) : bool := opt_string_eqb (codec_type a) "audio".

Lemma audio_stream_score_bounds a s :
  audio_stream_score a = Ok s -> (2 <=? s) = true /\ (s <=? 5) = true.
Proof.
  rewrite audio_stream_score_unfold.
  destruct (kbps_of (raw_bit_rate a)); cbn [rbind]; [|discriminate].
  intros H; injection H as <-. apply audio_score_range.
Qed.

Lemma audio_stream_score_number a s : audio_stream_score a = Ok s -> number s.
Proof.
  intros H. apply audio_stream_score_bounds in H as [H _].
  now apply leb_number in H.
Qed.

Lemma two_leb_nonzero x : (2 <=? x) = true -> (x =? 0) = false.
Proof.
  intros H. destruct (x =? 0) eqn:He; [|reflexivity].
  apply eqb_leb in He as [He _].
  pose proof (leb_trans _ _ _ H He) as Habs. vm_compute in Habs. discriminate.
Qed.

(** The loop keeps the largest score seen so far. *)
Lemma audio_loop_spec (l : list Stream) :
  forall best, number best ->
    match audio_loop best l with
    | Ok r =>
        (best <=? r) = true
        /\ (forall a, In a l -> is_audio a = true ->
              exists s, audio_stream_score a = Ok s /\ (s <=? r) = true)
        /\ (r = best
            \/ exists a, In a l /\ is_audio a = true /\ audio_stream_score a = Ok r)
    | Err e =>
        exists a, In a l /\ is_audio a = true /\ audio_stream_score a = Err e
    end.
Proof.
  induction l as [|a l IH]; intros best Hbest; cbn [audio_loop].
  - repeat split; auto using leb_refl. intros a [].
  - fold (is_audio a). destruct (is_audio a) eqn:Ha; cbn [negb].
    + destruct (audio_stream_score a) as [s|e] eqn:Hs; cbn [rbind].
      * pose proof (audio_stream_score_number _ _ Hs) as Hnum.
        destruct (max2_cases best s Hbest Hnum) as (Hcase & Hle1 & Hle2).
        assert (Hmax : number (PyFloat.max2 best s))
          by (destruct Hcase as [-> | ->]; assumption).
        specialize (IH _ Hmax).
        destruct (audio_loop (PyFloat.max2 best s) l) as [r|e].
        -- destruct IH as (Hr & Hub & Hatt). repeat split.
           ++ eapply leb_trans; eauto.
           ++ intros b [<-|Hin] Hb; [|now apply Hub].
              exists s. split; [assumption|]. eapply leb_trans; eauto.
           ++ destruct Hatt as [->|(b & Hin & Hb & Hsb)].
              ** destruct Hcase as [-> | ->]; [now left|].
                 right. exists a. repeat split; auto. now left.
              ** right. exists b. repeat split; auto. now right.
        -- destruct IH as (b & Hin & Hb & Hsb).
           exists b. repeat split; auto. now right.
      * exists a. repeat split; auto. now left.
    + specialize (IH _ Hbest). destruct (audio_loop best l) as [r|e].
      * destruct IH as (Hr & Hub & Hatt). repeat split; auto.
        -- intros b [<-|Hin] Hb; [congruence|now apply Hub].
        -- destruct Hatt as [->|(b & Hin & Hb & Hsb)]; [now left|].
           right. exists b. repeat split; auto. now right.
      * destruct IH as (b & Hin & Hb & Hsb).
        exists b. repeat split; auto. now right.
Qed.

Lemma zero_is_number : number 0.
Proof. reflexivity. Qed.

Lemma compute_audio_score_spec (streams : list Stream) :
  match compute_audio_score streams with
  | Ok best =>
      (0 <=? best) = true
      /\ (forall a, In a streams -> is_audio a = true ->
            exists s, audio_stream_score a = Ok s /\ (s <=? best) = true)
      /\ ((best = 0 /\ forall a, In a streams -> is_audio a = false)
          \/ exists a,
               In a streams /\ is_audio a = true
               /\ audio_stream_score a = Ok best)
  | Err e =>
      exists a,
        In a streams /\ is_audio a = true /\ audio_stream_score a = Err e
  end.
Proof.
  unfold compute_audio_score.
  pose proof (audio_loop_spec streams 0 zero_is_number) as H.
  destruct (audio_loop 0 streams) as [best|e]; [|exact H].
  destruct H as (H0 & Hub & Hatt). repeat split; auto.
  destruct Hatt as [->|Hatt]; [left|now right].
  split; [reflexivity|]. intros a Hin.
  destruct (is_audio a) eqn:Ha; [|reflexivity].
  destruct (Hub a Hin Ha) as (s & Hs & Hle).
  apply audio_stream_score_bounds in Hs as [H2 _].
  pose proof (leb_trans _ _ _ H2 Hle) as Habs. vm_compute in Habs. discriminate.
Qed.

(** Adding a stream never lowers the score of the file. *)
Lemma compute_audio_score_insert l1 l2 extra best best' :
  compute_audio_score (l1 ++ l2) = Ok best ->
  compute_audio_score (l1 ++ extra :: l2) = Ok best' ->
  (best <=? best') = true.
Proof.
  intros H H'.
  pose proof (compute_audio_score_spec (l1 ++ l2)) as S.
  pose proof (compute_audio_score_spec (l1 ++ extra :: l2)) as S'.
  rewrite H in S. rewrite H' in S'.
  destruct S as (_ & _ & [[-> _]|(a & Hin & Ha & Hs)]); [apply S'|].
  destruct S' as (_ & Hub & _).
  destruct (Hub a) as (s & Hs' & Hle); auto.
  - apply in_app_iff in Hin as [Hin|Hin]; apply in_app_iff; [left|right; right];
      assumption.
  - congruence.
Qed.

(** A stream that scores no more than the file leaves its score alone. *)
Lemma compute_audio_score_insert_low l1 l2 extra s best :
  compute_audio_score (l1 ++ l2) = Ok best ->
  is_audio extra = true -> audio_stream_score extra = Ok s ->
  (s <=? best) = true ->
  compute_audio_score (l1 ++ extra :: l2) = Ok best.
Proof.
  intros H Hx Hs Hle.
  pose proof (compute_audio_score_spec (l1 ++ l2)) as S. rewrite H in S.
  destruct S as (_ & Hub & _).
  pose proof (compute_audio_score_spec (l1 ++ extra :: l2)) as S'.
  destruct (compute_audio_score (l1 ++ extra :: l2)) as [best'|e] eqn:H'.
  - f_equal. pose proof (compute_audio_score_insert _ _ _ _ _ H H') as Hge.
    destruct S' as (_ & Hub' & Hatt').
    assert (Hle' : (best' <=? best) = true).
    { destruct Hatt' as [[-> Hnone]|(a & Hin & Ha & Hsa)].
      - rewrite Hnone in Hx; [discriminate|].
        apply in_app_iff. right. now left.
      - apply in_app_iff in Hin as [Hin|[<-|Hin]].
        + destruct (Hub a) as (t & Ht & Hlt); [apply in_app_iff; auto|auto|].
          congruence.
        + congruence.
        + destruct (Hub a) as (t & Ht & Hlt); [apply in_app_iff; auto|auto|].
          congruence. }
    apply leb_antisym; auto.
    destruct (Hub' extra) as (t & Ht & Hlt); auto.
    { apply in_app_iff. right. now left. }
    apply audio_stream_score_bounds in Ht as [H2 _].
    apply two_leb_nonzero. eapply leb_trans; eauto.
  - destruct S' as (a & Hin & Ha & Hsa).
    apply in_app_iff in Hin as [Hin|[<-|Hin]].
    + destruct (Hub a) as (t & Ht & _); [apply in_app_iff; auto|auto|congruence].
    + congruence.
    + destruct (Hub a) as (t & Ht & _); [apply in_app_iff; auto|auto|congruence].
Qed.

End AudioMax.

(** C6. The audio score of a file is the maximum of the scores of its audio
    streams (0.0 when it has none), not their average: every audio stream
    scores at most the file, one of them scores exactly the file, adding a
    stream never lowers the file's score, and adding one that scores no more
    leaves it unchanged.  The function raises only when the bit rate of an
    audio stream cannot be read. *)
Theorem compute_audio_score_is_max :
  forall (streams : list Stream),
    let is_audio a := opt_string_eqb (codec_type a) "audio" in
    match compute_audio_score streams with
    | Ok best =>
        (forall a, In a streams -> is_audio a = true ->
           exists s, audio_stream_score a = Ok s /\ (s <=? best) = true)
        /\ ((best = 0 /\ forall a, In a streams -> is_audio a = false)
            \/ exists a,
                 In a streams /\ is_audio a = true
                 /\ audio_stream_score a = Ok best)
        /\ (forall l1 l2 extra best',
              streams = (l1 ++ l2)%list ->
              compute_audio_score (l1 ++ extra :: l2) = Ok best' ->
              (best <=? best') = true)
        /\ (forall l1 l2 extra s,
              streams = (l1 ++ l2)%list ->
              is_audio extra = true -> audio_stream_score extra = Ok s ->
              (s <=? best) = true ->
              compute_audio_score (l1 ++ extra :: l2) = Ok best)
    | Err e =>
        exists a,
          In a streams /\ is_audio a = true /\ audio_stream_score a = Err e
    end.
Proof.
  intros streams is_audio.
  pose proof (compute_audio_score_spec streams) as S.
  destruct (compute_audio_score streams) as [best|e] eqn:H; [|exact S].
  destruct S as (_ & Hub & Hatt). repeat split; auto.
  - intros l1 l2 extra best' -> H'.
    eapply compute_audio_score_insert; eauto.
  - intros l1 l2 extra s -> Hx Hs Hle.
    eapply compute_audio_score_insert_low; eauto.
Qed.

(** A strong main track with a commentary track: the maximum, 4.6, and not
    the average of 4.6 and 2.4. *)
Example best_track_wins :
  compute_audio_score [Sample.aac_stereo; Sample.eac3_stereo; Sample.aac_stereo]
  = Ok 4.6
  /\ audio_stream_score Sample.aac_stereo = Ok 2.4.
Proof. split; vm_compute; reflexivity. Qed.

(** ** Maxima *)

Section MaxFrom.

Context {A K : Type}.
Variable gt : K -> K -> bool.
Variable key : A -> K.

(** The keys on which [gt] behaves as a strict weak order. *)
Variable good : K -> Prop.
Hypothesis gt_asym : forall x y, good x -> good y -> gt x y = true -> gt y x = false.
Hypothesis gt_below :
  forall x y z, good x -> good y -> good z ->
    gt y x = true -> gt z x = false -> gt y z = true.

(** [max_from] returns the first item among those of greatest key: the items
    before it have a smaller key, the items after it do not have a greater
    one. *)
Lemma max_from_split (l : list A) :
  forall (before : list A) (maxitem : A) (seen : list A),
    Forall (fun x => good (key x)) (before ++ maxitem :: seen ++ l) ->
    Forall (fun x => gt (key maxitem) (key x) = true) before ->
    Forall (fun x => gt (key x) (key maxitem) = false) seen ->
    exists before' after',
      (before ++ maxitem :: seen ++ l)%list
      = (before' ++ max_from gt key maxitem l :: after')%list
      /\ Forall (fun x => gt (key (max_from gt key maxitem l)) (key x) = true)
           before'
      /\ Forall (fun x => gt (key x) (key (max_from gt key maxitem l)) = false)
           after'.
Proof.
  induction l as [|item l IH]; intros before maxitem seen Hgood Hb Hs;
    cbn [max_from].
  - exists before, seen. rewrite app_nil_r. auto.
  - assert (Hgm : good (key maxitem)).
    { apply Forall_app in Hgood as [_ Hg]. now inversion Hg. }
    assert (Hgi : good (key item)).
    { apply Forall_app in Hgood as [_ Hg]. inversion Hg as [|? ? _ Hg'].
      apply Forall_app in Hg' as [_ Hg']. now inversion Hg'. }
    assert (Hgb : Forall (fun x => good (key x)) before)
      by (now apply Forall_app in Hgood as [Hg _]).
    assert (Hgs : Forall (fun x => good (key x)) seen).
    { apply Forall_app in Hgood as [_ Hg]. inversion Hg as [|? ? _ Hg'].
      now apply Forall_app in Hg' as [Hg' _]. }
    destruct (gt (key item) (key maxitem)) eqn:Hgt.
    + destruct (IH (before ++ maxitem :: seen)%list item []) as (b' & a' & E & Hb' & Ha').
      * cbn [app]. rewrite <- app_assoc. exact Hgood.
      * apply Forall_app. split; [|constructor].
        -- rewrite Forall_forall in *. intros x Hx.
           apply (gt_below (key maxitem)); auto; apply gt_asym; auto.
        -- exact Hgt.
        -- rewrite Forall_forall in *. intros x Hx.
           apply (gt_below (key maxitem)); auto.
      * constructor.
      * exists b', a'. split; [|auto].
        rewrite <- E. cbn [app]. rewrite <- app_assoc. reflexivity.
    + destruct (IH before maxitem (seen ++ [item])%list) as (b' & a' & E & Hb' & Ha').
      * rewrite <- app_assoc. exact Hgood.
      * exact Hb.
      * apply Forall_app. split; [exact Hs|]. constructor; [exact Hgt|constructor].
      * exists b', a'. split; [|auto].
        rewrite <- E. rewrite <- app_assoc. reflexivity.
Qed.

Lemma py_max_split (l : list A) :
  l <> [] ->
  Forall (fun x => good (key x)) l ->
  exists before best after,
    py_max gt key l = Ok best
    /\ l = (before ++ best :: after)%list
    /\ Forall (fun x => gt (key best) (key x) = true) before
    /\ Forall (fun x => gt (key x) (key best) = false) after.
Proof.
  destruct l as [|item l]; [congruence|]. intros _ Hgood.
  destruct (max_from_split l [] item []) as (b & a & E & Hb & Ha); auto.
  exists b, (max_from gt key item l), a. cbn [py_max]. auto.
Qed.

End MaxFrom.

(** ** The video part of the analysis *)

Lemma bind_done {A B} (c : M A) (k : A -> M B) w a w' :
  c w = Done a w' -> bind c k w = k a w'.
Proof. unfold bind. now intros ->. Qed.

Lemma bind_raised {A B} (c : M A) (k : A -> M B) w e w' :
  c w = Raised e w' -> bind c k w = Raised e w'.
Proof. unfold bind. now intros ->. Qed.

Lemma for_each_app {A S} (body : S -> A -> M S) (l1 l2 : list A) :
  forall state w,
    for_each body state (l1 ++ l2) w
    = bind (for_each body state l1) (fun s => for_each body s l2) w.
Proof.
  induction l1 as [|x l1 IH]; intros state w; cbn [for_each app].
  - reflexivity.
  - unfold bind. destruct (body state x w) as [s w'|e w']; [|reflexivity].
    rewrite IH. reflexivity.
Qed.

(** The loop over the video streams returns the flags of [video_flags] when
    the bitrate of every stream can be derived; it only prints. *)
Lemma video_loop_done (fmt : Format) (l : list Stream) :
  forall flags w,
    Forall (fun v => exists b, get_video_bitrate_mbps v fmt = Ok b) l ->
    exists w',
      for_each (video_stream_body fmt) flags l w
      = Done
          (fold_left
             (fun flags v =>
                let '(_, is_hdr, is_dv) :=
                  hdr_classification v (fst flags) (snd flags) in
                (is_hdr, is_dv))
             l flags)
          w'
      /\ FILE_MEDIA_SCORE w' = FILE_MEDIA_SCORE w.
Proof.
  induction l as [|v l IH]; intros flags w Hall; cbn [for_each fold_left].
  - exists w. split; reflexivity.
  - inversion Hall as [|? ? [b Hb] Hall']; subst.
    unfold video_stream_body at 1.
    destruct (hdr_classification v (fst flags) (snd flags)) as [[label h] d].
    rewrite Hb. cbn [lift]. unfold bind, ret, print. cbn [FILE_MEDIA_SCORE].
    match goal with
    | |- context [for_each _ _ l ?w1] =>
        destruct (IH (h, d) w1 Hall') as (w' & E & Hw)
    end.
    exists w'. split; [exact E|]. rewrite Hw. reflexivity.
Qed.

(** The flag fed into the table is set by any stream of the loop. *)
Lemma fold_flags_any (l : list Stream) :
  forall flags,
    let out :=
      fold_left
        (fun flags v =>
           let '(_, is_hdr, is_dv) :=
             hdr_classification v (fst flags) (snd flags) in
           (is_hdr, is_dv))
        l flags in
    (snd flags = true -> fst flags = true) ->
    (snd out || fst out) = (fst flags || existsb sets_hdr l).
Proof.
  induction l as [|v l IH]; intros flags out Hinv; subst out; cbn [fold_left existsb].
  - destruct flags as [[] []]; cbn in *; auto. discriminate Hinv; reflexivity.
  - rewrite IH.
    + unfold sets_hdr, hdr_classification.
      destruct (detect_dolby_vision v); cbn [fst snd]; [now rewrite orb_true_r|].
      destruct (PyStr.mem _ _); cbn [fst snd orb]; [now rewrite orb_true_r|].
      reflexivity.
    + unfold hdr_classification.
      destruct (detect_dolby_vision v); [reflexivity|].
      destruct (PyStr.mem _ _); cbn [fst snd]; auto.
Qed.

Lemma best_video_split (video_streams : list Stream) :
  video_streams <> [] ->
  exists before primary after,
    best_video_of video_streams = Ok primary
    /\ video_streams = (before ++ primary :: after)%list
    /\ Forall (fun x => (get (width x) 0 < get (width primary) 0)%Z) before
    /\ Forall (fun x => (get (width x) 0 <= get (width primary) 0)%Z) after.
Proof.
  intros Hne.
  destruct (py_max_split Z.gtb (fun x => get (width x) 0%Z) (fun _ => True))
    with (l := video_streams) as (b & p & a & E & Hl & Hb & Ha); auto.
  - intros x y _ _ H. apply Z.gtb_lt in H. rewrite Z.gtb_ltb. apply Z.ltb_ge. lia.
  - intros x y z _ _ _ H1 H2. apply Z.gtb_lt in H1. apply Z.gtb_lt.
    rewrite Z.gtb_ltb in H2. apply Z.ltb_ge in H2. lia.
  - apply Forall_forall. auto.
  - exists b, p, a. repeat split; auto.
    + eapply Forall_impl; [|exact Hb]. cbn. intros x H. apply Z.gtb_lt in H. lia.
    + eapply Forall_impl; [|exact Ha]. cbn. intros x H.
      rewrite Z.gtb_ltb in H. apply Z.ltb_ge in H. lia.
Qed.

(** C2, as the code has it.  The video score and verdict of a file come from
    the table of section 4.2 at the width and bitrate of the primary video
    stream (the widest stream that is not an attached picture, the first one
    on ties) and at a flag of the whole file: it is set when any video stream
    that is not an attached picture is Dolby Vision or has an HDR transfer
    characteristic. *)
Theorem video_section_file_flag :
  forall (streams : list Stream) (fmt : Format) (w : world),
    let video_streams := filter is_video_stream streams in
    video_streams <> [] ->
    Forall (fun v => exists b, get_video_bitrate_mbps v fmt = Ok b)
      video_streams ->
    exists before primary after vbps score verdict w',
      video_streams = (before ++ primary :: after)%list
      /\ Forall (fun x => (get (width x) 0 < get (width primary) 0)%Z) before
      /\ Forall (fun x => (get (width x) 0 <= get (width primary) 0)%Z) after
      /\ get_video_bitrate_mbps primary fmt = Ok vbps
      /\ Spec.video_table (get (width primary) 0%Z)
           (existsb sets_hdr video_streams) vbps
         = Some (score, verdict)
      /\ video_section streams fmt w = Done (score, vbps, verdict) w'
      /\ FILE_MEDIA_SCORE w' = FILE_MEDIA_SCORE w.
Proof.
  intros streams fmt w video_streams Hne Hall.
  destruct (best_video_split video_streams Hne)
    as (before & primary & after & Hbest & Hsplit & Hb & Ha).
  assert (Hin : In primary video_streams).
  { rewrite Hsplit. apply in_app_iff. right. now left. }
  destruct (proj1 (Forall_forall _ _) Hall primary Hin) as [vbps Hvbps].
  unfold video_section. fold video_streams.
  unfold bind at 1. unfold print at 1. cbn [FILE_MEDIA_SCORE stdout].
  match goal with
  | |- context [bind (for_each _ _ _) _ ?w1] =>
      destruct (video_loop_done fmt video_streams (false, false) w1 Hall)
        as (w' & Eloop & Hw)
  end.
  rewrite (bind_done _ _ _ _ _ Eloop).
  pose proof (fold_flags_any video_streams (false, false)) as Hflag.
  cbn zeta in Hflag. specialize (Hflag ltac:(discriminate)).
  cbn [fst orb] in Hflag.
  destruct (fold_left _ video_streams (false, false)) as [is_hdr is_dv].
  cbn [fst snd] in Hflag.
  rewrite Hbest. cbn [lift]. unfold bind at 1, ret at 1.
  destruct (compute_video_score_unfold primary fmt is_hdr is_dv vbps Hvbps)
    as (score & verdict & Htable & Hscore).
  rewrite Hscore. cbn [lift]. unfold ret.
  exists before, primary, after, vbps, score, verdict, w'.
  rewrite <- Hflag. repeat split; auto.
Qed.

Lemma video_section_file_flag_witness :
  exists before primary after vbps score verdict w',
    filter is_video_stream [Sample.uhd_sdr; Sample.cover; Sample.hd_hdr]
    = (before ++ primary :: after)%list
    /\ Forall (fun x => (get (width x) 0 < get (width primary) 0)%Z) before
    /\ Forall (fun x => (get (width x) 0 <= get (width primary) 0)%Z) after
    /\ get_video_bitrate_mbps primary Sample.fmt = Ok vbps
    /\ Spec.video_table (get (width primary) 0%Z)
         (existsb sets_hdr
            (filter is_video_stream
               [Sample.uhd_sdr; Sample.cover; Sample.hd_hdr]))
         vbps
       = Some (score, verdict)
    /\ video_section [Sample.uhd_sdr; Sample.cover; Sample.hd_hdr] Sample.fmt
         Sample.empty_world
       = Done (score, vbps, verdict) w'
    /\ FILE_MEDIA_SCORE w' = FILE_MEDIA_SCORE Sample.empty_world.
Proof.
  apply (video_section_file_flag
           [Sample.uhd_sdr; Sample.cover; Sample.hd_hdr] Sample.fmt
           Sample.empty_world).
  - vm_compute. discriminate.
  - repeat constructor; eexists; vm_compute; reflexivity.
Defined.

(** C2, as stated, fails: these two files have the same primary video
    stream and container, an SDR stream 3840 wide at 16 Mbps, yet the second
    stream of the first file, 1920 wide and HDR, raises its verdict from
    GOOD, the table's answer for the primary stream's own classification, to
    REFERENCE QUALITY. *)
Lemma video_flag_of_other_stream :
  best_video_of (filter is_video_stream [Sample.uhd_sdr; Sample.hd_hdr])
  = Ok Sample.uhd_sdr
  /\ best_video_of (filter is_video_stream [Sample.uhd_sdr]) = Ok Sample.uhd_sdr
  /\ hdr_classification Sample.uhd_sdr false false = ("SDR", false, false)
  /\ Spec.video_table 3840 false 16 = Some (4.0, "GOOD")
  /\ value_of (video_section [Sample.uhd_sdr] Sample.fmt Sample.empty_world)
     = Ok (4.0, 16, "GOOD")
  /\ value_of
       (video_section [Sample.uhd_sdr; Sample.hd_hdr] Sample.fmt
          Sample.empty_world)
     = Ok (5.0, 16, "REFERENCE QUALITY")
  /\ ~ (forall streams1 streams2 fmt w,
          best_video_of (filter is_video_stream streams1)
          = best_video_of (filter is_video_stream streams2) ->
          value_of (video_section streams1 fmt w)
          = value_of (video_section streams2 fmt w)).
Proof.
  do 6 (split; [vm_compute; reflexivity|]).
  intros H.
  specialize (H [Sample.uhd_sdr] [Sample.uhd_sdr; Sample.hd_hdr] Sample.fmt
                Sample.empty_world eq_refl).
  vm_compute in H. discriminate H.
Qed.

(** ** The preferred file *)

Section PairOrder.

Import FloatOrder FloatFacts.

Let good (x : float * float) : Prop := number (fst x) /\ number (snd x).
Let le (a b : float) : Prop := (a <=? b) = true.

Lemma le_total a b : number a -> number b -> le a b \/ le b a.
Proof.
  intros Ha Hb. unfold le. destruct (a <? b) eqn:H.
  - left. now apply ltb_leb.
  - right. now apply not_ltb_leb.
Qed.

Lemma ltb_iff a b : number a -> number b -> ((a <? b) = true <-> ~ le b a).
Proof.
  intros Ha Hb. unfold le. split.
  - intros H. rewrite (ltb_not_leb _ _ H). discriminate.
  - intros H. destruct (b <=? a) eqn:E; [congruence|].
    now apply not_leb_ltb.
Qed.

Lemma pair_gt_iff x y :
  good x -> good y ->
  (pair_gt x y = true <->
   ~ le (fst x) (fst y)
   \/ (le (fst y) (fst x) /\ le (fst x) (fst y) /\ ~ le (snd x) (snd y))).
Proof.
  intros [Hx1 Hx2] [Hy1 Hy2]. unfold pair_gt.
  pose proof (eqb_leb (fst x) (fst y)) as E1.
  pose proof (eqb_leb (snd x) (snd y)) as E2.
  pose proof (ltb_iff (fst y) (fst x) Hy1 Hx1) as L1.
  pose proof (ltb_iff (snd y) (snd x) Hy2 Hx2) as L2.
  fold (le (fst x) (fst y)) (le (fst y) (fst x)) in E1.
  fold (le (snd x) (snd y)) (le (snd y) (snd x)) in E2.
  destruct (fst x =? fst y); [destruct (snd x =? snd y)|].
  - split; [discriminate|]. intuition.
  - rewrite L2; intuition; discriminate.
  - rewrite L1; intuition; discriminate.
Qed.

Lemma pair_gt_asym x y :
  good x -> good y -> pair_gt x y = true -> pair_gt y x = false.
Proof.
  intros Hx Hy H. apply (pair_gt_iff x y Hx Hy) in H.
  destruct (pair_gt y x) eqn:H'; [|reflexivity].
  apply (pair_gt_iff y x Hy Hx) in H'.
  destruct Hx as [Hx1 Hx2], Hy as [Hy1 Hy2].
  pose proof (le_total (fst x) (fst y) Hx1 Hy1).
  pose proof (le_total (snd x) (snd y) Hx2 Hy2).
  exfalso. tauto.
Qed.

Lemma pair_gt_below x y z :
  good x -> good y -> good z ->
  pair_gt y x = true -> pair_gt z x = false -> pair_gt y z = true.
Proof.
  intros Hx Hy Hz H1 H2.
  apply (pair_gt_iff y x Hy Hx) in H1.
  assert (H2' : ~ (pair_gt z x = true)) by congruence.
  rewrite (pair_gt_iff z x Hz Hx) in H2'.
  apply (pair_gt_iff y z Hy Hz).
  unfold le in *.
  assert (Z1 : (fst z <=? fst x) = true).
  { destruct (fst z <=? fst x) eqn:E; [reflexivity|].
    exfalso. apply H2'. left. discriminate. }
  destruct (fst x <=? fst z) eqn:E2.
  - assert (Z2 : (snd z <=? snd x) = true).
    { destruct (snd z <=? snd x) eqn:E; [reflexivity|].
      exfalso. apply H2'. right. repeat split; auto; discriminate. }
    destruct H1 as [H1|(H1a & H1b & H1c)].
    + left. intros Hyz. apply H1. eapply leb_trans; eauto.
    + right. repeat split.
      * eapply leb_trans; eauto.
      * eapply leb_trans; eauto.
      * intros Hyz. apply H1c. eapply leb_trans; eauto.
  - left. intros Hyz. destruct H1 as [H1|(H1a & H1b & H1c)].
    + apply H1. eapply leb_trans; eauto.
    + rewrite (leb_trans _ _ _ H1a Hyz) in E2. discriminate.
Qed.

Lemma best_file_split (scores : list (string * (float * float))) :
  scores <> [] ->
  Forall (fun entry => good (snd entry)) scores ->
  exists before best after,
    best_file_of scores = Ok (fst best)
    /\ scores = (before ++ best :: after)%list
    /\ Forall (fun x => pair_gt (snd best) (snd x) = true) before
    /\ Forall (fun x => pair_gt (snd x) (snd best) = false) after.
Proof.
  intros Hne Hgood.
  destruct (py_max_split pair_gt
              (fun x : string * (float * float) => (fst (snd x), snd (snd x)))
              good pair_gt_asym pair_gt_below scores Hne)
    as (b & best & a & E & Hl & Hb & Ha).
  - eapply Forall_impl; [|exact Hgood]. intros [f [m v]] H. exact H.
  - exists b, best, a. unfold best_file_of. rewrite E. cbn [rbind].
    split; [reflexivity|]. split; [exact Hl|]. split.
    + eapply Forall_impl; [|exact Hb]. intros [f [m v]].
      destruct best as [f' [m' v']]. auto.
    + eapply Forall_impl; [|exact Ha]. intros [f [m v]].
      destruct best as [f' [m' v']]. auto.
Qed.

Lemma not_pair_gt_lex x y :
  good x -> good y -> pair_gt x y = false ->
  le (fst x) (fst y)
  /\ ((fst x =? fst y) = true -> le (snd x) (snd y)).
Proof.
  intros Hx Hy H.
  assert (H' : ~ (pair_gt x y = true)) by congruence.
  rewrite (pair_gt_iff x y Hx Hy) in H'. unfold le in *.
  destruct (fst x <=? fst y) eqn:E1;
    [|exfalso; apply H'; left; discriminate].
  split; [reflexivity|]. intros E. apply eqb_leb in E as [_ E'].
  destruct (snd x <=? snd y) eqn:E2; [reflexivity|].
  exfalso. apply H'. right. repeat split; auto; discriminate.
Qed.

Lemma best_file_max (scores : list (string * (float * float))) :
  scores <> [] ->
  Forall (fun entry => good (snd entry)) scores ->
  exists best media_score vbps,
    best_file_of scores = Ok best
    /\ In (best, (media_score, vbps)) scores
    /\ forall file m b,
         In (file, (m, b)) scores ->
         (m <=? media_score) = true
         /\ ((m =? media_score) = true -> (b <=? vbps) = true).
Proof.
  intros Hne Hgood.
  destruct (best_file_split scores Hne Hgood)
    as (before & [best [ms vb]] & after & E & Hl & Hb & Ha).
  exists best, ms, vb. split; [exact E|]. split.
  - rewrite Hl. apply in_app_iff. right. now left.
  - intros file m b Hin.
    assert (Hgb : good (ms, vb)).
    { rewrite Forall_forall in Hgood. apply (Hgood (best, (ms, vb))).
      rewrite Hl. apply in_app_iff. right. now left. }
    assert (Hgx : good (m, b)).
    { rewrite Forall_forall in Hgood. apply (Hgood (file, (m, b)) Hin). }
    assert (Hle : pair_gt (m, b) (ms, vb) = false).
    { rewrite Hl in Hin. apply in_app_iff in Hin as [Hin|[Heq|Hin]].
      - rewrite Forall_forall in Hb. specialize (Hb _ Hin). cbn [snd] in Hb.
        now apply pair_gt_asym.
      - injection Heq as <- <- <-.
        destruct (pair_gt (ms, vb) (ms, vb)) eqn:Hs; [|reflexivity].
        now rewrite (pair_gt_asym _ _ Hgb Hgb Hs) in Hs.
      - rewrite Forall_forall in Ha. apply (Ha _ Hin). }
    apply (not_pair_gt_lex (m, b) (ms, vb) Hgx Hgb Hle).
Qed.

End PairOrder.

(** ** Computations that only print *)

Lemma only_prints_ret {A} (a : A) : only_prints (ret a).
Proof. intros w. reflexivity. Qed.

Lemma only_prints_raise {A} (e : exn) : only_prints (@raise A e).
Proof. intros w. reflexivity. Qed.

Lemma only_prints_lift {A} (r : result A) : only_prints (lift r).
Proof. destruct r; [apply only_prints_ret|apply only_prints_raise]. Qed.

Lemma only_prints_print (l : line) : only_prints (print l).
Proof. intros w. reflexivity. Qed.

Lemma only_prints_bind {A B} (c : M A) (k : A -> M B) :
  only_prints c -> (forall a, only_prints (k a)) -> only_prints (bind c k).
Proof.
  intros Hc Hk w. unfold bind. specialize (Hc w).
  destruct (c w) as [a w'|e w']; cbn [world_of] in *.
  - rewrite Hk. exact Hc.
  - exact Hc.
Qed.

Lemma only_prints_for_each {A S} (body : S -> A -> M S) (l : list A) :
  (forall s x, only_prints (body s x)) ->
  forall state, only_prints (for_each body state l).
Proof.
  intros Hb. induction l as [|x l IH]; intros state; cbn [for_each].
  - apply only_prints_ret.
  - apply only_prints_bind; auto.
Qed.

Create HintDb prints.

#[local] Hint Resolve only_prints_ret only_prints_raise only_prints_lift
  only_prints_print only_prints_bind only_prints_for_each : prints.

Lemma only_prints_video_section streams fmt :
  only_prints (video_section streams fmt).
Proof.
  unfold video_section.
  apply only_prints_bind; [auto with prints|]. intros _.
  apply only_prints_bind.
  - apply only_prints_for_each. intros s v. unfold video_stream_body.
    destruct (hdr_classification _ _ _) as [[? ?] ?].
    auto 6 with prints.
  - intros [is_hdr is_dv]. auto with prints.
Qed.

Lemma only_prints_audio_section streams : only_prints (audio_section streams).
Proof.
  unfold audio_section.
  apply only_prints_bind; [auto with prints|]. intros _.
  apply only_prints_bind; [|auto with prints].
  apply only_prints_for_each. intros s a. unfold audio_stream_body.
  apply only_prints_bind; [auto with prints|]. intros br.
  destruct (detect_object_audio a). auto with prints.
Qed.

(** ** Dictionaries *)

Lemma dict_get_set {A} (k key : string) (a : A) (d : list (string * A)) :
  dict_get k (dict_set key a d)
  = if String.eqb key k then Some a else dict_get k d.
Proof.
  induction d as [|[k' b] d IH]; cbn [dict_set dict_get].
  - destruct (String.eqb key k); reflexivity.
  - destruct (String.eqb k' key) eqn:E; cbn [dict_get].
    + apply String.eqb_eq in E. subst k'.
      destruct (String.eqb key k); reflexivity.
    + destruct (String.eqb k' k) eqn:E'.
      * apply String.eqb_eq in E'. subst k'. rewrite String.eqb_sym, E.
        reflexivity.
      * exact IH.
Qed.

Lemma dict_get_in {A} (k : string) (a : A) (d : list (string * A)) :
  In (k, a) d -> dict_get k d <> None.
Proof.
  induction d as [|[k' b] d IH]; cbn [dict_get In]; [tauto|].
  intros [E|Hin].
  - injection E as -> ->. rewrite String.eqb_refl. discriminate.
  - destruct (String.eqb k' k); [discriminate|auto].
Qed.

Lemma max_from_in {A K} (gt : K -> K -> bool) (key : A -> K) (l : list A) :
  forall maxitem, In (max_from gt key maxitem l) (maxitem :: l).
Proof.
  induction l as [|x l IH]; intros m; cbn [max_from].
  - now left.
  - destruct (IH (if gt (key x) (key m) then x else m)) as [E|Hin].
    + destruct (gt (key x) (key m)); rewrite <- E; [right; now left|now left].
    + right. now right.
Qed.

Lemma best_file_in scores best :
  best_file_of scores = Ok best -> dict_get best scores <> None.
Proof.
  unfold best_file_of. destruct scores as [|x l]; cbn [py_max rbind];
    [discriminate|].
  intros E. injection E as <-.
  pose proof (max_from_in pair_gt
                (fun x : string * (float * float) => (fst (snd x), snd (snd x)))
                l x) as Hin.
  destruct (max_from _ _ x l) as [f entry]. cbn [fst].
  eapply dict_get_in. exact Hin.
Qed.

(** ** Whole runs *)

Lemma printed_printed w a b : printed (printed w a) b = printed w (a ++ b).
Proof. unfold printed. cbn. now rewrite <- app_assoc. Qed.

Section RunFacts.

Variable path_str : string -> string.
Variable path_exists : string -> bool.
Variable run_ffprobe : string -> result ProbeData.

Local Abbreviation analyze := (analyze_file path_str path_exists run_ffprobe).
Local Abbreviation analyze_files := (analyze_all path_str path_exists run_ffprobe).
Local Abbreviation run := (main path_str path_exists run_ffprobe).

Lemma analyze_file_missing file w :
  path_exists (path_str file) = false ->
  analyze file w = Done tt (printed w [FileNotFound (path_str file)]).
Proof. intros H. unfold analyze_file. rewrite H. reflexivity. Qed.

(** The analysis of one file either leaves the scores alone or writes the
    entry of that file, which then exists. *)
Lemma analyze_file_scores file w :
  FILE_MEDIA_SCORE (world_of (analyze file w)) = FILE_MEDIA_SCORE w
  \/ (path_exists (path_str file) = true
      /\ exists entry,
           FILE_MEDIA_SCORE (world_of (analyze file w))
           = dict_set (path_str file) entry (FILE_MEDIA_SCORE w)).
Proof.
  unfold analyze_file.
  destruct (path_exists (path_str file)) eqn:Hex; cbn [negb]; [|now left].
  unfold print_separator, bind, print, store.
  destruct (run_ffprobe (path_str file)) as [data|e]; cbn [lift];
    [|now left].
  unfold ret.
  match goal with
  | |- context [video_section ?s ?f ?w3] =>
      pose proof (only_prints_video_section s f w3) as Hv;
      destruct (video_section s f w3) as [[[video_score vbps] verdict] w4|e w4]
  end; cbn [world_of printed FILE_MEDIA_SCORE] in Hv; [|left; exact Hv].
  match goal with
  | |- context [audio_section ?s ?w] =>
      pose proof (only_prints_audio_section s w) as Ha;
      destruct (audio_section s w) as [audio_score w5|e w5]
  end; cbn [world_of] in Ha; [|left; cbn [world_of]; congruence].
  right. split; [reflexivity|].
  eexists. cbn [world_of printed FILE_MEDIA_SCORE].
  rewrite Ha, Hv. reflexivity.
Qed.

Lemma analyze_all_missing_key files :
  forall k w,
    path_exists k = false ->
    dict_get k (FILE_MEDIA_SCORE w) = None ->
    dict_get k (FILE_MEDIA_SCORE (world_of (analyze_files files w))) = None.
Proof.
  unfold analyze_all.
  induction files as [|f files IH]; intros k w Hk Hw; cbn [for_each].
  - exact Hw.
  - unfold bind.
    destruct (analyze_file_scores f w) as [E|(Hex & entry & E)].
    + destruct (analyze f w) as [[] w'|e w']; cbn [world_of] in *.
      * apply IH; auto. now rewrite E.
      * now rewrite E.
    + assert (Hne : String.eqb (path_str f) k = false).
      { destruct (String.eqb (path_str f) k) eqn:Heq; [|reflexivity].
        apply String.eqb_eq in Heq. congruence. }
      destruct (analyze f w) as [[] w'|e w']; cbn [world_of] in *.
      * apply IH; auto. now rewrite E, dict_get_set, Hne.
      * now rewrite E, dict_get_set, Hne.
Qed.

Lemma main_scores argv w :
  FILE_MEDIA_SCORE (world_of (run argv w)) = FILE_MEDIA_SCORE w
  \/ FILE_MEDIA_SCORE (world_of (run argv w))
     = FILE_MEDIA_SCORE (world_of (analyze_files (tl argv) w)).
Proof.
  unfold main.
  destruct (Z.of_nat (List.length argv) <? 2)%Z; [now left|].
  right. unfold bind at 1, ret at 1. unfold bind at 1.
  destruct (analyze_files (tl argv) w) as [[] w'|e w']; [|reflexivity].
  destruct (Z.of_nat (List.length argv) >? 2)%Z; [|reflexivity].
  unfold bind at 1, read_scores.
  unfold bind at 1.
  destruct (best_file_of (FILE_MEDIA_SCORE w')); reflexivity.
Qed.

(** With more than one file on the command line, a completed loop is
    followed by the line naming the preferred file. *)
Lemma main_preferred argv w w1 best :
  (2 < Z.of_nat (List.length argv))%Z ->
  analyze_files (tl argv) w = Done tt w1 ->
  best_file_of (FILE_MEDIA_SCORE w1) = Ok best ->
  run argv w
  = Done tt
      (printed w1
         [PreferredLine
            (if (PyStr.len best <=? 100)%Z then best
             else "..." ++ PyStr.last_chars 97 best);
          Separator]).
Proof.
  intros Hlen Hloop Hbest. unfold main.
  assert (H1 : (Z.of_nat (List.length argv) <? 2)%Z = false)
    by (apply Z.ltb_ge; lia).
  assert (H2 : (Z.of_nat (List.length argv) >? 2)%Z = true)
    by (apply Z.gtb_lt; lia).
  rewrite H1, H2. unfold bind at 1, ret at 1.
  rewrite (bind_done _ _ _ _ _ Hloop).
  unfold bind at 1, read_scores. rewrite Hbest. cbn [lift].
  unfold bind, ret, print_separator, print.
  rewrite printed_printed. reflexivity.
Qed.

(** C9. A path that does not exist is reported and skipped: its analysis
    prints the message and returns before any scoring, the run goes on with
    the files after it, no entry for it is written to [FILE_MEDIA_SCORE], and
    the preferred file is never that path. *)
Theorem missing_file_is_skipped :
  forall (file : string),
    path_exists (path_str file) = false ->
    (forall w,
       analyze file w = Done tt (printed w [FileNotFound (path_str file)]))
    /\ (forall before after w,
          analyze_files (before ++ file :: after) w
          = bind (analyze_files before)
              (fun _ =>
                 bind (print (FileNotFound (path_str file)))
                   (fun _ => analyze_files after))
              w)
    /\ (forall argv w,
          dict_get (path_str file) (FILE_MEDIA_SCORE w) = None ->
          dict_get (path_str file) (FILE_MEDIA_SCORE (world_of (run argv w)))
          = None)
    /\ (forall scores best,
          dict_get (path_str file) scores = None ->
          best_file_of scores = Ok best -> best <> path_str file).
Proof.
  intros file Hmissing. repeat split.
  - intros w. now apply analyze_file_missing.
  - intros before after w. unfold analyze_all. rewrite for_each_app.
    unfold bind.
    destruct (for_each _ tt before w) as [[] w'|e w']; [|reflexivity].
    cbn [for_each]. unfold bind.
    rewrite (analyze_file_missing file w' Hmissing). reflexivity.
  - intros argv w Hw. destruct (main_scores argv w) as [E|E]; rewrite E.
    + exact Hw.
    + now apply analyze_all_missing_key.
  - intros scores best Hnone Hbest ->.
    now apply best_file_in in Hbest.
Qed.

Lemma analyze_file_no_video file data w :
  path_exists (path_str file) = true ->
  run_ffprobe (path_str file) = Ok data ->
  filter is_video_stream (get (streams data) []) = [] ->
  analyze file w
  = Raised ValueError
      (printed w [Separator; FileHeader (path_str file); Separator; VideoHeader]).
Proof.
  intros Hex Hprobe Hnone. unfold analyze_file. rewrite Hex. cbn [negb].
  unfold print_separator. unfold bind at 1 2 3, print at 1 2 3.
  rewrite Hprobe. cbn [lift]. unfold bind at 1, ret at 1.
  unfold bind at 1. unfold video_section. rewrite Hnone.
  unfold bind at 1, print at 1. cbn [for_each].
  unfold bind at 1, ret at 1. cbn [best_video_of py_max lift].
  unfold bind at 1, raise. rewrite !printed_printed. reflexivity.
Qed.

(** C10. A file that exists but has no video stream, or only attached
    pictures, makes the choice of the primary video stream raise
    [ValueError]: the analysis stops there, nothing is scored, and the whole
    run, the files after it included, is aborted. *)
Theorem no_video_stream_aborts :
  forall (file : string) (data : ProbeData),
    path_exists (path_str file) = true ->
    run_ffprobe (path_str file) = Ok data ->
    filter is_video_stream (get (streams data) []) = [] ->
    let aborted w :=
      Raised ValueError
        (printed w
           [Separator; FileHeader (path_str file); Separator; VideoHeader]) in
    (forall w, analyze file w = aborted w)
    /\ (forall before after w w1,
          analyze_files before w = Done tt w1 ->
          analyze_files (before ++ file :: after) w = aborted w1)
    /\ (forall prog before after w w1,
          analyze_files before w = Done tt w1 ->
          run (prog :: before ++ file :: after) w = aborted w1).
Proof.
  intros file data Hex Hprobe Hnone aborted.
  assert (Hall : forall before after w w1,
             analyze_files before w = Done tt w1 ->
             analyze_files (before ++ file :: after) w = aborted w1).
  { intros before after w w1 Hbefore. unfold analyze_all in *.
    rewrite for_each_app. rewrite (bind_done _ _ _ _ _ Hbefore).
    cbn [for_each]. apply bind_raised.
    now apply analyze_file_no_video with (data := data). }
  repeat split.
  - intros w. now apply analyze_file_no_video with (data := data).
  - exact Hall.
  - intros prog before after w w1 Hbefore. unfold main.
    assert (Hlen : (Z.of_nat (List.length (prog :: before ++ file :: after)) <? 2)%Z
                   = false).
    { apply Z.ltb_ge. cbn [List.length]. rewrite length_app. cbn [List.length].
      lia. }
    rewrite Hlen. unfold bind at 1, ret at 1. cbn [tl].
    apply bind_raised. now apply Hall.
Qed.

(** When the video part gives [video_score] and the audio part
    [audio_score], the analysis stores and prints the value of
    [round(min(video_score * 0.7 + audio_score * 0.3, 5.0), 2)] as the media
    score of the file. *)
Lemma analyze_file_stores :
  forall (file : string) (w : world) (data : ProbeData)
         (video_score vbps : float) (video_verdict : string)
         (audio_score : float) (w1 w2 : world),
    path_exists (path_str file) = true ->
    run_ffprobe (path_str file) = Ok data ->
    video_section (get (streams data) [])
      (get (format data) {| size := None; duration := None |})
      (printed w [Separator; FileHeader (path_str file); Separator])
    = Done (video_score, vbps, video_verdict) w1 ->
    audio_section (get (streams data) []) w1 = Done audio_score w2 ->
    let media_score :=
      PyFloat.round2
        (PyFloat.min2 (video_score * 0.7 + audio_score * 0.3) 5.0) in
    analyze file w
    = Done tt
        (printed
           {| FILE_MEDIA_SCORE :=
                dict_set (path_str file) (media_score, vbps)
                  (FILE_MEDIA_SCORE w2);
              stdout := stdout w2 |}
           [MediaScoreLine media_score; VerdictLine video_verdict; Separator])
    /\ PyFloat.round2 (PyFloat.min2 (5.0 * 0.7 + 4.6 * 0.3) 5.0) = 4.88.
Proof.
  intros file w data video_score vbps video_verdict audio_score w1 w2
    Hex Hprobe Hvideo Haudio media_score.
  split; [|vm_compute; reflexivity].
  unfold analyze_file. rewrite Hex. cbn [negb].
  unfold print_separator. unfold bind at 1 2 3, print at 1 2 3.
  rewrite Hprobe. cbn [lift]. unfold bind at 1, ret at 1.
  rewrite !printed_printed. cbn [app].
  rewrite (bind_done _ _ _ _ _ Hvideo).
  rewrite (bind_done _ _ _ _ _ Haudio).
  fold media_score. unfold bind, store, print.
  rewrite !printed_printed. reflexivity.
Qed.

End RunFacts.

(** When every path of a run with several files is missing, the loop
    completes and the choice of the preferred file then raises, the scores
    being empty. *)
Example all_files_missing :
  main Sample.path_str Sample.path_exists Sample.run_ffprobe
    ["media-quality-check"; "gone.mkv"; "gone.mkv"] Sample.empty_world
  = Raised ValueError
      (printed Sample.empty_world
         [FileNotFound "gone.mkv"; FileNotFound "gone.mkv"]).
Proof. vm_compute. reflexivity. Qed.

Lemma missing_file_is_skipped_witness :
  (forall w,
     analyze_file Sample.path_str Sample.path_exists Sample.run_ffprobe
       "gone.mkv" w
     = Done tt (printed w [FileNotFound "gone.mkv"]))
  /\ (forall before after w,
        analyze_all Sample.path_str Sample.path_exists Sample.run_ffprobe
          (before ++ "gone.mkv" :: after) w
        = bind
            (analyze_all Sample.path_str Sample.path_exists Sample.run_ffprobe
               before)
            (fun _ =>
               bind (print (FileNotFound "gone.mkv"))
                 (fun _ =>
                    analyze_all Sample.path_str Sample.path_exists
                      Sample.run_ffprobe after))
            w)
  /\ (forall argv w,
        dict_get "gone.mkv" (FILE_MEDIA_SCORE w) = None ->
        dict_get "gone.mkv"
          (FILE_MEDIA_SCORE
             (world_of
                (main Sample.path_str Sample.path_exists Sample.run_ffprobe
                   argv w)))
        = None)
  /\ (forall scores best,
        dict_get "gone.mkv" scores = None ->
        best_file_of scores = Ok best -> best <> "gone.mkv").
Proof.
  apply (missing_file_is_skipped Sample.path_str Sample.path_exists
           Sample.run_ffprobe "gone.mkv").
  reflexivity.
Defined.

Lemma no_video_stream_aborts_witness :
  main Sample.path_str Sample.path_exists Sample.run_ffprobe
    ["media-quality-check"; "movie.mkv"; "song.mka"; "one.mkv"]
    Sample.empty_world
  = Raised ValueError
      (printed
         (world_of
            (analyze_all Sample.path_str Sample.path_exists Sample.run_ffprobe
               ["movie.mkv"] Sample.empty_world))
         [Separator; FileHeader "song.mka"; Separator; VideoHeader]).
Proof.
  refine (proj2 (proj2
            (no_video_stream_aborts Sample.path_str Sample.path_exists
               Sample.run_ffprobe "song.mka" Sample.audio_only _ _ _))
            "media-quality-check" ["movie.mkv"] ["one.mkv"] Sample.empty_world
            _ _);
    vm_compute; reflexivity.
Defined.

Example movie_is_analysed :
  analyze_file Sample.path_str Sample.path_exists Sample.run_ffprobe
    "movie.mkv" Sample.empty_world
  = Done tt
      {| FILE_MEDIA_SCORE := [("movie.mkv", (4.88, 16))];
         stdout :=
           [Separator; FileHeader "movie.mkv"; Separator; VideoHeader;
            VideoLine (Some "hevc") (Some 3840%Z) (Some 2160%Z) "10-bit"
              "Dolby Vision" 16;
            AudioHeader; AudioLine "eac3" 2 (Some 640%Z) "und" "";
            MediaScoreLine 4.88; VerdictLine "REFERENCE QUALITY"; Separator] |}.
Proof. vm_compute. reflexivity. Qed.

(** C8. Of the accumulated scores of a run with more than one file, the
    preferred file is an entry whose pair (media score, video bitrate) is
    greatest in the lexicographic order: no entry has a higher media score,
    and among the entries with its media score none has a higher video
    bitrate.  That entry is the one [main] prints. *)
Theorem best_file_lexicographic :
  forall (scores : list (string * (float * float))),
    scores <> [] ->
    Forall
      (fun entry =>
         FloatOrder.number (fst (snd entry))
         /\ FloatOrder.number (snd (snd entry)))
      scores ->
    exists best media_score vbps,
      best_file_of scores = Ok best
      /\ In (best, (media_score, vbps)) scores
      /\ (forall file m b,
            In (file, (m, b)) scores ->
            (m <=? media_score) = true
            /\ ((m =? media_score) = true -> (b <=? vbps) = true))
      /\ (forall path_str path_exists run_ffprobe argv w w1,
            (2 < Z.of_nat (List.length argv))%Z ->
            analyze_all path_str path_exists run_ffprobe (tl argv) w
            = Done tt w1 ->
            FILE_MEDIA_SCORE w1 = scores ->
            main path_str path_exists run_ffprobe argv w
            = Done tt
                (printed w1
                   [PreferredLine
                      (if (PyStr.len best <=? 100)%Z then best
                       else "..." ++ PyStr.last_chars 97 best);
                    Separator])).
Proof.
  intros scores Hne Hgood.
  destruct (best_file_max scores Hne Hgood) as (best & ms & vb & E & Hin & Hmax).
  exists best, ms, vb.
  split; [exact E|]. split; [exact Hin|]. split; [exact Hmax|].
  intros path_str path_exists run_ffprobe argv w w1 Hlen Hloop Hw.
  apply main_preferred; auto. now rewrite Hw.
Qed.

Lemma best_file_lexicographic_witness :
  exists best media_score vbps,
    best_file_of Sample.tied_scores = Ok best
    /\ In (best, (media_score, vbps)) Sample.tied_scores
    /\ (forall file m b,
          In (file, (m, b)) Sample.tied_scores ->
          (m <=? media_score) = true
          /\ ((m =? media_score) = true -> (b <=? vbps) = true))
    /\ (forall path_str path_exists run_ffprobe argv w w1,
          (2 < Z.of_nat (List.length argv))%Z ->
          analyze_all path_str path_exists run_ffprobe (tl argv) w
          = Done tt w1 ->
          FILE_MEDIA_SCORE w1 = Sample.tied_scores ->
          main path_str path_exists run_ffprobe argv w
          = Done tt
              (printed w1
                 [PreferredLine
                    (if (PyStr.len best <=? 100)%Z then best
                     else "..." ++ PyStr.last_chars 97 best);
                  Separator])).
Proof.
  apply best_file_lexicographic.
  - discriminate.
  - repeat constructor.
Defined.

(** The scenario of section 8: media scores 4.5 and 4.5, video bitrates 18.0
    and 22.0 Mbps; the second file is preferred, in either order. *)
Example higher_bitrate_breaks_tie :
  best_file_of Sample.tied_scores = Ok "b.mkv"
  /\ best_file_of (rev Sample.tied_scores) = Ok "b.mkv".
Proof. split; vm_compute; reflexivity. Qed.

(** * Further properties of the code *)

(** ** Substrings *)

Lemma prefix_iff (p s : string) :
  String.prefix p s = true <-> exists post, s = p ++ post.
Proof.
  revert s. induction p as [|a p IH]; intros [|b s]; cbn [String.prefix].
  - split; [intros _; now exists ""|reflexivity].
  - split; [intros _; now exists (String b s)|reflexivity].
  - split; [discriminate|]. intros [post H]. discriminate H.
  - destruct (ascii_dec a b) as [->|Hne].
    + rewrite IH. split; intros [post H]; exists post.
      * cbn. now rewrite H.
      * cbn in H. now injection H.
    + split; [discriminate|]. intros [post H]. cbn in H.
      injection H as H _. congruence.
Qed.

Lemma contains_iff (needle hay : string) :
  PyStr.contains needle hay = true <->
  exists pre post, hay = pre ++ needle ++ post.
Proof.
  induction hay as [|c hay IH]; cbn [PyStr.contains].
  - rewrite orb_false_r, prefix_iff. split.
    + intros [post H]. exists "", post. exact H.
    + intros (pre & post & H). destruct pre as [|a pre]; [|discriminate H].
      exists post. exact H.
  - rewrite orb_true_iff, prefix_iff, IH. split.
    + intros [[post H]|(pre & post & H)].
      * exists "", post. exact H.
      * exists (String c pre), post. cbn. now rewrite H.
    + intros (pre & post & H). destruct pre as [|a pre].
      * left. exists post. exact H.
      * right. cbn in H. injection H as _ H. eauto.
Qed.

Lemma string_app_assoc (a b c : string) : (a ++ b) ++ c = a ++ b ++ c.
Proof. induction a as [|x a IH]; cbn; [reflexivity|now rewrite IH]. Qed.

Lemma contains_trans (a b c : string) :
  PyStr.contains a b = true -> PyStr.contains b c = true ->
  PyStr.contains a c = true.
Proof.
  rewrite !contains_iff. intros (p1 & q1 & ->) (p2 & q2 & ->).
  exists (p2 ++ p1), (q1 ++ q2). now rewrite !string_app_assoc.
Qed.

Lemma get_or_empty_some (s : string) : get_or_empty (Some s) = s.
Proof. destruct s; reflexivity. Qed.

Lemma mem_iff (x : string) (l : list string) : PyStr.mem x l = true <-> In x l.
Proof.
  unfold PyStr.mem. rewrite existsb_exists. split.
  - intros (y & Hin & E). apply String.eqb_eq in E. now subst.
  - intros Hin. exists x. split; [exact Hin|apply String.eqb_refl].
Qed.

(** ** Dolby Vision detection *)

(** X1. A stream is detected as Dolby Vision exactly when the lower-cased
    type of one of its side-data entries has "dovi" or "dolby vision"
    somewhere inside it, or its lower-cased codec tag is "dvh1" or "dvhe";
    entries without a type and a missing tag count as empty text. *)
Theorem detect_dolby_vision_iff :
  forall (v : Stream),
    detect_dolby_vision v = true <->
    (exists sd s pre post,
       In sd (get (side_data_list v) [])
       /\ side_data_type sd = Some s
       /\ (PyStr.lower s = pre ++ "dovi" ++ post
           \/ PyStr.lower s = pre ++ "dolby vision" ++ post))
    \/ (exists t,
          codec_tag_string v = Some t
          /\ (PyStr.lower t = "dvh1" \/ PyStr.lower t = "dvhe")).
Proof.
  intros v. unfold detect_dolby_vision.
  rewrite orb_true_iff, existsb_exists, mem_iff. split.
  - intros [(sd & Hin & H)|H].
    + left. destruct (side_data_type sd) as [s|] eqn:Hs.
      * rewrite get_or_empty_some, orb_true_iff, !contains_iff in H.
        exists sd, s.
        destruct H as [(pre & post & H)|(pre & post & H)];
          exists pre, post; auto.
      * cbn in H. discriminate.
    + right. destruct (codec_tag_string v) as [t|].
      * rewrite get_or_empty_some in H. exists t. split; [reflexivity|].
        destruct H as [H|[H|[]]]; auto.
      * cbn in H. destruct H as [H|[H|[]]]; discriminate.
  - intros [(sd & s & pre & post & Hin & Hs & H)|(t & Ht & H)].
    + left. exists sd. split; [exact Hin|].
      rewrite Hs, get_or_empty_some, orb_true_iff, !contains_iff.
      destruct H; [left|right]; eauto.
    + right. rewrite Ht, get_or_empty_some.
      destruct H as [<-|<-]; [now left|right; now left].
Qed.

(** ** Object-audio detection *)

Lemma lower_app (a b : string) :
  PyStr.lower (a ++ b) = PyStr.lower a ++ PyStr.lower b.
Proof. induction a as [|c a IH]; cbn; [reflexivity|now rewrite IH]. Qed.

Lemma lower_join (sep : string) (l : list string) :
  PyStr.lower (PyStr.join sep l)
  = PyStr.join (PyStr.lower sep) (map PyStr.lower l).
Proof.
  induction l as [|s l IH]; [reflexivity|].
  destruct l as [|t l]; [reflexivity|].
  change (PyStr.join sep (s :: t :: l)) with (s ++ sep ++ PyStr.join sep (t :: l)).
  rewrite !lower_app, IH. reflexivity.
Qed.

(** X2. Object-audio detection does not depend on letter case: two streams
    whose codec name, long name, profile and tag values agree once
    lower-cased get the same answer and the same search text. *)
Theorem detect_object_audio_case_insensitive :
  forall (a b : Stream),
    PyStr.lower (get (codec_name a) "") = PyStr.lower (get (codec_name b) "") ->
    PyStr.lower (get (codec_long_name a) "")
    = PyStr.lower (get (codec_long_name b) "") ->
    PyStr.lower (get (profile a) "") = PyStr.lower (get (profile b) "") ->
    map PyStr.lower (map snd (get (tags a) []))
    = map PyStr.lower (map snd (get (tags b) [])) ->
    detect_object_audio a = detect_object_audio b.
Proof.
  intros a b Hc Hl Hp Ht. unfold detect_object_audio.
  assert (E : PyStr.lower
                (PyStr.join " "
                   [get (codec_name a) ""; get (codec_long_name a) "";
                    get (profile a) "";
                    PyStr.join " " (map snd (get (tags a) []))])
              = PyStr.lower
                  (PyStr.join " "
                     [get (codec_name b) ""; get (codec_long_name b) "";
                      get (profile b) "";
                      PyStr.join " " (map snd (get (tags b) []))])).
  { rewrite !lower_join. cbn [map]. rewrite !lower_join.
    now rewrite Hc, Hl, Hp, Ht. }
  rewrite E. reflexivity.
Qed.

Lemma detect_object_audio_case_insensitive_witness :
  detect_object_audio Sample.eac3_atmos
  = detect_object_audio
      (Sample.audio "EAC3" None 6 None
         (Some [("language", "ENG"); ("title", "DOLBY ATMOS");
                ("BPS", "768000")])).
Proof.
  apply detect_object_audio_case_insensitive; reflexivity.
Defined.

(** X3. The marker "auro-3d" never decides a detection: a text that has it
    has "auro" as well, so the answer is that of the seven other markers. *)
Theorem auro_3d_marker_is_subsumed :
  forall (a : Stream),
    fst (detect_object_audio a)
    = existsb (fun k => PyStr.contains k (snd (detect_object_audio a)))
        ["atmos"; "dts:x"; "dtsx"; "dts x"; "auro"; "mpeg-h"; "3d audio"].
Proof.
  intros a. unfold detect_object_audio. cbn [fst snd].
  set (h := PyStr.lower _). unfold object_markers. cbn [existsb].
  destruct (PyStr.contains "auro-3d" h) eqn:E3; [|now rewrite !orb_false_r].
  assert (E : PyStr.contains "auro" h = true).
  { apply contains_trans with (b := "auro-3d"); [reflexivity|exact E3]. }
  rewrite E. cbn [orb]. now rewrite !orb_true_r.
Qed.

(** X4. The line printed for an audio stream names an object-audio variant
    exactly when the stream is detected as object audio, and the variant is
    one of Atmos, DTS:X, Auro-3D and MPEG-H; when the bit rate cannot be
    read nothing is printed. *)
Theorem audio_line_variant :
  forall (a : Stream) (w : world),
    match audio_stream_body tt a w with
    | Done _ w' =>
        exists kbps obj_type,
          w' = printed w
                 [AudioLine (get (codec_name a) "") (get (channels a) 0%Z) kbps
                    (get (dict_get "language" (get (tags a) [])) "und")
                    obj_type]
          /\ In obj_type ["Atmos"; "DTS:X"; "Auro-3D"; "MPEG-H"; ""]
          /\ (obj_type = "" <-> fst (detect_object_audio a) = false)
    | Raised _ w' => w' = w
    end.
Proof.
  intros a w. unfold audio_stream_body, bind.
  match goal with
  | |- context [lift ?r w] => destruct r as [kbps|e]
  end; cbn [lift]; [|reflexivity].
  unfold ret, detect_object_audio. cbn [fst].
  set (h := PyStr.lower _). unfold object_markers. cbn [existsb].
  unfold print.
  destruct (PyStr.contains "atmos" h); destruct (PyStr.contains "dts:x" h);
    destruct (PyStr.contains "dtsx" h); destruct (PyStr.contains "dts x" h);
    destruct (PyStr.contains "auro" h); destruct (PyStr.contains "auro-3d" h);
    destruct (PyStr.contains "mpeg-h" h); destruct (PyStr.contains "3d audio" h);
    cbn [orb]; eexists; eexists; (split; [reflexivity|]);
    (split; [cbn; tauto|]); split; intros; (discriminate || reflexivity).
Qed.

(** ** The video score as a function of width, flag and bitrate *)

Lemma compute_video_score_inv v fmt is_hdr is_dv score vbps verdict :
  compute_video_score v fmt is_hdr is_dv = Ok (score, vbps, verdict) ->
  get_video_bitrate_mbps v fmt = Ok vbps
  /\ Spec.video_table (get (width v) 0%Z) (is_dv || is_hdr) vbps
     = Some (score, verdict).
Proof.
  intros H.
  destruct (get_video_bitrate_mbps v fmt) as [b|e] eqn:Hb.
  - destruct (compute_video_score_unfold v fmt is_hdr is_dv b Hb)
      as (s & r & Ht & Hs).
    rewrite Hs in H. injection H as <- <- <-. auto.
  - unfold compute_video_score in H. rewrite Hb in H. discriminate H.
Qed.

Ltac split_guards :=
  repeat (match goal with
          | |- context [if ?b then _ else _] => destruct b eqn:?
          end; cbv beta iota).

(** X5. Whatever the stream, a video score is one of 5.0, 4.5, 4.0, 3.5,
    3.0 and 2.0, and it comes with the verdict of its value: REFERENCE
    QUALITY for 5.0, EXCELLENT for 4.5, GOOD for 4.0, MEDIUM for 3.5 and 3.0,
    LOW for 2.0.  The bitrate returned with it is the stream's. *)
Theorem video_score_and_verdict :
  forall (v : Stream) (fmt : Format) (is_hdr is_dv : bool)
         (score vbps : float) (verdict : string),
    compute_video_score v fmt is_hdr is_dv = Ok (score, vbps, verdict) ->
    In (score, verdict)
      [(5.0, "REFERENCE QUALITY"); (4.5, "EXCELLENT"); (4.0, "GOOD");
       (3.5, "MEDIUM"); (3.0, "MEDIUM"); (2.0, "LOW")]
    /\ get_video_bitrate_mbps v fmt = Ok vbps.
Proof.
  intros v fmt is_hdr is_dv score vbps verdict H.
  apply compute_video_score_inv in H as [Hb Ht]. split; [|exact Hb].
  rewrite video_table_brackets in Ht. injection Ht as Ht.
  rewrite <- Ht. split_guards; cbn [In]; tauto.
Qed.

Lemma video_score_and_verdict_witness :
  In (5.0, "REFERENCE QUALITY")
    [(5.0, "REFERENCE QUALITY"); (4.5, "EXCELLENT"); (4.0, "GOOD");
     (3.5, "MEDIUM"); (3.0, "MEDIUM"); (2.0, "LOW")]
  /\ get_video_bitrate_mbps Sample.uhd_dv Sample.fmt = Ok 16.
Proof.
  apply (video_score_and_verdict Sample.uhd_dv Sample.fmt true true
           5.0 16 "REFERENCE QUALITY").
  vm_compute. reflexivity.
Defined.

(** X6. The video score never goes down when a stream is wider, has a
    higher bitrate, or gains the HDR/Dolby-Vision flag. *)
Theorem video_score_monotone :
  forall (v1 v2 : Stream) (fmt1 fmt2 : Format) (hdr1 dv1 hdr2 dv2 : bool)
         (s1 b1 s2 b2 : float) (r1 r2 : string),
    compute_video_score v1 fmt1 hdr1 dv1 = Ok (s1, b1, r1) ->
    compute_video_score v2 fmt2 hdr2 dv2 = Ok (s2, b2, r2) ->
    (get (width v1) 0 <= get (width v2) 0)%Z ->
    (b1 <=? b2) = true ->
    ((dv1 || hdr1) = true -> (dv2 || hdr2) = true) ->
    (s1 <=? s2) = true.
Proof.
  intros v1 v2 fmt1 fmt2 hdr1 dv1 hdr2 dv2 s1 b1 s2 b2 r1 r2 H1 H2 Hw Hb Hf.
  apply compute_video_score_inv in H1 as [_ H1].
  apply compute_video_score_inv in H2 as [_ H2].
  rewrite video_table_brackets in H1, H2.
  injection H1 as H1. injection H2 as H2.
  apply (f_equal fst) in H1, H2. cbn [fst] in H1, H2. subst s1 s2.
  set (w1 := get (width v1) 0%Z) in *. set (w2 := get (width v2) 0%Z) in *.
  set (f1 := dv1 || hdr1) in *. set (f2 := dv2 || hdr2) in *.
  assert (W1 : (3840 <=? w1)%Z = true -> (3840 <=? w2)%Z = true)
    by (rewrite !Z.leb_le; lia).
  assert (W2 : (1920 <=? w1)%Z = true -> (1920 <=? w2)%Z = true)
    by (rewrite !Z.leb_le; lia).
  assert (W3 : (1280 <=? w1)%Z = true -> (1280 <=? w2)%Z = true)
    by (rewrite !Z.leb_le; lia).
  assert (W4 : (3840 <=? w2)%Z = true -> (1920 <=? w2)%Z = true)
    by (rewrite !Z.leb_le; lia).
  assert (W5 : (1920 <=? w2)%Z = true -> (1280 <=? w2)%Z = true)
    by (rewrite !Z.leb_le; lia).
  assert (T : forall t t' : float,
             (t' <=? t) = true -> (t <=? b1) = true -> (t' <=? b2) = true).
  { intros t t' Ht H. eapply FloatFacts.leb_trans; [exact Ht|].
    eapply FloatFacts.leb_trans; eauto. }
  pose proof (T 30 30 eq_refl) as T30. pose proof (T 30 20 eq_refl) as T32.
  pose proof (T 30 15 eq_refl) as T31. pose proof (T 30 12 eq_refl) as T3l.
  pose proof (T 20 20 eq_refl) as T20. pose proof (T 20 15 eq_refl) as T21.
  pose proof (T 20 12 eq_refl) as T2l. pose proof (T 15 15 eq_refl) as T15.
  pose proof (T 15 12 eq_refl) as T1l. pose proof (T 12 12 eq_refl) as T12.
  clear T Hb Hw.
  destruct f1; destruct f2; try (specialize (Hf eq_refl); discriminate Hf);
    clear Hf;
    destruct (3840 <=? w1)%Z; destruct (3840 <=? w2)%Z;
    try (specialize (W1 eq_refl); discriminate W1); clear W1;
    destruct (1920 <=? w1)%Z; destruct (1920 <=? w2)%Z;
    try (specialize (W2 eq_refl); discriminate W2);
    try (specialize (W4 eq_refl); discriminate W4); clear W2 W4;
    destruct (1280 <=? w1)%Z; destruct (1280 <=? w2)%Z;
    try (specialize (W3 eq_refl); discriminate W3);
    try (specialize (W5 eq_refl); discriminate W5); clear W3 W5;
    cbv beta iota;
    destruct (30 <=? b1); destruct (20 <=? b1); destruct (15 <=? b1);
    destruct (12 <=? b1); cbv beta iota;
    repeat match goal with
           | H : true = true -> _ |- _ => specialize (H eq_refl)
           | H : false = true -> _ |- _ => clear H
           end;
    repeat match goal with
           | H : (_ <=? b2) = true |- _ => rewrite H
           end;
    cbv beta iota; try reflexivity;
    split_guards; reflexivity.
Qed.

Lemma video_score_monotone_witness : (4.0 <=? 5.0) = true.
Proof.
  apply (video_score_monotone Sample.uhd_sdr Sample.uhd_dv Sample.fmt
           Sample.fmt false false true true 4.0 16 5.0 16 "GOOD"
           "REFERENCE QUALITY");
    vm_compute; (reflexivity || discriminate).
Defined.

(** ** More on the audio score of a file *)

(** X7. The audio score of a file does not depend on the order of its
    streams. *)
Theorem compute_audio_score_permutation :
  forall (streams streams' : list Stream) (best : float),
    Permutation streams streams' ->
    compute_audio_score streams = Ok best ->
    compute_audio_score streams' = Ok best.
Proof.
  intros l l' best Hp H.
  pose proof (compute_audio_score_spec l) as S. rewrite H in S.
  destruct S as (_ & Hub & Hatt).
  pose proof (compute_audio_score_spec l') as S'.
  destruct (compute_audio_score l') as [best'|e] eqn:H'.
  - f_equal. destruct S' as (_ & Hub' & Hatt').
    destruct Hatt as [[-> Hnone]|(a & Hin & Ha & Hs)];
      destruct Hatt' as [[-> Hnone']|(a' & Hin' & Ha' & Hs')].
    + reflexivity.
    + rewrite (Hnone a') in Ha'; [discriminate|].
      eapply Permutation_in; [apply Permutation_sym; exact Hp|exact Hin'].
    + rewrite (Hnone' a) in Ha; [discriminate|].
      eapply Permutation_in; eauto.
    + destruct (Hub' a) as (s & Hs1 & Hle1); auto.
      { eapply Permutation_in; eauto. }
      destruct (Hub a') as (s' & Hs2 & Hle2); auto.
      { eapply Permutation_in; [apply Permutation_sym; exact Hp|exact Hin']. }
      assert (s = best) by congruence. assert (s' = best') by congruence.
      subst s s'. symmetry. apply FloatFacts.leb_antisym; auto.
      apply two_leb_nonzero.
      now apply audio_stream_score_bounds in Hs.
  - destruct S' as (a & Hin & Ha & Hs).
    destruct (Hub a) as (s & Hs' & _); auto.
    + eapply Permutation_in; [apply Permutation_sym; exact Hp|exact Hin].
    + congruence.
Qed.

Lemma compute_audio_score_permutation_witness :
  compute_audio_score [Sample.eac3_stereo; Sample.cover; Sample.aac_stereo]
  = Ok 4.6.
Proof.
  apply (compute_audio_score_permutation
           [Sample.aac_stereo; Sample.eac3_stereo; Sample.cover]).
  - exact (Permutation_cons_append [Sample.eac3_stereo; Sample.cover]
             Sample.aac_stereo).
  - vm_compute. reflexivity.
Defined.

Lemma audio_loop_filter (l : list Stream) :
  forall best,
    audio_loop best
      (filter (fun s => opt_string_eqb (codec_type s) "audio") l)
    = audio_loop best l.
Proof.
  induction l as [|a l IH]; intros best; cbn [filter audio_loop];
    [reflexivity|].
  destruct (opt_string_eqb (codec_type a) "audio") eqn:Ha; cbn [negb].
  - cbn [audio_loop]. rewrite Ha. cbn [negb].
    destruct (audio_stream_score a); cbn [rbind]; auto.
  - apply IH.
Qed.

Lemma audio_body_done (a : Stream) (w w' : world) :
  audio_stream_body tt a w = Done tt w' ->
  exists kbps, kbps_of (raw_bit_rate a) = Ok kbps.
Proof.
  unfold audio_stream_body, kbps_of, bind.
  destruct (raw_bit_rate a) as [s|]; [|eauto].
  destruct (PyStr.truthy s); [|eauto].
  destruct (PyStr.to_int s) as [n|e]; cbn [rbind lift]; [|discriminate].
  destruct (PyFloat.int_truediv n 1000) as [q|e]; cbn [rbind lift];
    [eauto|discriminate].
Qed.

Lemma audio_listing_done (l : list Stream) :
  forall w w',
    for_each audio_stream_body tt l w = Done tt w' ->
    Forall (fun a => exists kbps, kbps_of (raw_bit_rate a) = Ok kbps) l.
Proof.
  induction l as [|a l IH]; intros w w' H; [constructor|].
  cbn [for_each] in H. unfold bind in H.
  destruct (audio_stream_body tt a w) as [[] w1|e w1] eqn:Ha; [|discriminate].
  constructor; [eapply audio_body_done; eauto|eapply IH; eauto].
Qed.

(** X8. In the audio part of the analysis every exception comes from the
    listing of the streams: once the listing has completed, the audio score
    of the file is computed without raising. *)
Theorem audio_section_fails_in_listing :
  forall (streams : list Stream) (w : world),
    let audio_streams :=
      filter (fun s => opt_string_eqb (codec_type s) "audio") streams in
    match for_each audio_stream_body tt audio_streams
            (printed w [AudioHeader]) with
    | Done _ w' =>
        exists audio_score,
          compute_audio_score streams = Ok audio_score
          /\ audio_section streams w = Done audio_score w'
    | Raised e w' => audio_section streams w = Raised e w'
    end.
Proof.
  intros streams w audio_streams.
  assert (Hsec : audio_section streams w
                 = bind (for_each audio_stream_body tt audio_streams)
                     (fun _ => lift (compute_audio_score audio_streams))
                     (printed w [AudioHeader])) by reflexivity.
  rewrite Hsec. unfold bind.
  destruct (for_each audio_stream_body tt audio_streams
              (printed w [AudioHeader])) as [[] w'|e w'] eqn:Hl;
    [|reflexivity].
  pose proof (audio_listing_done _ _ _ Hl) as Hall.
  pose proof (compute_audio_score_spec audio_streams) as S.
  assert (E : compute_audio_score audio_streams = compute_audio_score streams)
    by apply audio_loop_filter.
  destruct (compute_audio_score audio_streams) as [best|e] eqn:Hs.
  - exists best. split; [now rewrite <- E|reflexivity].
  - destruct S as (a & Hin & _ & Herr).
    rewrite Forall_forall in Hall. destruct (Hall a Hin) as [kbps Hk].
    rewrite audio_stream_score_unfold, Hk in Herr. discriminate Herr.
Qed.

(** ** More on the video part *)

Lemma hdr_label_own (v : Stream) (is_hdr is_dv : bool) :
  fst (fst (hdr_classification v is_hdr is_dv))
  = fst (fst (hdr_classification v false false)).
Proof.
  unfold hdr_classification. destruct (detect_dolby_vision v); [reflexivity|].
  destruct (PyStr.mem _ _); reflexivity.
Qed.

(** The listing of the video streams: it completes exactly when every
    bitrate can be derived, printing one line per stream, and otherwise
    raises what the first failing derivation raises. *)
Lemma video_listing (fmt : Format) (l : list Stream) :
  forall flags w,
    match for_each (video_stream_body fmt) flags l w with
    | Done _ w' =>
        exists lines,
          w' = printed w lines
          /\ Forall2
               (fun v line =>
                  exists vbps,
                    get_video_bitrate_mbps v fmt = Ok vbps
                    /\ line
                       = VideoLine (codec_name v) (width v) (height v)
                           (if PyStr.contains "10" (get (pix_fmt v) "")
                            then "10-bit" else "8-bit")
                           (fst (fst (hdr_classification v false false)))
                           vbps)
               l lines
    | Raised e _ =>
        exists v, In v l /\ get_video_bitrate_mbps v fmt = Err e
    end.
Proof.
  induction l as [|v l IH]; intros flags w; cbn [for_each].
  - exists []. split; [|constructor].
    unfold printed. destruct w. cbn. now rewrite app_nil_r.
  - unfold bind. unfold video_stream_body at 1.
    pose proof (hdr_label_own v (fst flags) (snd flags)) as Hlabel.
    destruct (hdr_classification v (fst flags) (snd flags)) as [[label h] d].
    cbn [fst] in Hlabel.
    destruct (get_video_bitrate_mbps v fmt) as [vbps|e] eqn:Hb; cbn [lift].
    + unfold bind, ret, print.
      match goal with
      | |- context [for_each _ ?s l ?w1] => specialize (IH s w1)
      end.
      destruct (for_each _ _ l _) as [fl w'|e w'].
      * destruct IH as (lines & -> & Hall).
        eexists (_ :: lines). rewrite printed_printed. split; [reflexivity|].
        constructor; [|exact Hall]. exists vbps. rewrite Hlabel. auto.
      * destruct IH as (x & Hin & Hx). exists x. split; [now right|exact Hx].
    + exists v. split; [now left|exact Hb].
Qed.

(** X9. The video part of the analysis returns only when the file has a
    video stream that is not an attached picture and the bitrate of every
    such stream can be derived.  When it raises, either there is no such
    stream and the exception is [ValueError], or the exception is that of
    the failing bitrate derivation of one of the streams. *)
Theorem video_section_outcome :
  forall (streams : list Stream) (fmt : Format) (w : world),
    let video_streams := filter is_video_stream streams in
    match video_section streams fmt w with
    | Done _ _ =>
        video_streams <> []
        /\ Forall (fun v => exists b, get_video_bitrate_mbps v fmt = Ok b)
             video_streams
    | Raised e _ =>
        (video_streams = [] /\ e = ValueError)
        \/ (exists v,
              In v video_streams /\ get_video_bitrate_mbps v fmt = Err e)
    end.
Proof.
  intros streams fmt w video_streams.
  assert (Hsec : video_section streams fmt w
                 = bind (for_each (video_stream_body fmt) (false, false)
                           video_streams)
                     (fun '(is_hdr, is_dv) =>
                        bind (lift (best_video_of video_streams))
                          (fun best_video =>
                             lift (compute_video_score best_video fmt
                                     is_hdr is_dv)))
                     (printed w [VideoHeader])) by reflexivity.
  rewrite Hsec. unfold bind at 1.
  pose proof (video_listing fmt video_streams (false, false)
                (printed w [VideoHeader])) as Hl.
  destruct (for_each _ _ video_streams _) as [[is_hdr is_dv] w'|e w'].
  - destruct Hl as (lines & _ & Hall).
    assert (Hok : Forall (fun v => exists b, get_video_bitrate_mbps v fmt = Ok b)
                    video_streams).
    { clear -Hall. induction Hall as [|v line l lines (b & Hb & _) _ IH];
        constructor; eauto. }
    unfold bind. destruct video_streams as [|v l] eqn:Hvs.
    + cbn. left. auto.
    + cbn [best_video_of py_max lift]. unfold ret.
      pose proof (max_from_in Z.gtb (fun x => get (width x) 0%Z) l v) as Hin.
      rewrite Forall_forall in Hok.
      destruct (Hok _ Hin) as [b Hb].
      destruct (compute_video_score_unfold _ fmt is_hdr is_dv b Hb)
        as (s & r & _ & Hs).
      rewrite Hs. cbn [lift]. unfold ret. split; [discriminate|].
      now apply Forall_forall.
  - right. exact Hl.
Qed.

(** X10. The video listing prints, after its header, one line per video
    stream that is not an attached picture, in the order of the file; the
    label on a line is the stream's own (Dolby Vision, HDR or SDR), whatever
    the other streams are. *)
Theorem video_section_lines :
  forall (streams : list Stream) (fmt : Format) (w w' : world)
         (score vbps : float) (verdict : string),
    video_section streams fmt w = Done (score, vbps, verdict) w' ->
    exists lines,
      stdout w' = (stdout w ++ VideoHeader :: lines)%list
      /\ Forall2
           (fun v line =>
              exists b,
                get_video_bitrate_mbps v fmt = Ok b
                /\ line
                   = VideoLine (codec_name v) (width v) (height v)
                       (if PyStr.contains "10" (get (pix_fmt v) "")
                        then "10-bit" else "8-bit")
                       (fst (fst (hdr_classification v false false))) b)
           (filter is_video_stream streams) lines.
Proof.
  intros streams fmt w w' score vbps verdict H.
  unfold video_section in H. unfold bind at 1, print at 1 in H.
  unfold bind at 1 in H.
  pose proof (video_listing fmt (filter is_video_stream streams) (false, false)
                (printed w [VideoHeader])) as Hl.
  destruct (for_each _ _ (filter is_video_stream streams) _)
    as [[is_hdr is_dv] w1|e w1]; [|discriminate H].
  destruct Hl as (lines & -> & Hall). exists lines. split; [|exact Hall].
  unfold bind in H.
  destruct (best_video_of _) as [best|e]; cbn [lift] in H; [|discriminate H].
  unfold ret in H.
  destruct (compute_video_score best fmt is_hdr is_dv) as [r|e];
    cbn [lift] in H; [|discriminate H].
  unfold ret in H. injection H as _ <-.
  cbn. now rewrite <- app_assoc.
Qed.

Lemma video_section_lines_witness :
  exists lines,
    stdout
      (world_of
         (video_section [Sample.uhd_sdr; Sample.cover; Sample.hd_hdr]
            Sample.fmt Sample.empty_world))
    = (stdout Sample.empty_world ++ VideoHeader :: lines)%list
    /\ Forall2
         (fun v line =>
            exists b,
              get_video_bitrate_mbps v Sample.fmt = Ok b
              /\ line
                 = VideoLine (codec_name v) (width v) (height v)
                     (if PyStr.contains "10" (get (pix_fmt v) "")
                      then "10-bit" else "8-bit")
                     (fst (fst (hdr_classification v false false))) b)
         (filter is_video_stream [Sample.uhd_sdr; Sample.cover; Sample.hd_hdr])
         lines.
Proof.
  apply (video_section_lines [Sample.uhd_sdr; Sample.cover; Sample.hd_hdr]
           Sample.fmt Sample.empty_world _ 5.0 16 "REFERENCE QUALITY").
  vm_compute. reflexivity.
Defined.

(** X11. A stream that is neither audio nor a video stream to analyse (cover
    art, subtitles, data) changes nothing: with it or without it, wherever it
    stands, the video part and the audio part of the analysis do and print
    the same. *)
Theorem other_streams_are_ignored :
  forall (s : Stream) (before after : list Stream) (fmt : Format) (w : world),
    is_video_stream s = false ->
    opt_string_eqb (codec_type s) "audio" = false ->
    video_section (before ++ s :: after) fmt w
    = video_section (before ++ after) fmt w
    /\ audio_section (before ++ s :: after) w
       = audio_section (before ++ after) w.
Proof.
  intros s before after fmt w Hv Ha.
  unfold video_section, audio_section.
  rewrite !filter_app. cbn [filter]. rewrite Hv, Ha. split; reflexivity.
Qed.

Lemma other_streams_are_ignored_witness :
  video_section ([Sample.uhd_dv] ++ Sample.cover :: [Sample.eac3_stereo])
    Sample.fmt Sample.empty_world
  = video_section ([Sample.uhd_dv] ++ [Sample.eac3_stereo]) Sample.fmt
      Sample.empty_world
  /\ audio_section ([Sample.uhd_dv] ++ Sample.cover :: [Sample.eac3_stereo])
       Sample.empty_world
     = audio_section ([Sample.uhd_dv] ++ [Sample.eac3_stereo])
         Sample.empty_world.
Proof.
  apply other_streams_are_ignored; reflexivity.
Defined.

(** ** More on whole runs *)

Lemma dict_set_keys_in {A} (x key : string) (a : A) (d : list (string * A)) :
  In x (map fst (dict_set key a d)) -> x = key \/ In x (map fst d).
Proof.
  induction d as [|[k b] d IH]; cbn [dict_set map fst In].
  - intros [<-|[]]. now left.
  - destruct (String.eqb k key); cbn [map fst In]; [tauto|].
    intros [<-|H]; [right; now left|]. destruct (IH H); auto.
Qed.

Lemma dict_set_keys_nodup {A} (key : string) (a : A) (d : list (string * A)) :
  NoDup (map fst d) -> NoDup (map fst (dict_set key a d)).
Proof.
  induction d as [|[k b] d IH]; cbn [dict_set map fst]; intros H.
  - constructor; [intros []|constructor].
  - inversion H as [|? ? Hnotin Hd]; subst.
    destruct (String.eqb k key) eqn:E; cbn [map fst]; [exact H|].
    constructor; [|auto]. intros Hin.
    apply dict_set_keys_in in Hin as [->|Hin]; [|contradiction].
    rewrite String.eqb_refl in E. discriminate.
Qed.

Section RunExtras.

Variable path_str : string -> string.
Variable path_exists : string -> bool.
Variable run_ffprobe : string -> result ProbeData.

Local Abbreviation analyze := (analyze_file path_str path_exists run_ffprobe).
Local Abbreviation analyze_files :=
  (analyze_all path_str path_exists run_ffprobe).
Local Abbreviation run := (main path_str path_exists run_ffprobe).

(** A property of the scores that every write of an entry keeps is kept by
    the analysis of a file, by the loop and by the run. *)
Lemma run_preserves (P : list (string * (float * float)) -> Prop)
  (files : list string) :
  (forall f entry d, In f files -> P d -> P (dict_set (path_str f) entry d)) ->
  forall w,
    P (FILE_MEDIA_SCORE w) ->
    P (FILE_MEDIA_SCORE (world_of (analyze_files files w))).
Proof.
  unfold analyze_all.
  induction files as [|f files IH]; intros Hset w Hw; cbn [for_each].
  - exact Hw.
  - unfold bind.
    assert (Hf : P (FILE_MEDIA_SCORE (world_of (analyze f w)))).
    { destruct (analyze_file_scores path_str path_exists run_ffprobe f w)
        as [E|(_ & entry & E)]; rewrite E; [exact Hw|].
      apply Hset; [now left|exact Hw]. }
    destruct (analyze f w) as [[] w'|e w']; cbn [world_of] in *; [|exact Hf].
    apply IH; [|exact Hf]. intros g entry d Hin. apply Hset. now right.
Qed.

Lemma main_preserves (P : list (string * (float * float)) -> Prop)
  (argv : list string) :
  (forall f entry d,
     In f (tl argv) -> P d -> P (dict_set (path_str f) entry d)) ->
  forall w,
    P (FILE_MEDIA_SCORE w) ->
    P (FILE_MEDIA_SCORE (world_of (run argv w))).
Proof.
  intros Hset w Hw.
  destruct (main_scores path_str path_exists run_ffprobe argv w) as [E|E];
    rewrite E; [exact Hw|].
  now apply run_preserves.
Qed.

(** X12. A run writes no entry of [FILE_MEDIA_SCORE] but those of the files
    it was given: the entry under any other key is after the run, however it
    ends, what it was before. *)
Theorem run_writes_only_its_files :
  forall (argv : list string) (w : world) (key : string),
    (forall f, In f (tl argv) -> path_str f <> key) ->
    dict_get key (FILE_MEDIA_SCORE (world_of (run argv w)))
    = dict_get key (FILE_MEDIA_SCORE w).
Proof.
  intros argv w key Hother.
  apply (main_preserves
           (fun d => dict_get key d = dict_get key (FILE_MEDIA_SCORE w)));
    [|reflexivity].
  intros f entry d Hin Hd. rewrite dict_get_set.
  destruct (String.eqb (path_str f) key) eqn:E; [|exact Hd].
  apply String.eqb_eq in E. now apply Hother in Hin.
Qed.

(** X13. [FILE_MEDIA_SCORE] never holds two entries for one path: a run
    that starts with distinct keys ends with distinct keys, even when a file
    is named more than once on the command line. *)
Theorem scores_keys_stay_distinct :
  forall (argv : list string) (w : world),
    NoDup (map fst (FILE_MEDIA_SCORE w)) ->
    NoDup (map fst (FILE_MEDIA_SCORE (world_of (run argv w)))).
Proof.
  intros argv w H.
  apply (main_preserves (fun d => NoDup (map fst d))); [|exact H].
  intros f entry d _. apply dict_set_keys_nodup.
Qed.

(** X14. Without a file argument [main] prints the usage line and exits
    with status 1; with exactly one it does what the analysis of that file
    does and nothing more, so no preferred file is named. *)
Theorem main_with_at_most_one_file :
  forall (w : world),
    run [] w = Raised (SystemExit 1) (printed w [UsageLine])
    /\ (forall prog, run [prog] w = Raised (SystemExit 1) (printed w [UsageLine]))
    /\ (forall prog file, run [prog; file] w = analyze file w).
Proof.
  intros w. split; [reflexivity|]. split; [reflexivity|].
  intros prog file. unfold main, analyze_all. cbn [List.length tl for_each].
  change (Z.of_nat 2 <? 2)%Z with false. change (Z.of_nat 2 >? 2)%Z with false.
  unfold bind, ret.
  destruct (analyze file w) as [[] w'|e w']; reflexivity.
Qed.

Lemma analyze_file_probe_error file e w :
  path_exists (path_str file) = true ->
  run_ffprobe (path_str file) = Err e ->
  analyze file w
  = Raised e (printed w [Separator; FileHeader (path_str file); Separator]).
Proof.
  intros Hex Hprobe. unfold analyze_file. rewrite Hex. cbn [negb].
  unfold print_separator. unfold bind at 1 2 3, print at 1 2 3.
  rewrite Hprobe. cbn [lift]. unfold bind, raise.
  rewrite !printed_printed. reflexivity.
Qed.

(** X15. When ffprobe fails on a file that exists, its exception leaves
    [analyze_file] right after the header of the file and ends the run: the
    files after it are not analysed and no score is stored for it. *)
Theorem probe_failure_aborts :
  forall (file : string) (e : exn),
    path_exists (path_str file) = true ->
    run_ffprobe (path_str file) = Err e ->
    let aborted w :=
      Raised e
        (printed w [Separator; FileHeader (path_str file); Separator]) in
    (forall w, analyze file w = aborted w)
    /\ (forall prog before after w w1,
          analyze_files before w = Done tt w1 ->
          run (prog :: before ++ file :: after) w = aborted w1).
Proof.
  intros file e Hex Hprobe aborted. split.
  - intros w. now apply analyze_file_probe_error.
  - intros prog before after w w1 Hbefore. unfold main.
    assert (Hlen : (Z.of_nat (List.length (prog :: before ++ file :: after)) <? 2)%Z
                   = false).
    { apply Z.ltb_ge. cbn [List.length]. rewrite length_app. cbn [List.length].
      lia. }
    rewrite Hlen. unfold bind at 1, ret at 1. cbn [tl].
    apply bind_raised. unfold analyze_all in *.
    rewrite for_each_app. rewrite (bind_done _ _ _ _ _ Hbefore).
    cbn [for_each]. apply bind_raised.
    now apply analyze_file_probe_error.
Qed.

End RunExtras.

(** ** The name of the preferred file *)

Lemma string_length_app (a b : string) :
  String.length (a ++ b) = (String.length a + String.length b)%nat.
Proof. induction a as [|c a IH]; cbn; [reflexivity|now rewrite IH]. Qed.

(** The first character of a text is a non-empty prefix of it. *)
Lemma first_char_split (s c rest : string) :
  PyStr.first_char s = Some (c, rest) ->
  s = c ++ rest /\ (String.length rest < String.length s)%nat.
Proof.
  unfold PyStr.first_char. destruct s as [|b1 s1]; [discriminate|].
  cbv zeta.
  assert (Hs : forall c rest,
             Some (String b1 "", s1) = Some (c, rest) ->
             String b1 s1 = c ++ rest
             /\ (String.length rest < String.length (String b1 s1))%nat).
  { intros c' r' H. injection H as <- <-. split; [reflexivity|cbn; lia]. }
  repeat match goal with
         | |- context [if ?b then _ else _] => destruct b
         | |- context [match ?x with EmptyString => _ | String _ _ => _ end] =>
             destruct x
         end;
    try (apply Hs);
    intros H; injection H as <- <-; (split; [reflexivity|cbn; lia]).
Qed.

Lemma first_char_none (s : string) :
  PyStr.first_char s = None -> s = "".
Proof.
  unfold PyStr.first_char. destruct s as [|b1 s1]; [reflexivity|].
  cbv zeta.
  repeat match goal with
         | |- context [if ?b then _ else _] => destruct b
         | |- context [match ?x with EmptyString => _ | String _ _ => _ end] =>
             destruct x
         end; discriminate.
Qed.

(** Enough fuel is enough. *)
Lemma chars_from_enough :
  forall fuel s,
    (String.length s <= fuel)%nat ->
    PyStr.chars_from fuel s = PyStr.chars s.
Proof.
  assert (H : forall fuel s fuel',
             (String.length s <= fuel)%nat -> (String.length s <= fuel')%nat ->
             PyStr.chars_from fuel s = PyStr.chars_from fuel' s).
  { induction fuel as [|fuel IH]; intros s fuel' H1 H2.
    - destruct s; [|cbn in H1; lia]. now destruct fuel'.
    - destruct fuel' as [|fuel'].
      + destruct s; [|cbn in H2; lia]. reflexivity.
      + cbn [PyStr.chars_from].
        destruct (PyStr.first_char s) as [[c rest]|] eqn:E; [|reflexivity].
        apply first_char_split in E. destruct E as [_ E].
        f_equal. apply IH; lia. }
  intros fuel s Hs. unfold PyStr.chars. now apply H.
Qed.

Lemma chars_step (s c rest : string) :
  PyStr.first_char s = Some (c, rest) ->
  PyStr.chars s = c :: PyStr.chars rest.
Proof.
  intros E. pose proof (first_char_split _ _ _ E) as [_ Hl].
  unfold PyStr.chars at 1.
  destruct (String.length s) as [|n] eqn:En; [lia|].
  cbn [PyStr.chars_from]. rewrite E. f_equal.
  apply chars_from_enough. lia.
Qed.

Lemma chars_empty : PyStr.chars "" = [].
Proof. reflexivity. Qed.

(** Induction on the characters of a text. *)
Lemma chars_ind (P : string -> Prop) :
  P "" ->
  (forall s c rest,
      PyStr.first_char s = Some (c, rest) -> P rest -> P s) ->
  forall s, P s.
Proof.
  intros H0 Hstep.
  assert (H : forall n s, (String.length s <= n)%nat -> P s).
  { induction n as [|n IH]; intros s Hs.
    - destruct s; [exact H0|cbn in Hs; lia].
    - destruct (PyStr.first_char s) as [[c rest]|] eqn:E.
      + apply (Hstep _ _ _ E). apply IH.
        apply first_char_split in E. lia.
      + apply first_char_none in E. now subst. }
  intros s. now apply (H (String.length s)).
Qed.

(** A text is made of its characters. *)
Lemma of_chars_chars (s : string) : PyStr.of_chars (PyStr.chars s) = s.
Proof.
  induction s as [|s c rest E IH] using chars_ind; [reflexivity|].
  rewrite (chars_step _ _ _ E). cbn [PyStr.of_chars fold_right].
  fold (PyStr.of_chars (PyStr.chars rest)). rewrite IH.
  symmetry. now apply first_char_split in E.
Qed.

Lemma of_chars_app (l1 l2 : list string) :
  PyStr.of_chars (l1 ++ l2)%list = PyStr.of_chars l1 ++ PyStr.of_chars l2.
Proof.
  induction l1 as [|c l1 IH]; [reflexivity|].
  cbn [PyStr.of_chars fold_right app].
  fold (PyStr.of_chars (l1 ++ l2)%list). fold (PyStr.of_chars l1).
  rewrite IH. 
  generalize (PyStr.of_chars l1) (PyStr.of_chars l2). clear.
  induction c as [|x c IH]; intros a b; cbn; [reflexivity|now rewrite IH].
Qed.

(** The text that is left once the first characters of a text are dropped
    has the remaining characters. *)
Lemma chars_skipn (s : string) :
  forall k, PyStr.chars (PyStr.of_chars (skipn k (PyStr.chars s)))
            = skipn k (PyStr.chars s).
Proof.
  induction s as [|s c rest E IH] using chars_ind; intros k.
  - rewrite chars_empty. now destruct k.
  - destruct k as [|k].
    + cbn [skipn]. now rewrite of_chars_chars.
    + rewrite (chars_step _ _ _ E). cbn [skipn]. apply IH.
Qed.

(** A character of the ASCII range at the head of a text. *)
Lemma len_dots (s : string) : PyStr.len ("..." ++ s) = (3 + PyStr.len s)%Z.
Proof.
  unfold PyStr.len.
  rewrite (chars_step ("..." ++ s) "." (".." ++ s)) by reflexivity.
  rewrite (chars_step (".." ++ s) "." ("." ++ s)) by reflexivity.
  rewrite (chars_step ("." ++ s) "." s) by reflexivity.
  cbn [List.length]. lia.
Qed.

(** The last characters of a text: a suffix with that many characters. *)
Lemma last_chars_suffix (n : nat) (s : string) :
  (Z.of_nat n <= PyStr.len s)%Z ->
  PyStr.len (PyStr.last_chars n s) = Z.of_nat n
  /\ exists pre, s = pre ++ PyStr.last_chars n s.
Proof.
  unfold PyStr.len, PyStr.last_chars. cbv zeta. intros H.
  rewrite chars_skipn. split.
  - rewrite length_skipn. lia.
  - exists (PyStr.of_chars
              (firstn (List.length (PyStr.chars s) - n) (PyStr.chars s))).
    rewrite <- of_chars_app, firstn_skipn. symmetry. apply of_chars_chars.
Qed.

(** X16. The name printed for the preferred file never has more than 100
    characters: a path of at most 100 characters is printed as it is, a
    longer one as three dots followed by its last 97 characters.  Characters
    are counted as Python counts them, a character of several bytes once. *)
Theorem preferred_name_fits :
  forall (path_str : string -> string) (path_exists : string -> bool)
         (run_ffprobe : string -> result ProbeData)
         (argv : list string) (w w1 : world) (best : string),
    (2 < Z.of_nat (List.length argv))%Z ->
    analyze_all path_str path_exists run_ffprobe (tl argv) w = Done tt w1 ->
    best_file_of (FILE_MEDIA_SCORE w1) = Ok best ->
    (exists display,
        main path_str path_exists run_ffprobe argv w
        = Done tt (printed w1 [PreferredLine display; Separator])
        /\ (PyStr.len display <= 100)%Z
        /\ ((PyStr.len best <= 100)%Z -> display = best)
        /\ ((100 < PyStr.len best)%Z ->
            exists pre tail,
              best = pre ++ tail
              /\ PyStr.chars tail
                 = skipn (List.length (PyStr.chars best) - 97)
                     (PyStr.chars best)
              /\ PyStr.len tail = 97%Z
              /\ display = "..." ++ tail
              /\ PyStr.len display = 100%Z))
    /\ PyStr.len Cases.long_path = 120%Z
    /\ PyStr.len Cases.accented_name = 64%Z
    /\ PyStr.len Cases.long_accented_name = 114%Z
    /\ PyStr.last_chars 97 Cases.long_accented_name
       = Cases.times 93 Cases.e_acute ++ ".mkv"
    /\ PyStr.last_chars 97 Cases.accented_name = Cases.accented_name.
Proof.
  intros path_str path_exists run_ffprobe argv w w1 best Hlen Hloop Hbest.
  split; [|do 4 (split; [vm_compute; reflexivity|]); vm_compute; reflexivity].
  eexists. split.
  { apply main_preferred; eassumption. }
  destruct (PyStr.len best <=? 100)%Z eqn:E.
  - apply Z.leb_le in E. split; [exact E|]. split; [reflexivity|]. lia.
  - apply Z.leb_gt in E.
    destruct (last_chars_suffix 97 best) as [Hl [pre Hpre]]; [lia|].
    split; [rewrite len_dots, Hl; lia|].
    split; [lia|]. intros _.
    exists pre, (PyStr.last_chars 97 best).
    split; [exact Hpre|].
    split; [unfold PyStr.last_chars; cbv zeta; apply chars_skipn|].
    split; [exact Hl|]. split; [reflexivity|].
    rewrite len_dots, Hl. reflexivity.
Qed.

(** ** Ties between files *)

Lemma pair_gt_true_cases (x y : float * float) :
  pair_gt x y = true ->
  (fst y <? fst x) = true
  \/ ((fst x =? fst y) = true /\ (snd y <? snd x) = true).
Proof.
  unfold pair_gt. destruct (fst x =? fst y); [|now left].
  destruct (snd x =? snd y); [discriminate|]. intros H. now right.
Qed.

(** X17. Among the entries whose (media score, video bitrate) pair is
    greatest, the preferred file is the one analysed first: every entry
    before it has a lower media score, or the same media score and a lower
    video bitrate, and no entry after it is better. *)
Theorem best_file_is_first_of_the_best :
  forall (scores : list (string * (float * float))),
    scores <> [] ->
    Forall
      (fun entry =>
         FloatOrder.number (fst (snd entry))
         /\ FloatOrder.number (snd (snd entry)))
      scores ->
    exists before best media_score vbps after,
      scores = (before ++ (best, (media_score, vbps)) :: after)%list
      /\ best_file_of scores = Ok best
      /\ Forall
           (fun x =>
              (fst (snd x) <? media_score) = true
              \/ ((media_score =? fst (snd x)) = true
                  /\ (snd (snd x) <? vbps) = true))
           before
      /\ Forall
           (fun x =>
              (fst (snd x) <=? media_score) = true
              /\ ((fst (snd x) =? media_score) = true ->
                  (snd (snd x) <=? vbps) = true))
           after.
Proof.
  intros scores Hne Hgood.
  destruct (best_file_split scores Hne Hgood)
    as (before & [best [ms vb]] & after & E & Hl & Hb & Ha).
  exists before, best, ms, vb, after.
  split; [exact Hl|]. split; [exact E|]. split.
  - eapply Forall_impl; [|exact Hb]. intros x H. cbn [snd] in H.
    apply pair_gt_true_cases in H. exact H.
  - rewrite Forall_forall in *. intros x Hin.
    apply (not_pair_gt_lex (snd x) (ms, vb)).
    + apply Hgood. rewrite Hl. apply in_app_iff. right. now right.
    + apply (Hgood (best, (ms, vb))). rewrite Hl. apply in_app_iff.
      right. now left.
    + apply (Ha x Hin).
Qed.

Lemma best_file_is_first_of_the_best_witness :
  exists before best media_score vbps after,
    Cases.equal_scores
    = (before ++ (best, (media_score, vbps)) :: after)%list
    /\ best_file_of Cases.equal_scores = Ok best
    /\ Forall
         (fun x =>
            (fst (snd x) <? media_score) = true
            \/ ((media_score =? fst (snd x)) = true
                /\ (snd (snd x) <? vbps) = true))
         before
    /\ Forall
         (fun x =>
            (fst (snd x) <=? media_score) = true
            /\ ((fst (snd x) =? media_score) = true ->
                (snd (snd x) <=? vbps) = true))
         after.
Proof.
  apply best_file_is_first_of_the_best.
  - discriminate.
  - repeat constructor.
Defined.

Example first_of_equal_files_wins :
  best_file_of Cases.equal_scores = Ok "a.mkv".
Proof. vm_compute. reflexivity. Qed.

(** ** The range of the media score *)

Lemma float_mem_in (x : float) (l : list float) : float_mem x l = true -> In x l.
Proof.
  unfold float_mem. rewrite existsb_exists. intros (y & Hin & E).
  apply FloatAxioms.Leibniz.eqb_spec in E. now subst.
Qed.

Lemma audio_score_in_values markers codec prof ch kbps :
  In (Spec.audio_score markers codec prof ch kbps) audio_score_values.
Proof.
  apply float_mem_in.
  unfold Spec.audio_score, Spec.base_score, Spec.channel_bonus,
    Spec.object_bonus, Spec.lossless, Spec.tier.
  destruct (String.eqb codec "truehd"
            || PyStr.startswith "dts" codec
               && PyStr.contains "hd" (PyStr.lower prof));
    destruct (String.eqb codec "eac3"); destruct (String.eqb codec "ac3");
    destruct (String.eqb codec "aac"); destruct (PyStr.startswith "dts" codec);
    destruct markers; destruct (8 <=? ch)%Z; destruct (6 <=? ch)%Z;
    destruct (2 <=? ch)%Z; cbn [andb orb negb]; split_leb kbps.
Qed.

Lemma video_score_in_values v fmt is_hdr is_dv score vbps verdict :
  compute_video_score v fmt is_hdr is_dv = Ok (score, vbps, verdict) ->
  In score video_score_values.
Proof.
  intros H. apply compute_video_score_inv in H as [_ Ht].
  rewrite video_table_brackets in Ht. injection Ht as Ht.
  apply (f_equal fst) in Ht. cbn [fst] in Ht. rewrite <- Ht.
  split_guards; cbn; tauto.
Qed.

Lemma file_audio_score_in_values streams best :
  compute_audio_score streams = Ok best ->
  In best (0 :: audio_score_values).
Proof.
  intros H. pose proof (compute_audio_score_spec streams) as S.
  rewrite H in S. destruct S as (_ & _ & [[-> _]|(a & _ & _ & Hs)]).
  - now left.
  - right. rewrite audio_stream_score_unfold in Hs.
    destruct (kbps_of (raw_bit_rate a)); cbn [rbind] in Hs; [|discriminate].
    injection Hs as <-. apply audio_score_in_values.
Qed.

Lemma media_score_bounds video_score audio_score :
  In video_score video_score_values ->
  In audio_score (0 :: audio_score_values) ->
  (1.4 <=? media_score_of video_score audio_score) = true
  /\ (media_score_of video_score audio_score <=? 5) = true.
Proof.
  intros Hv Ha.
  assert (H : forallb
                (fun v =>
                   forallb
                     (fun a =>
                        (1.4 <=? media_score_of v a)
                        && (media_score_of v a <=? 5))
                     (0 :: audio_score_values))
                video_score_values = true) by (vm_compute; reflexivity).
  rewrite forallb_forall in H. specialize (H _ Hv).
  rewrite forallb_forall in H. specialize (H _ Ha).
  now apply andb_true_iff in H.
Qed.

Lemma media_score_without_audio video_score :
  In video_score video_score_values ->
  (media_score_of video_score 0 <=? 3.5) = true.
Proof.
  intros Hv.
  assert (H : forallb (fun v => media_score_of v 0 <=? 3.5) video_score_values
              = true) by (vm_compute; reflexivity).
  rewrite forallb_forall in H. now apply H.
Qed.

Lemma video_section_done_inv streams fmt w score vbps verdict w' :
  video_section streams fmt w = Done (score, vbps, verdict) w' ->
  In score video_score_values.
Proof.
  unfold video_section, bind. unfold print at 1.
  destruct (for_each _ _ _ _) as [[is_hdr is_dv] w1|e w1]; [|discriminate].
  destruct (best_video_of _) as [best|e]; cbn [lift]; [|discriminate].
  unfold ret.
  destruct (compute_video_score best fmt is_hdr is_dv) as [[[s b] r]|e] eqn:Hs;
    cbn [lift]; [|discriminate].
  unfold ret. intros H. injection H as <- _ _ _.
  eapply video_score_in_values; eauto.
Qed.

Lemma audio_section_done_inv streams w audio_score w' :
  audio_section streams w = Done audio_score w' ->
  compute_audio_score streams = Ok audio_score.
Proof.
  unfold audio_section, bind. unfold print at 1.
  destruct (for_each _ _ _ _) as [[] w1|e w1]; [|discriminate].
  destruct (compute_audio_score _) as [a|e] eqn:Hs; cbn [lift];
    [|discriminate].
  unfold ret. intros H. injection H as <- _.
  rewrite <- Hs. unfold compute_audio_score. symmetry. apply audio_loop_filter.
Qed.

Section MediaScore.

Variable path_str : string -> string.
Variable path_exists : string -> bool.
Variable run_ffprobe : string -> result ProbeData.

Local Abbreviation analyze := (analyze_file path_str path_exists run_ffprobe).

(** A completed analysis of a file that exists went through the probe, the
    video part and the audio part, and stored their combination. *)
Lemma analyze_file_done_inv file w w' :
  path_exists (path_str file) = true ->
  analyze file w = Done tt w' ->
  exists data video_score vbps verdict audio_score w1 w2,
    run_ffprobe (path_str file) = Ok data
    /\ video_section (get (streams data) [])
         (get (format data) {| size := None; duration := None |})
         (printed w [Separator; FileHeader (path_str file); Separator])
       = Done (video_score, vbps, verdict) w1
    /\ audio_section (get (streams data) []) w1 = Done audio_score w2
    /\ FILE_MEDIA_SCORE w'
       = dict_set (path_str file) (media_score_of video_score audio_score, vbps)
           (FILE_MEDIA_SCORE w2).
Proof.
  intros Hex. unfold analyze_file. rewrite Hex. cbn [negb].
  unfold print_separator. unfold bind at 1 2 3, print at 1 2 3.
  rewrite !printed_printed. cbn [app].
  destruct (run_ffprobe (path_str file)) as [data|e]; cbn [lift];
    [|discriminate].
  unfold bind at 1, ret at 1. unfold bind at 1.
  destruct (video_section _ _ _) as [[[vs vbps] verdict] w1|e w1] eqn:Hv;
    [|discriminate].
  unfold bind at 1.
  destruct (audio_section _ w1) as [a w2|e w2] eqn:Ha; [|discriminate].
  unfold bind, store, print. intros H. injection H as <-.
  exists data, vs, vbps, verdict, a, w1, w2. repeat split; auto.
Qed.

(** X18. The media score stored for an analysed file lies between 1.4 and
    5.0. *)
Theorem stored_media_score_range :
  forall (file : string) (w w' : world),
    path_exists (path_str file) = true ->
    analyze file w = Done tt w' ->
    exists media_score vbps,
      dict_get (path_str file) (FILE_MEDIA_SCORE w') = Some (media_score, vbps)
      /\ (1.4 <=? media_score) = true
      /\ (media_score <=? 5) = true.
Proof.
  intros file w w' Hex H.
  destruct (analyze_file_done_inv file w w' Hex H)
    as (data & vs & vbps & verdict & a & w1 & w2 & _ & Hv & Ha & E).
  exists (media_score_of vs a), vbps. split.
  - rewrite E, dict_get_set, String.eqb_refl. reflexivity.
  - apply media_score_bounds.
    + eapply video_section_done_inv; eauto.
    + eapply file_audio_score_in_values, audio_section_done_inv; eauto.
Qed.

(** X19. A file without an audio stream has the audio score 0.0, and its
    media score, 0.7 of the video score, is at most 3.5. *)
Theorem media_score_without_audio_stream :
  forall (file : string) (w w' : world) (data : ProbeData),
    path_exists (path_str file) = true ->
    run_ffprobe (path_str file) = Ok data ->
    (forall s, In s (get (streams data) []) ->
               opt_string_eqb (codec_type s) "audio" = false) ->
    analyze file w = Done tt w' ->
    compute_audio_score (get (streams data) []) = Ok 0
    /\ exists media_score vbps,
         dict_get (path_str file) (FILE_MEDIA_SCORE w')
         = Some (media_score, vbps)
         /\ (media_score <=? 3.5) = true.
Proof.
  intros file w w' data Hex Hprobe Hnone H.
  destruct (analyze_file_done_inv file w w' Hex H)
    as (data' & vs & vbps & verdict & a & w1 & w2 & Hp & Hv & Ha & E).
  assert (data' = data) by congruence. subst data'.
  apply audio_section_done_inv in Ha.
  assert (Hzero : a = 0).
  { pose proof (compute_audio_score_spec (get (streams data) [])) as S.
    rewrite Ha in S. destruct S as (_ & _ & [[-> _]|(s & Hin & Hs & _)]);
      [reflexivity|].
    rewrite (Hnone s Hin) in Hs. discriminate. }
  subst a. split; [exact Ha|].
  exists (media_score_of vs 0), vbps. split.
  - rewrite E, dict_get_set, String.eqb_refl. reflexivity.
  - apply media_score_without_audio. eapply video_section_done_inv; eauto.
Qed.

End MediaScore.

(** ** The rounding of the media score *)

Lemma nearest_hundredths_reflect x n :
  Spec.nearest_hundredths_b x n = true -> Spec.nearest_hundredths x n.
Proof.
  unfold Spec.nearest_hundredths_b, Spec.nearest_hundredths.
  destruct (Spec.exact x) as [[p q]|]; [|discriminate].
  cbv zeta. intros H. apply andb_true_iff in H as [H1 H2].
  apply Z.leb_le in H1. split; [exact H1|].
  intros E. apply Z.eqb_eq in E. rewrite E in H2. exact H2.
Qed.

Lemma exact_positive x p q : Spec.exact x = Some (p, q) -> (0 < q)%Z.
Proof.
  unfold Spec.exact.
  destruct (Prim2SF x) as [s| s | |s m e]; try discriminate.
  - intros H. injection H as <- <-. lia.
  - destruct (0 <=? e)%Z eqn:E; intros H; injection H as <- <-; [lia|].
    apply Z.leb_gt in E. apply Z.pow_pos_nonneg; lia.
Qed.

(** At most one decimal is the nearest to a float. *)
Lemma nearest_hundredths_unique x n1 n2 :
  Spec.nearest_hundredths x n1 -> Spec.nearest_hundredths x n2 -> n1 = n2.
Proof.
  unfold Spec.nearest_hundredths.
  destruct (Spec.exact x) as [[p q]|] eqn:E; [|tauto].
  apply exact_positive in E. cbv zeta.
  intros [H1 E1] [H2 E2].
  assert (Hd : (Z.abs (n1 - n2) * q <= q)%Z).
  { replace (Z.abs (n1 - n2) * q)%Z with (Z.abs ((n1 - n2) * q))
      by (rewrite Z.abs_mul, (Z.abs_eq q); lia).
    replace ((n1 - n2) * q)%Z
      with ((100 * p - n2 * q) - (100 * p - n1 * q))%Z by ring.
    lia. }
  assert (Hle : (Z.abs (n1 - n2) <= 1)%Z) by nia.
  destruct (Z.eq_dec n1 n2) as [|Hne]; [assumption|exfalso].
  assert (Hone : Z.abs (n1 - n2) = 1%Z) by lia.
  assert (Hq : Z.abs ((n1 - n2) * q) = q).
  { rewrite Z.abs_mul, Hone, (Z.abs_eq q); lia. }
  replace ((n1 - n2) * q)%Z
    with ((100 * p - n2 * q) - (100 * p - n1 * q))%Z in Hq by ring.
  assert (T1 : (2 * Z.abs (100 * p - n1 * q))%Z = q) by lia.
  assert (T2 : (2 * Z.abs (100 * p - n2 * q))%Z = q) by lia.
  specialize (E1 T1). specialize (E2 T2).
  rewrite Z.even_spec in E1, E2. destruct E1 as [k1 ->], E2 as [k2 ->]. lia.
Qed.

(** Whatever the two scores of a file are, their combination is the float
    of the decimal nearest to the capped weighted sum. *)
Lemma media_score_rounded video_score audio_score :
  In video_score video_score_values ->
  In audio_score (0 :: audio_score_values) ->
  exists n,
    (140 <= n <= 500)%Z
    /\ Spec.nearest_hundredths (Spec.weighted video_score audio_score) n
    /\ media_score_of video_score audio_score = Spec.hundredths n.
Proof.
  intros Hv Ha.
  assert (H : forallb
                (fun v => forallb (media_score_check v)
                            (0 :: audio_score_values))
                video_score_values = true) by (vm_compute; reflexivity).
  rewrite forallb_forall in H. specialize (H _ Hv).
  rewrite forallb_forall in H. specialize (H _ Ha).
  unfold media_score_check in H. apply existsb_exists in H as (n & _ & Hn).
  apply andb_true_iff in Hn as [Hn H4].
  apply andb_true_iff in Hn as [Hn H3].
  apply andb_true_iff in Hn as [H1 H2].
  apply Z.leb_le in H1, H2.
  exists n. split; [lia|].
  split; [now apply nearest_hundredths_reflect|].
  now apply FloatAxioms.Leibniz.eqb_spec in H4.
Qed.

(** C7. When the video part gives [video_score] and the audio part
    [audio_score], the analysis stores and prints as the media score of the
    file round(min(video_score * 0.7 + audio_score * 0.3, 5.0), 2): the
    weighted sum, capped at 5.0 and rounded to two decimals.  Rounded to two
    decimals means: the score is the float that the decimal [n / 100]
    denotes, [n] hundredths being the one decimal with two digits nearest to
    the exact value of the capped sum (the even one of two that are as
    near).  For 5.0 and 4.6 the score is 4.88; for 3.5 and 4.85 the sum is
    3.9049999999999994 and the score 3.9. *)
Theorem analyze_file_media_score :
  forall (path_str : string -> string) (path_exists : string -> bool)
         (run_ffprobe : string -> result ProbeData)
         (file : string) (w : world) (data : ProbeData)
         (video_score vbps : float) (video_verdict : string)
         (audio_score : float) (w1 w2 : world),
    path_exists (path_str file) = true ->
    run_ffprobe (path_str file) = Ok data ->
    video_section (get (streams data) [])
      (get (format data) {| size := None; duration := None |})
      (printed w [Separator; FileHeader (path_str file); Separator])
    = Done (video_score, vbps, video_verdict) w1 ->
    audio_section (get (streams data) []) w1 = Done audio_score w2 ->
    (exists (media_score : float) (n : Z),
        analyze_file path_str path_exists run_ffprobe file w
        = Done tt
            (printed
               {| FILE_MEDIA_SCORE :=
                    dict_set (path_str file) (media_score, vbps)
                      (FILE_MEDIA_SCORE w2);
                  stdout := stdout w2 |}
               [MediaScoreLine media_score; VerdictLine video_verdict;
                Separator])
        /\ media_score
           = PyFloat.round2
               (PyFloat.min2 (video_score * 0.7 + audio_score * 0.3) 5.0)
        /\ Spec.nearest_hundredths (Spec.weighted video_score audio_score) n
        /\ (forall n',
              Spec.nearest_hundredths (Spec.weighted video_score audio_score) n'
              -> n' = n)
        /\ media_score = Spec.hundredths n
        /\ (140 <= n <= 500)%Z)
    /\ (forall v a : float,
          PyFloat.min2 (v * 0.7 + a * 0.3) 5.0 = Spec.weighted v a)
    /\ PyFloat.min2 6.0 5.0 = 5.0
    /\ PyFloat.round2 (PyFloat.min2 (5.0 * 0.7 + 4.6 * 0.3) 5.0) = 4.88
    /\ Spec.hundredths 488 = 4.88
    /\ PyFloat.min2 (3.5 * 0.7 + (4.6 + 0.1 + 0.15) * 0.3) 5.0
       = 3.9049999999999994
    /\ PyFloat.round2
         (PyFloat.min2 (3.5 * 0.7 + (4.6 + 0.1 + 0.15) * 0.3) 5.0)
       = 3.9.
Proof.
  intros path_str path_exists run_ffprobe file w data video_score vbps
    video_verdict audio_score w1 w2 Hex Hprobe Hvideo Haudio.
  split;
    [|split; [intros v a; reflexivity|];
      do 4 (split; [vm_compute; reflexivity|]); vm_compute; reflexivity].
  destruct (media_score_rounded video_score audio_score) as (n & Hn & Hnear & E).
  { eapply video_section_done_inv; eauto. }
  { eapply file_audio_score_in_values, audio_section_done_inv; eauto. }
  exists (media_score_of video_score audio_score), n.
  split.
  { apply (analyze_file_stores path_str path_exists run_ffprobe file w data
             video_score vbps video_verdict audio_score w1 w2); assumption. }
  split; [reflexivity|].
  split; [exact Hnear|].
  split; [intros n' H'; exact (nearest_hundredths_unique _ _ _ H' Hnear)|].
  split; [exact E|exact Hn].
Qed.

Lemma analyze_file_media_score_witness :
  (exists (media_score : float) (n : Z),
      analyze_file Sample.path_str Sample.path_exists Cases.run_ffprobe_hd
        "hd.mkv" Sample.empty_world
      = Done tt
          (printed
             {| FILE_MEDIA_SCORE :=
                  dict_set "hd.mkv" (media_score, 5) [];
                stdout :=
                  [Separator; FileHeader "hd.mkv"; Separator; VideoHeader;
                   VideoLine (Some "hevc") (Some 1920%Z) (Some 1080%Z)
                     "10-bit" "HDR" 5;
                   AudioHeader;
                   AudioLine "eac3" 6 (Some 768%Z) "eng" "Atmos"] |}
             [MediaScoreLine media_score; VerdictLine "MEDIUM"; Separator])
      /\ media_score
         = PyFloat.round2
             (PyFloat.min2 (3.5 * 0.7 + (4.6 + 0.1 + 0.15) * 0.3) 5.0)
      /\ Spec.nearest_hundredths (Spec.weighted 3.5 (4.6 + 0.1 + 0.15)) n
      /\ (forall n',
            Spec.nearest_hundredths (Spec.weighted 3.5 (4.6 + 0.1 + 0.15)) n'
            -> n' = n)
      /\ media_score = Spec.hundredths n
      /\ (140 <= n <= 500)%Z)
  /\ (forall v a : float,
        PyFloat.min2 (v * 0.7 + a * 0.3) 5.0 = Spec.weighted v a)
  /\ PyFloat.min2 6.0 5.0 = 5.0
  /\ PyFloat.round2 (PyFloat.min2 (5.0 * 0.7 + 4.6 * 0.3) 5.0) = 4.88
  /\ Spec.hundredths 488 = 4.88
  /\ PyFloat.min2 (3.5 * 0.7 + (4.6 + 0.1 + 0.15) * 0.3) 5.0
     = 3.9049999999999994
  /\ PyFloat.round2
       (PyFloat.min2 (3.5 * 0.7 + (4.6 + 0.1 + 0.15) * 0.3) 5.0)
     = 3.9.
Proof.
  refine (analyze_file_media_score Sample.path_str Sample.path_exists
            Cases.run_ffprobe_hd "hd.mkv" Sample.empty_world Cases.hd_atmos
            3.5 5 "MEDIUM" (4.6 + 0.1 + 0.15)
            {| FILE_MEDIA_SCORE := [];
               stdout :=
                 [Separator; FileHeader "hd.mkv"; Separator; VideoHeader;
                  VideoLine (Some "hevc") (Some 1920%Z) (Some 1080%Z)
                    "10-bit" "HDR" 5] |}
            {| FILE_MEDIA_SCORE := [];
               stdout :=
                 [Separator; FileHeader "hd.mkv"; Separator; VideoHeader;
                  VideoLine (Some "hevc") (Some 1920%Z) (Some 1080%Z)
                    "10-bit" "HDR" 5;
                  AudioHeader;
                  AudioLine "eac3" 6 (Some 768%Z) "eng" "Atmos"] |}
            _ _ _ _);
    vm_compute; reflexivity.
Defined.

(** The file whose weighted sum is 3.9049999999999994 gets the score 3.9. *)
Example hd_atmos_is_analysed :
  analyze_file Sample.path_str Sample.path_exists Cases.run_ffprobe_hd
    "hd.mkv" Sample.empty_world
  = Done tt
      {| FILE_MEDIA_SCORE := [("hd.mkv", (3.9, 5))];
         stdout :=
           [Separator; FileHeader "hd.mkv"; Separator; VideoHeader;
            VideoLine (Some "hevc") (Some 1920%Z) (Some 1080%Z) "10-bit"
              "HDR" 5;
            AudioHeader; AudioLine "eac3" 6 (Some 768%Z) "eng" "Atmos";
            MediaScoreLine 3.9; VerdictLine "MEDIUM"; Separator] |}.
Proof. vm_compute. reflexivity. Qed.

(** ** More on the per-stream audio score *)

(** X20. With the codec, the profile and the object-audio markers
    unchanged, more channels or a higher bit rate never lower the score of
    an audio stream. *)
Theorem audio_stream_score_monotone :
  forall (a1 a2 : Stream) (k1 k2 s1 s2 : float),
    get (codec_name a1) "" = get (codec_name a2) "" ->
    get_or_empty (profile a1) = get_or_empty (profile a2) ->
    fst (detect_object_audio a1) = fst (detect_object_audio a2) ->
    kbps_of (raw_bit_rate a1) = Ok k1 ->
    kbps_of (raw_bit_rate a2) = Ok k2 ->
    (get (channels a1) 0 <= get (channels a2) 0)%Z ->
    (k1 <=? k2) = true ->
    audio_stream_score a1 = Ok s1 ->
    audio_stream_score a2 = Ok s2 ->
    (s1 <=? s2) = true.
Proof.
  intros a1 a2 k1 k2 s1 s2 Hc Hp Hm Hk1 Hk2 Hch Hk H1 H2.
  rewrite audio_stream_score_unfold, Hk1 in H1.
  rewrite audio_stream_score_unfold, Hk2 in H2.
  cbv beta iota delta [rbind] in H1, H2.
  apply (f_equal (fun r => match r with Ok x => x | Err _ => 0 end)) in H1, H2.
  cbv beta iota in H1, H2. rewrite <- H1, <- H2, <- Hc, <- Hp, <- Hm.
  clear H1 H2 Hc Hp Hm Hk1 Hk2.
  set (codec := get (codec_name a1) ""). set (prof := get_or_empty (profile a1)).
  set (markers := fst (detect_object_audio a1)).
  set (c1 := get (channels a1) 0%Z) in *. set (c2 := get (channels a2) 0%Z) in *.
  unfold Spec.audio_score, Spec.base_score, Spec.channel_bonus,
    Spec.object_bonus, Spec.lossless, Spec.tier.
  assert (C8 : (8 <=? c1)%Z = true -> (8 <=? c2)%Z = true)
    by (rewrite !Z.leb_le; lia).
  assert (C6 : (6 <=? c1)%Z = true -> (6 <=? c2)%Z = true)
    by (rewrite !Z.leb_le; lia).
  assert (C2 : (2 <=? c1)%Z = true -> (2 <=? c2)%Z = true)
    by (rewrite !Z.leb_le; lia).
  assert (D86 : (8 <=? c1)%Z = true -> (6 <=? c1)%Z = true)
    by (rewrite !Z.leb_le; lia).
  assert (D62 : (6 <=? c1)%Z = true -> (2 <=? c1)%Z = true)
    by (rewrite !Z.leb_le; lia).
  assert (E86 : (8 <=? c2)%Z = true -> (6 <=? c2)%Z = true)
    by (rewrite !Z.leb_le; lia).
  assert (E62 : (6 <=? c2)%Z = true -> (2 <=? c2)%Z = true)
    by (rewrite !Z.leb_le; lia).
  assert (T : forall t t' : float,
             (t' <=? t) = true -> (t <=? k1) = true -> (t' <=? k2) = true).
  { intros t t' Ht H. eapply FloatFacts.leb_trans; [exact Ht|].
    eapply FloatFacts.leb_trans; eauto. }
  assert (U : forall k t t' : float,
             (t' <=? t) = true -> (t <=? k) = true -> (t' <=? k) = true).
  { intros k t t' Ht H. eapply FloatFacts.leb_trans; eauto. }
  pose proof (T 1500 1500 eq_refl) as Ta. pose proof (T 640 640 eq_refl) as Tb.
  pose proof (T 448 448 eq_refl) as Tc. pose proof (T 384 384 eq_refl) as Td.
  pose proof (T 256 256 eq_refl) as Te.
  pose proof (U k1 1500 640 eq_refl) as U1. pose proof (U k1 640 448 eq_refl) as U2.
  pose proof (U k1 448 384 eq_refl) as U3. pose proof (U k1 384 256 eq_refl) as U4.
  pose proof (U k2 1500 640 eq_refl) as V1. pose proof (U k2 640 448 eq_refl) as V2.
  pose proof (U k2 448 384 eq_refl) as V3. pose proof (U k2 384 256 eq_refl) as V4.
  clear T U Hk Hch.
  destruct (8 <=? c1)%Z; destruct (6 <=? c1)%Z;
    try (specialize (D86 eq_refl); discriminate D86); clear D86;
    destruct (2 <=? c1)%Z;
    try (specialize (D62 eq_refl); discriminate D62); clear D62;
    destruct (8 <=? c2)%Z;
    try (specialize (C8 eq_refl); discriminate C8); clear C8;
    destruct (6 <=? c2)%Z;
    try (specialize (C6 eq_refl); discriminate C6);
    try (specialize (E86 eq_refl); discriminate E86); clear C6 E86;
    destruct (2 <=? c2)%Z;
    try (specialize (C2 eq_refl); discriminate C2);
    try (specialize (E62 eq_refl); discriminate E62); clear C2 E62;
    destruct (1500 <=? k1); destruct (640 <=? k1);
    try (specialize (U1 eq_refl); discriminate U1); clear U1;
    destruct (448 <=? k1);
    try (specialize (U2 eq_refl); discriminate U2); clear U2;
    destruct (384 <=? k1);
    try (specialize (U3 eq_refl); discriminate U3); clear U3;
    destruct (256 <=? k1);
    try (specialize (U4 eq_refl); discriminate U4); clear U4;
    destruct (1500 <=? k2);
    try (specialize (Ta eq_refl); discriminate Ta); clear Ta;
    destruct (640 <=? k2);
    try (specialize (Tb eq_refl); discriminate Tb);
    try (specialize (V1 eq_refl); discriminate V1); clear Tb V1;
    destruct (448 <=? k2);
    try (specialize (Tc eq_refl); discriminate Tc);
    try (specialize (V2 eq_refl); discriminate V2); clear Tc V2;
    destruct (384 <=? k2);
    try (specialize (Td eq_refl); discriminate Td);
    try (specialize (V3 eq_refl); discriminate V3); clear Td V3;
    destruct (256 <=? k2);
    try (specialize (Te eq_refl); discriminate Te);
    try (specialize (V4 eq_refl); discriminate V4); clear Te V4;
    destruct (String.eqb codec "truehd"
              || PyStr.startswith "dts" codec
                 && PyStr.contains "hd" (PyStr.lower prof));
    destruct (String.eqb codec "eac3"); destruct (String.eqb codec "ac3");
    destruct (String.eqb codec "aac"); destruct (PyStr.startswith "dts" codec);
    destruct markers; reflexivity.
Qed.

(** X21. The audio score of a file is 0.0 exactly when the file has no
    audio stream; with one it lies between 2.0 and 5.0. *)
Theorem file_audio_score_range :
  forall (streams : list Stream) (best : float),
    compute_audio_score streams = Ok best ->
    (best = 0 <->
     forall s, In s streams -> opt_string_eqb (codec_type s) "audio" = false)
    /\ (best = 0 \/ ((2 <=? best) = true /\ (best <=? 5) = true)).
Proof.
  intros streams best H.
  pose proof (compute_audio_score_spec streams) as S. rewrite H in S.
  destruct S as (_ & Hub & [[-> Hnone]|(a & Hin & Ha & Hs)]).
  - split; [tauto|now left].
  - pose proof (audio_stream_score_bounds _ _ Hs) as [H2 H5]. split.
    + split.
      * intros ->. vm_compute in H2. discriminate.
      * intros Hnone. rewrite (Hnone a Hin) in Ha. discriminate.
    + right. auto.
Qed.

(** ** Division by zero in the bitrate *)

Lemma to_int_error s e : PyStr.to_int s = Err e -> e = ValueError.
Proof.
  unfold PyStr.to_int. destruct (PyStr.sign _) as [neg l].
  destruct (PyStr.digitpart 0 l) as [[[n c] [|x r]]|]; congruence.
Qed.

Lemma to_float_error s e : PyStr.to_float s = Err e -> e = ValueError.
Proof.
  unfold PyStr.to_float. destruct (PyStr.sign _) as [neg l].
  destruct (PyStr.mem _ _); [discriminate|].
  destruct (String.eqb _ "nan"); [discriminate|].
  destruct (PyStr.decimal l) as [[n k]|]; congruence.
Qed.

Lemma int_truediv_pos_error n (d : positive) e :
  PyFloat.int_truediv n (Zpos d) = Err e -> e = OverflowError.
Proof.
  unfold PyFloat.int_truediv.
  destruct (PyFloat.nearest_ratio false n d); congruence.
Qed.

(** X22. The bitrate derivation raises [ZeroDivisionError] in exactly one
    situation: the stream has no bit rate of its own (none, or an empty
    text), the size of the container is readable, and its duration is there
    and reads as zero. *)
Theorem bitrate_division_by_zero :
  forall (v : Stream) (fmt : Format),
    get_video_bitrate_mbps v fmt = Err ZeroDivisionError <->
    (bit_rate v = None \/ bit_rate v = Some "")
    /\ (exists sz,
          match size fmt with
          | Some s => PyStr.to_float s
          | None => Ok 0
          end = Ok sz)
    /\ (exists s d,
          duration fmt = Some s /\ PyStr.to_float s = Ok d
          /\ (d =? 0) = true).
Proof.
  intros v fmt. unfold get_video_bitrate_mbps. split.
  - intros H.
    destruct (bit_rate v) as [[|c br]|] eqn:Hbr; cbn [PyStr.truthy get] in H.
    2:{ destruct (PyStr.to_int _) as [n|e] eqn:Hn; cbn [rbind] in H.
        - apply int_truediv_pos_error in H. discriminate.
        - injection H as ->. apply to_int_error in Hn. discriminate. }
    all: (split; [auto|]).
    all: destruct (size fmt) as [s|]; cbn [PyFloat.of_int] in H.
    all: try (destruct (PyStr.to_float s) as [sz|e] eqn:Hsz; cbn [rbind] in H;
              [|injection H as ->; apply to_float_error in Hsz; discriminate]).
    all: cbn [rbind] in H.
    all: destruct (duration fmt) as [t|];
      [destruct (PyStr.to_float t) as [d|e] eqn:Hd; cbn [rbind] in H;
       [|injection H as ->; apply to_float_error in Hd; discriminate]
      |cbn in H; discriminate H].
    all: unfold PyFloat.truediv in H; destruct (d =? 0) eqn:Hz;
      [|cbn in H; discriminate H].
    all: split; eauto.
  - intros (Hbr & (sz & Hsz) & (s & d & Hd & Hp & Hz)).
    assert (Hb : match bit_rate v with
                 | Some s => PyStr.truthy s
                 | None => false
                 end = false) by (destruct Hbr as [-> | ->]; reflexivity).
    rewrite Hb, Hd, Hp.
    destruct (size fmt); cbn [PyFloat.of_int]; rewrite ?Hsz; cbn [rbind];
      unfold PyFloat.truediv; rewrite Hz; reflexivity.
Qed.

(** ** The further properties at work *)

Lemma run_writes_only_its_files_witness :
  dict_get "other.mkv"
    (FILE_MEDIA_SCORE
       (world_of
          (main Sample.path_str Sample.path_exists Sample.run_ffprobe
             ["media-quality-check"; "movie.mkv"; "one.mkv"]
             Cases.earlier_world)))
  = dict_get "other.mkv" (FILE_MEDIA_SCORE Cases.earlier_world).
Proof.
  apply (run_writes_only_its_files Sample.path_str Sample.path_exists
           Sample.run_ffprobe).
  intros f [<-|[<-|[]]]; discriminate.
Defined.

Lemma scores_keys_stay_distinct_witness :
  NoDup
    (map fst
       (FILE_MEDIA_SCORE
          (world_of
             (main Sample.path_str Sample.path_exists Sample.run_ffprobe
                ["media-quality-check"; "movie.mkv"; "one.mkv"; "movie.mkv"]
                Sample.empty_world)))).
Proof.
  apply (scores_keys_stay_distinct Sample.path_str Sample.path_exists
           Sample.run_ffprobe).
  constructor.
Defined.

Lemma probe_failure_aborts_witness :
  main Sample.path_str Sample.path_exists Cases.run_ffprobe
    ["media-quality-check"; "movie.mkv"; "broken.mkv"; "one.mkv"]
    Sample.empty_world
  = Raised ProbeError
      (printed
         (world_of
            (analyze_all Sample.path_str Sample.path_exists Cases.run_ffprobe
               ["movie.mkv"] Sample.empty_world))
         [Separator; FileHeader "broken.mkv"; Separator]).
Proof.
  refine (proj2
            (probe_failure_aborts Sample.path_str Sample.path_exists
               Cases.run_ffprobe "broken.mkv" ProbeError _ _)
            "media-quality-check" ["movie.mkv"] ["one.mkv"] Sample.empty_world
            _ _);
    vm_compute; reflexivity.
Defined.

Lemma preferred_name_fits_witness :
  (exists display,
      main Sample.path_str Sample.path_exists Sample.run_ffprobe
        ["media-quality-check"; "gone.mkv"; "gone.mkv"]
        {| FILE_MEDIA_SCORE := [(Cases.long_accented_name, (4.5, 18))];
           stdout := [] |}
      = Done tt
          (printed
             {| FILE_MEDIA_SCORE := [(Cases.long_accented_name, (4.5, 18))];
                stdout :=
                  [FileNotFound "gone.mkv"; FileNotFound "gone.mkv"] |}
             [PreferredLine display; Separator])
      /\ (PyStr.len display <= 100)%Z
      /\ ((PyStr.len Cases.long_accented_name <= 100)%Z ->
          display = Cases.long_accented_name)
      /\ ((100 < PyStr.len Cases.long_accented_name)%Z ->
          exists pre tail,
            Cases.long_accented_name = pre ++ tail
            /\ PyStr.chars tail
               = skipn
                   (List.length (PyStr.chars Cases.long_accented_name) - 97)
                   (PyStr.chars Cases.long_accented_name)
            /\ PyStr.len tail = 97%Z
            /\ display = "..." ++ tail
            /\ PyStr.len display = 100%Z))
  /\ PyStr.len Cases.long_path = 120%Z
  /\ PyStr.len Cases.accented_name = 64%Z
  /\ PyStr.len Cases.long_accented_name = 114%Z
  /\ PyStr.last_chars 97 Cases.long_accented_name
     = Cases.times 93 Cases.e_acute ++ ".mkv"
  /\ PyStr.last_chars 97 Cases.accented_name = Cases.accented_name.
Proof.
  apply preferred_name_fits; vm_compute; reflexivity.
Defined.

Example long_name_is_cut :
  main Sample.path_str Sample.path_exists Sample.run_ffprobe
    ["media-quality-check"; "gone.mkv"; "gone.mkv"]
    {| FILE_MEDIA_SCORE := [(Cases.long_path, (4.5, 18))]; stdout := [] |}
  = Done tt
      {| FILE_MEDIA_SCORE := [(Cases.long_path, (4.5, 18))];
         stdout :=
           [FileNotFound "gone.mkv"; FileNotFound "gone.mkv";
            PreferredLine
              "...llection/2024/remux/uhd/dolby-vision/a-very-long-directory-name/another-long-one/feature-film.mkv";
            Separator] |}.
Proof. vm_compute. reflexivity. Qed.

(** A name of 64 characters is printed whole, although it takes 124 bytes. *)
Example accented_name_is_whole :
  PyStr.len Cases.accented_name = 64%Z
  /\ String.length Cases.accented_name = 124%nat
  /\ main Sample.path_str Sample.path_exists Sample.run_ffprobe
       ["media-quality-check"; "gone.mkv"; "gone.mkv"]
       {| FILE_MEDIA_SCORE := [(Cases.accented_name, (4.5, 18))];
          stdout := [] |}
     = Done tt
         {| FILE_MEDIA_SCORE := [(Cases.accented_name, (4.5, 18))];
            stdout :=
              [FileNotFound "gone.mkv"; FileNotFound "gone.mkv";
               PreferredLine Cases.accented_name; Separator] |}.
Proof. vm_compute. repeat split; reflexivity. Qed.

(** A name of 114 characters is cut between two characters, to the last 97. *)
Example long_accented_name_is_cut :
  PyStr.len Cases.long_accented_name = 114%Z
  /\ main Sample.path_str Sample.path_exists Sample.run_ffprobe
       ["media-quality-check"; "gone.mkv"; "gone.mkv"]
       {| FILE_MEDIA_SCORE := [(Cases.long_accented_name, (4.5, 18))];
          stdout := [] |}
     = Done tt
         {| FILE_MEDIA_SCORE := [(Cases.long_accented_name, (4.5, 18))];
            stdout :=
              [FileNotFound "gone.mkv"; FileNotFound "gone.mkv";
               PreferredLine ("..." ++ Cases.times 93 Cases.e_acute ++ ".mkv");
               Separator] |}.
Proof. vm_compute. repeat split; reflexivity. Qed.

Lemma stored_media_score_range_witness :
  exists media_score vbps,
    dict_get "movie.mkv"
      (FILE_MEDIA_SCORE
         (world_of
            (analyze_file Sample.path_str Sample.path_exists
               Sample.run_ffprobe "movie.mkv" Sample.empty_world)))
    = Some (media_score, vbps)
    /\ (1.4 <=? media_score) = true
    /\ (media_score <=? 5) = true.
Proof.
  apply (stored_media_score_range Sample.path_str Sample.path_exists
           Sample.run_ffprobe "movie.mkv" Sample.empty_world);
    vm_compute; reflexivity.
Defined.

Lemma media_score_without_audio_stream_witness :
  compute_audio_score (get (streams Sample.one_video) []) = Ok 0
  /\ exists media_score vbps,
       dict_get "one.mkv"
         (FILE_MEDIA_SCORE
            (world_of
               (analyze_file Sample.path_str Sample.path_exists
                  Sample.run_ffprobe "one.mkv" Sample.empty_world)))
       = Some (media_score, vbps)
       /\ (media_score <=? 3.5) = true.
Proof.
  apply (media_score_without_audio_stream Sample.path_str Sample.path_exists
           Sample.run_ffprobe "one.mkv" Sample.empty_world).
  - reflexivity.
  - reflexivity.
  - intros s [<-|[]]. reflexivity.
  - vm_compute. reflexivity.
Defined.

Lemma audio_stream_score_monotone_witness :
  (2.4 <=? 4.6 + 0.1 + 0.15) = true.
Proof.
  apply (audio_stream_score_monotone
           (Sample.audio "eac3" None 2 (Some "128000")
              (Some [("title", "Dolby Atmos")]))
           (Sample.audio "eac3" None 6 (Some "768000")
              (Some [("title", "Dolby Atmos")]))
           128 768);
    vm_compute; (reflexivity || discriminate).
Defined.

Lemma file_audio_score_range_witness :
  (4.6 = 0 <->
   forall s,
     In s [Sample.uhd_dv; Sample.eac3_stereo; Sample.aac_stereo] ->
     opt_string_eqb (codec_type s) "audio" = false)
  /\ (4.6 = 0 \/ ((2 <=? 4.6) = true /\ (4.6 <=? 5) = true)).
Proof.
  apply file_audio_score_range. vm_compute. reflexivity.
Defined.
